(** * Prediction telemetry and drift monitoring: a shallow embedding

    The development follows [src/mlops_churn/database.py] and
    [src/mlops_churn/drift_detection.py].  A Python function that touches
    the database is a function of an explicit [World]: the server's tables,
    the connection objects (a heap indexed by object identity, so that the
    pool and a caller share one object), the module-level pool, a script of
    faults that the network and the server may inject, and a trace of the
    observable calls.  An exception is a [Raise] result, never a stuck or
    missing case.

    The libraries the source calls are modelled next to it, each under its
    own heading: [json] on mappings of scalars, the rows and statements of
    the PostgreSQL server, psycopg2's connections, cursors and
    [ThreadedConnectionPool] (the methods of [psycopg2/pool.py], attribute
    by attribute), [pandas.read_parquet] on a map of paths, and the
    evidently run as an interface.  Floats are a carrier with the three
    operations the source applies to them. *)

From Stdlib Require Import QArith.
From stdpp Require Import gmap strings list fin_maps sorting pretty.

#[local] Close Scope Q_scope.
#[local] Open Scope Z_scope.

(** ** Python values, JSON documents, exceptions *)

(** Python [float] / SQL [FLOAT]: the carrier is abstract; the three
    operations the source applies to a float are the interface. *)
Class PyFloatOps (F : Type) := {
  round3 : F -> F;        (* round(x, 3) *)
  gt_half : F -> bool;    (* x > 0.5 *)
  is_finite : F -> bool;  (* neither nan nor an infinity *)
}.

Inductive exn :=
| PoolError (msg : string)
| OperationalError (msg : string)
| InterfaceError (msg : string)
| ProgrammingError (msg : string)
| DataError (msg : string)
| TypeError (msg : string)
| FileNotFoundError (path : string)
| ArrowInvalid (path : string)
| LibraryError (msg : string).

Inductive result (A : Type) :=
| Ret (a : A)
| Raise (e : exn).
Arguments Ret {A} a.
Arguments Raise {A} e.

(** A scalar of a feature mapping as the caller holds it. [PyObject] stands
    for any value [json.dumps] has no encoder for. *)
Inductive pyval (F : Type) :=
| PyNone
| PyBool (b : bool)
| PyInt (n : Z)
| PyFloat (x : F)
| PyStr (s : string)
| PyObject (repr : string).
Arguments PyNone {F}.
Arguments PyBool {F} b.
Arguments PyInt {F} n.
Arguments PyFloat {F} x.
Arguments PyStr {F} s.
Arguments PyObject {F} repr.

(** A scalar of a stored JSON document. *)
Inductive jsonval (F : Type) :=
| JNull
| JBool (b : bool)
| JInt (n : Z)
| JFloat (x : F)
| JStr (s : string).
Arguments JNull {F}.
Arguments JBool {F} b.
Arguments JInt {F} n.
Arguments JFloat {F} x.
Arguments JStr {F} s.

Abbreviation pydict F := (gmap string (pyval F)).
Abbreviation jsondoc F := (gmap string (jsonval F)).
(** A [pandas.DataFrame] built from a list of records: one row per record. *)
Abbreviation DataFrame F := (list (gmap string (pyval F))).

Definition json_serializable {F} (v : pyval F) : bool :=
  match v with PyObject _ => false | _ => true end.

Definition to_json {F} (v : pyval F) : jsonval F :=
  match v with
  | PyNone | PyObject _ => JNull
  | PyBool b => JBool b
  | PyInt n => JInt n
  | PyFloat x => JFloat x
  | PyStr s => JStr s
  end.

(** [json.dumps(d)] for a mapping of scalars: [TypeError] when some value
    has no JSON encoding. *)
Definition json_dumps {F} (d : pydict F) : result (jsondoc F) :=
  if forallb (fun kv => json_serializable kv.2) (map_to_list d)
  then Ret (to_json <$> d)
  else Raise (TypeError "Object is not JSON serializable").

(** The value psycopg2 hands back for a JSONB column ([json.loads]). *)
Definition of_json {F} (j : jsonval F) : pyval F :=
  match j with
  | JNull => PyNone
  | JBool b => PyBool b
  | JInt n => PyInt n
  | JFloat x => PyFloat x
  | JStr s => PyStr s
  end.

Definition json_loads {F} (j : jsondoc F) : pydict F := of_json <$> j.

(** The server's JSONB input accepts no [NaN] or [Infinity] token. *)
Definition json_finite {F} `{PyFloatOps F} (v : jsonval F) : bool :=
  match v with JFloat x => is_finite x | _ => true end.

Definition jsonb_accepts {F} `{PyFloatOps F} (j : jsondoc F) : bool :=
  forallb (fun kv => json_finite kv.2) (map_to_list j).

(** ** The server: tables and statements *)

Section Server.
Context {F : Type} `{!PyFloatOps F}.

(** One row of [predictions]. *)
Record PredictionRecord := {
  pr_id : Z;
  pr_timestamp : Z;
  pr_input_data : jsondoc F;
  pr_prediction : F;
  pr_model_version : string;
}.

(** One row of [drift_reports]. *)
Record DriftReport := {
  dr_id : Z;
  dr_timestamp : Z;
  dr_drift_detected : bool;
  dr_drift_score : F;
  dr_feature_name : string;
  dr_drift_type : string;
  dr_report_data : jsondoc F;
}.

(** A table with its [SERIAL] sequence. *)
Record Table (A : Type) := { rows : list A; next_id : Z }.
Arguments rows {A} t.
Arguments next_id {A} t.

(** [None] is a table that was never created. *)
Record Database := {
  predictions : option (Table PredictionRecord);
  drift_reports : option (Table DriftReport);
}.

(** The five statements of the source. Timestamps are microseconds. *)
Inductive sql :=
| CreatePredictions
| CreateDriftReports
| InsertPrediction (input_data : jsondoc F) (prediction : F) (model_version : string)
| InsertDriftReport (drift_detected : bool) (drift_score : F)
    (feature_name drift_type : string) (report_data : jsondoc F)
| SelectRecentInputData (since : Z).

(** What a transaction has written and not yet committed. *)
Inductive write :=
| WCreatePredictions
| WCreateDriftReports
| WPrediction (r : PredictionRecord)
| WDriftReport (r : DriftReport).

Definition append_row {A} (r : A) (t : Table A) : Table A :=
  {| rows := rows t ++ [r]; next_id := next_id t |}.

Definition bump {A} (t : Table A) : Table A :=
  {| rows := rows t; next_id := next_id t + 1 |}.

Definition empty_table {A} : Table A := {| rows := []; next_id := 1 |}.

Definition apply_write (d : Database) (x : write) : Database :=
  match x with
  | WCreatePredictions =>
      {| predictions := Some (default empty_table (predictions d));
         drift_reports := drift_reports d |}
  | WCreateDriftReports =>
      {| predictions := predictions d;
         drift_reports := Some (default empty_table (drift_reports d)) |}
  | WPrediction r =>
      {| predictions := append_row r <$> predictions d;
         drift_reports := drift_reports d |}
  | WDriftReport r =>
      {| predictions := predictions d;
         drift_reports := append_row r <$> drift_reports d |}
  end.

Definition apply_writes (d : Database) (xs : list write) : Database :=
  foldl apply_write d xs.

(** [ORDER BY timestamp DESC]: [newer a b] when [a] may precede [b]. *)
Definition newer (a b : PredictionRecord) : Prop := pr_timestamp b <= pr_timestamp a.

#[global] Instance newer_dec a b : Decision (newer a b) :=
  Z_le_dec (pr_timestamp b) (pr_timestamp a).

Definition in_window (since : Z) (r : PredictionRecord) : Prop := since <= pr_timestamp r.

#[global] Instance in_window_dec since r : Decision (in_window since r) :=
  Z_le_dec since (pr_timestamp r).

(** [SELECT input_data FROM predictions WHERE timestamp >= since
     ORDER BY timestamp DESC LIMIT 50] over the rows of the table.  Rows of
    equal timestamp come in the order the sort leaves them; the server
    promises none, and no property below depends on it. *)
Definition select_recent (since : Z) (rs : list PredictionRecord) : list PredictionRecord :=
  take 50 (merge_sort newer (filter (in_window since) rs)).

(** The outcome of one statement on the tables a session sees: the rows it
    returns, what it writes, and the sequence values it consumes (a
    sequence is advanced at once, outside any transaction). *)
Record effect := {
  eff_rows : list (jsondoc F);
  eff_writes : list write;
  eff_seq_predictions : bool;
  eff_seq_drift_reports : bool;
}.

Definition run_sql (now : Z) (view : Database) (s : sql) : result effect :=
  match s with
  | CreatePredictions =>
      Ret {| eff_rows := []; eff_writes := [WCreatePredictions];
             eff_seq_predictions := false; eff_seq_drift_reports := false |}
  | CreateDriftReports =>
      Ret {| eff_rows := []; eff_writes := [WCreateDriftReports];
             eff_seq_predictions := false; eff_seq_drift_reports := false |}
  | InsertPrediction input_data prediction model_version =>
      match predictions view with
      | None => Raise (ProgrammingError "relation predictions does not exist")
      | Some t =>
          if negb (jsonb_accepts input_data)
          then Raise (DataError "invalid input syntax for type json")
          else if (50 <? String.length model_version)%nat
          then Raise (DataError "value too long for type character varying(50)")
          else Ret {| eff_rows := [];
                      eff_writes := [WPrediction
                        {| pr_id := next_id t; pr_timestamp := now;
                           pr_input_data := input_data; pr_prediction := prediction;
                           pr_model_version := model_version |}];
                      eff_seq_predictions := true; eff_seq_drift_reports := false |}
      end
  | InsertDriftReport drift_detected drift_score feature_name drift_type report_data =>
      match drift_reports view with
      | None => Raise (ProgrammingError "relation drift_reports does not exist")
      | Some t =>
          if negb (jsonb_accepts report_data)
          then Raise (DataError "invalid input syntax for type json")
          else if (100 <? String.length feature_name)%nat
          then Raise (DataError "value too long for type character varying(100)")
          else if (50 <? String.length drift_type)%nat
          then Raise (DataError "value too long for type character varying(50)")
          else Ret {| eff_rows := [];
                      eff_writes := [WDriftReport
                        {| dr_id := next_id t; dr_timestamp := now;
                           dr_drift_detected := drift_detected; dr_drift_score := drift_score;
                           dr_feature_name := feature_name; dr_drift_type := drift_type;
                           dr_report_data := report_data |}];
                      eff_seq_predictions := false; eff_seq_drift_reports := true |}
      end
  | SelectRecentInputData since =>
      match predictions view with
      | None => Raise (ProgrammingError "relation predictions does not exist")
      | Some t =>
          Ret {| eff_rows := pr_input_data <$> select_recent since (rows t);
                 eff_writes := []; eff_seq_predictions := false;
                 eff_seq_drift_reports := false |}
      end
  end.

Definition advance_sequences (e : effect) (d : Database) : Database :=
  {| predictions :=
       if eff_seq_predictions e then bump <$> predictions d else predictions d;
     drift_reports :=
       if eff_seq_drift_reports e then bump <$> drift_reports d else drift_reports d |}.

End Server.

Arguments rows {A} t.
Arguments next_id {A} t.
Arguments PredictionRecord F : clear implicits.
Arguments DriftReport F : clear implicits.
Arguments Database F : clear implicits.
Arguments sql F : clear implicits.
Arguments write F : clear implicits.
Arguments effect F : clear implicits.

(** ** The world of the process *)

(** [psycopg2.extensions.TRANSACTION_STATUS_*], as [conn.info.transaction_status]. *)
Inductive tx_status := TxIdle | TxActive | TxInTrans | TxInError | TxUnknown.

#[global] Instance tx_status_eq_dec : EqDecision tx_status.
Proof. solve_decision. Defined.

(** What the server and the network may do to the next round trip. *)
Inductive fault :=
| NoFault                 (* the round trip completes *)
| StatementFails          (* the server rejects the statement *)
| ConnectionLost.         (* the connection breaks *)

(** Who called [psycopg2.connect]. *)
Inductive origin := ByPool | Direct.

#[global] Instance origin_eq_dec : EqDecision origin.
Proof. solve_decision. Defined.

Inductive level := INFO | WARNING | ERROR.

Inductive event (F : Type) :=
| EvConnect (o : origin)
| EvLog (lvl : level) (msg : string) (cause : option exn)
| EvAtexitRegister
| EvRunReport
| EvPrintDrift (drifted_columns : Z) (drift_share : F)
| EvPrintNoDrift (drift_share : F).
Arguments EvConnect {F} o.
Arguments EvLog {F} lvl msg cause.
Arguments EvAtexitRegister {F}.
Arguments EvRunReport {F}.
Arguments EvPrintDrift {F} drifted_columns drift_share.
Arguments EvPrintNoDrift {F} drift_share.

(** [config.Config]: the fields the monitoring code reads. *)
Record Config := {
  USE_CLOUD_STORAGE : bool;
  BUCKET_NAME : string;
  LOCAL_REFERENCE_PATH : string;
  CLOUD_REFERENCE_PATH : string;
}.

(** [psycopg2.pool.ThreadedConnectionPool]: the attributes of
    [AbstractConnectionPool].  Connections are held by identity. *)
Record Pool := {
  minconn : nat;
  maxconn : nat;
  pool_closed : bool;
  _pool : list nat;
  _used : gmap nat nat;
  _rused : gmap nat nat;
  _keys : nat;
}.

Section World.
Context {F : Type}.

(** A psycopg2 connection object. *)
Record Connection := {
  autocommit : bool;
  closed : bool;
  status : tx_status;
  pending : list (write F);
}.

(** What a path of the reference storage holds. *)
Inductive FileContent :=
| Parquet (table : DataFrame F)
| Garbage.

Record World := {
  clock : Z;
  config : Config;
  files : gmap string FileContent;
  db : Database F;
  conns : gmap nat Connection;
  next_conn : nat;
  _connection_pool : option Pool;
  faults : list fault;
  trace : list (event F);
}.

Definition set_db (d : Database F) (w : World) : World :=
  {| clock := clock w; config := config w; files := files w; db := d;
     conns := conns w; next_conn := next_conn w;
     _connection_pool := _connection_pool w; faults := faults w; trace := trace w |}.

Definition set_conns (cs : gmap nat Connection) (w : World) : World :=
  {| clock := clock w; config := config w; files := files w; db := db w;
     conns := cs; next_conn := next_conn w;
     _connection_pool := _connection_pool w; faults := faults w; trace := trace w |}.

Definition set_next_conn (n : nat) (w : World) : World :=
  {| clock := clock w; config := config w; files := files w; db := db w;
     conns := conns w; next_conn := n;
     _connection_pool := _connection_pool w; faults := faults w; trace := trace w |}.

Definition set_connection_pool (p : option Pool) (w : World) : World :=
  {| clock := clock w; config := config w; files := files w; db := db w;
     conns := conns w; next_conn := next_conn w;
     _connection_pool := p; faults := faults w; trace := trace w |}.

Definition set_faults (fs : list fault) (w : World) : World :=
  {| clock := clock w; config := config w; files := files w; db := db w;
     conns := conns w; next_conn := next_conn w;
     _connection_pool := _connection_pool w; faults := fs; trace := trace w |}.

Definition set_trace (t : list (event F)) (w : World) : World :=
  {| clock := clock w; config := config w; files := files w; db := db w;
     conns := conns w; next_conn := next_conn w;
     _connection_pool := _connection_pool w; faults := faults w; trace := t |}.

(** ** Computations: state passing with exceptions *)

Definition M (A : Type) : Type := World -> result A * World.

Definition ret {A} (a : A) : M A := fun w => (Ret a, w).

Definition raise {A} (e : exn) : M A := fun w => (Raise e, w).

Definition bind {A B} (m : M A) (k : A -> M B) : M B :=
  fun w => match m w with
           | (Ret a, w1) => k a w1
           | (Raise e, w1) => (Raise e, w1)
           end.

(** [try: m except Exception as e: h e] *)
Definition try_except {A} (m : M A) (h : exn -> M A) : M A :=
  fun w => match m w with
           | (Ret a, w1) => (Ret a, w1)
           | (Raise e, w1) => h e w1
           end.

(** The suite of a [try] that binds the local [cur] on its way: its outcome
    together with the local, when the suite got as far as binding it. *)
Definition Suite (L A : Type) : Type := World -> (option L * result A) * World.

(** [cur = m; rest cur] *)
Definition bind_local {L A} (m : M L) (rest : L -> M A) : Suite L A :=
  fun w => match m w with
           | (Ret l, w1) => let (r, w2) := rest l w1 in ((Some l, r), w2)
           | (Raise e, w1) => ((None, Raise e), w1)
           end.

(** [m; s], for the statements before the local is bound. *)
Definition before_local {L A} (m : M unit) (s : Suite L A) : Suite L A :=
  fun w => match m w with
           | (Ret _, w1) => s w1
           | (Raise e, w1) => ((None, Raise e), w1)
           end.

(** [try: s except Exception as e: h e finally: fin locals]: the [finally]
    suite runs last on every path, and an exception it raises replaces the
    outcome reached so far. *)
Definition try_except_finally {L A} (s : Suite L A) (h : exn -> M A)
    (fin : option L -> M unit) : M A :=
  fun w =>
    let '((l, r), w1) := s w in
    let (r', w2) := match r with
                    | Ret a => (Ret a, w1)
                    | Raise e => h e w1
                    end in
    match fin l w2 with
    | (Ret _, w3) => (r', w3)
    | (Raise e, w3) => (Raise e, w3)
    end.

Definition emit (e : event F) : M unit :=
  fun w => (Ret tt, set_trace (trace w ++ [e]) w).

(** The outcome of the next round trip: the head of the script, and no
    fault once the script is used up. *)
Definition next_fault : M fault :=
  fun w => (Ret (hd NoFault (faults w)), set_faults (tl (faults w)) w).

End World.

Arguments Connection F : clear implicits.
Arguments FileContent F : clear implicits.
Arguments World F : clear implicits.
Arguments M F A : clear implicits.
Arguments Suite F L A : clear implicits.

Declare Scope py_scope.
Delimit Scope py_scope with py.
Notation "x <- m ;; k" := (bind m (fun x => k))
  (at level 100, m at next level, right associativity) : py_scope.
Notation "m ;;; k" := (bind m (fun _ => k))
  (at level 100, right associativity) : py_scope.
#[local] Open Scope py_scope.

(** ** psycopg2: connections and cursors *)

(** A cursor knows its connection ([cursor.connection]). *)
Record cursor := { connection : nat }.

Section Psycopg2.
Context {F : Type} `{!PyFloatOps F}.

Definition fresh_connection : Connection F :=
  {| autocommit := false; closed := false; status := TxIdle; pending := [] |}.

(** The object behind a reference; a reference always has one. *)
Definition deref (c : nat) : M F (Connection F) :=
  fun w => match conns w !! c with
           | Some k => (Ret k, w)
           | None => (Raise (InterfaceError "connection already closed"), w)
           end.

Definition store (c : nat) (k : Connection F) : M F unit :=
  fun w => (Ret tt, set_conns (<[c := k]> (conns w)) w).

Definition broken (k : Connection F) : Connection F :=
  {| autocommit := autocommit k; closed := true; status := TxUnknown; pending := [] |}.

Definition settled (k : Connection F) : Connection F :=
  {| autocommit := autocommit k; closed := closed k; status := TxIdle; pending := [] |}.

Definition with_status (s : tx_status) (k : Connection F) : Connection F :=
  {| autocommit := autocommit k; closed := closed k; status := s; pending := pending k |}.

(** [psycopg2.connect(...)]: one round trip; a new object on success. *)
Definition psycopg2_connect (o : origin) : M F nat :=
  emit (EvConnect o) ;;;
  f <- next_fault ;;
  match f with
  | NoFault =>
      fun w => let c := next_conn w in
               (Ret c, set_next_conn (S c) (set_conns (<[c := fresh_connection]> (conns w)) w))
  | _ => raise (OperationalError "could not connect to server")
  end.

(** [conn.cursor()] *)
Definition conn_cursor (c : nat) : M F cursor :=
  k <- deref c ;;
  if closed k then raise (InterfaceError "connection already closed")
  else ret {| connection := c |}.

(** [cur.close()] *)
Definition cur_close (cur : cursor) : M F unit := ret tt.

(** [conn.autocommit = value] *)
Definition set_autocommit (c : nat) (value : bool) : M F unit :=
  k <- deref c ;;
  if closed k then raise (InterfaceError "connection already closed")
  else if bool_decide (status k = TxIdle)
  then store c {| autocommit := value; closed := closed k; status := status k;
                  pending := pending k |}
  else raise (ProgrammingError "set_session cannot be used inside a transaction").

(** [cur.execute(statement)] followed by [cur.fetchall()]: the rows of the
    result set.  Outside autocommit the first statement opens a transaction
    and the writes stay pending on the connection; a sequence value is
    consumed at once. *)
Definition cur_execute (cur : cursor) (s : sql F) : M F (list (jsondoc F)) :=
  let c := connection cur in
  k <- deref c ;;
  if closed k then raise (InterfaceError "connection already closed")
  else
    f <- next_fault ;;
    match f with
    | ConnectionLost =>
        store c (broken k) ;;;
        raise (OperationalError "server closed the connection unexpectedly")
    | StatementFails =>
        (if autocommit k then ret tt else store c (with_status TxInError k)) ;;;
        raise (ProgrammingError "the server rejected the statement")
    | NoFault =>
        if bool_decide (status k = TxInError)
        then raise (ProgrammingError "current transaction is aborted")
        else
          fun w =>
            let begun := if bool_decide (status k = TxIdle) then [] else pending k in
            match run_sql (clock w) (apply_writes (db w) begun) s with
            | Raise e =>
                ((if autocommit k then ret tt else store c (with_status TxInError k)) ;;;
                 raise e) w
            | Ret eff =>
                let d := advance_sequences eff (db w) in
                if autocommit k
                then (Ret (eff_rows eff), set_db (apply_writes d (eff_writes eff)) w)
                else (Ret (eff_rows eff),
                      set_conns (<[c := {| autocommit := false; closed := false;
                                            status := TxInTrans;
                                            pending := begun ++ eff_writes eff |}]> (conns w))
                        (set_db d w))
            end
    end.

(** [conn.commit()]: nothing to send when no transaction is open. *)
Definition conn_commit (c : nat) : M F unit :=
  k <- deref c ;;
  if closed k then raise (InterfaceError "connection already closed")
  else if autocommit k || bool_decide (status k = TxIdle) then ret tt
  else
    f <- next_fault ;;
    match f with
    | ConnectionLost =>
        store c (broken k) ;;;
        raise (OperationalError "server closed the connection unexpectedly")
    | StatementFails =>
        store c (settled k) ;;;
        raise (OperationalError "the server could not commit the transaction")
    | NoFault =>
        if bool_decide (status k = TxInError) then store c (settled k)
        else fun w => (Ret tt, set_conns (<[c := settled k]> (conns w))
                                 (set_db (apply_writes (db w) (pending k)) w))
    end.

(** [conn.rollback()]: the server never rejects it; a lost connection does. *)
Definition conn_rollback (c : nat) : M F unit :=
  k <- deref c ;;
  if closed k then raise (InterfaceError "connection already closed")
  else if autocommit k || bool_decide (status k = TxIdle) then ret tt
  else
    f <- next_fault ;;
    match f with
    | ConnectionLost =>
        store c (broken k) ;;;
        raise (OperationalError "server closed the connection unexpectedly")
    | _ => store c (settled k)
    end.

(** [conn.close()] *)
Definition conn_close (c : nat) : M F unit :=
  k <- deref c ;; store c (broken k).

(** [with conn: body]: psycopg2 commits when the body returns and rolls
    back when it raises; the connection is not closed. *)
Definition with_connection {A} (c : nat) (body : M F A) : M F A :=
  fun w => match body w with
           | (Ret a, w1) =>
               match conn_commit c w1 with
               | (Ret _, w2) => (Ret a, w2)
               | (Raise e, w2) => (Raise e, w2)
               end
           | (Raise e, w1) =>
               match conn_rollback c w1 with
               | (Ret _, w2) => (Raise e, w2)
               | (Raise e', w2) => (Raise e', w2)
               end
           end.

(** [with conn.cursor() as cur: body cur]: the cursor is closed on exit. *)
Definition with_cursor {A} (c : nat) (body : cursor -> M F A) : M F A :=
  cur <- conn_cursor c ;;
  fun w => match body cur w with
           | (r, w1) =>
               match cur_close cur w1 with
               | (Ret _, w2) => (r, w2)
               | (Raise e, w2) => (Raise e, w2)
               end
           end.

End Psycopg2.

(** ** psycopg2.pool: [ThreadedConnectionPool] *)

Section PoolMethods.
Context {F : Type} `{!PyFloatOps F}.

(** A method of the pool object: it may change the object before it raises. *)
Definition Method (A : Type) : Type := Pool -> World F -> (result A * Pool) * World F.

Definition with_pool (l : list nat) (p : Pool) : Pool :=
  {| minconn := minconn p; maxconn := maxconn p; pool_closed := pool_closed p;
     _pool := l; _used := _used p; _rused := _rused p; _keys := _keys p |}.

Definition with_used (u r : gmap nat nat) (p : Pool) : Pool :=
  {| minconn := minconn p; maxconn := maxconn p; pool_closed := pool_closed p;
     _pool := _pool p; _used := u; _rused := r; _keys := _keys p |}.

Definition with_keys (n : nat) (p : Pool) : Pool :=
  {| minconn := minconn p; maxconn := maxconn p; pool_closed := pool_closed p;
     _pool := _pool p; _used := _used p; _rused := _rused p; _keys := n |}.

(** [list.pop()]: the last element and what stays. *)
Definition list_pop {A} (l : list A) : option (list A * A) :=
  match reverse l with
  | [] => None
  | x :: r => Some (reverse r, x)
  end.

(** [_connect(key)]: a new connection, idle when no key is given. *)
Definition _connect (key : option nat) : Method nat :=
  fun p w =>
    match psycopg2_connect ByPool w with
    | (Ret c, w1) =>
        match key with
        | Some k => ((Ret c, with_used (<[k := c]> (_used p)) (<[c := k]> (_rused p)) p), w1)
        | None => ((Ret c, with_pool (_pool p ++ [c]) p), w1)
        end
    | (Raise e, w1) => ((Raise e, p), w1)
    end.

(** [getconn()] with no key: a fresh key each time. *)
Definition _getconn : Method nat :=
  fun p w =>
    if pool_closed p then ((Raise (PoolError "connection pool is closed"), p), w)
    else
      let key := S (_keys p) in
      let p1 := with_keys key p in
      match _used p1 !! key with
      | Some c => ((Ret c, p1), w)
      | None =>
          match list_pop (_pool p1) with
          | Some (rest, c) =>
              ((Ret c, with_used (<[key := c]> (_used p1)) (<[c := key]> (_rused p1))
                         (with_pool rest p1)), w)
          | None =>
              if bool_decide (size (_used p1) = maxconn p1)
              then ((Raise (PoolError "connection pool exhausted"), p1), w)
              else _connect (Some key) p1 w
          end
      end.

(** [putconn(conn)]: an open connection goes back to the idle list while
    that list is shorter than [minconn], after a rollback if a transaction
    is open; any other connection is dropped.  Then the key is forgotten. *)
Definition _putconn (c : nat) : Method unit :=
  fun p w =>
    if pool_closed p then ((Raise (PoolError "connection pool is closed"), p), w)
    else
      match _rused p !! c with
      | None => ((Raise (PoolError "trying to put unkeyed connection"), p), w)
      | Some key =>
          let '(r, p1, w1) :=
            if (length (_pool p) <? minconn p)%nat
            then
              match deref c w with
              | (Raise e, w0) => (Raise e, p, w0)
              | (Ret k, w0) =>
                  if closed k then (Ret tt, p, w0)
                  else if bool_decide (status k = TxUnknown)
                  then let (r, w1) := conn_close c w0 in (r, p, w1)
                  else if bool_decide (status k = TxIdle)
                  then (Ret tt, with_pool (_pool p ++ [c]) p, w0)
                  else
                    match conn_rollback c w0 with
                    | (Ret _, w1) => (Ret tt, with_pool (_pool p ++ [c]) p, w1)
                    | (Raise e, w1) => (Raise e, p, w1)
                    end
              end
            else let (r, w1) := conn_close c w in (r, p, w1) in
          match r with
          | Raise e => ((Raise e, p1), w1)
          | Ret _ =>
              match _used p1 !! key with
              | None => ((Raise (LibraryError "KeyError"), p1), w1)
              | Some _ =>
                  ((Ret tt, with_used (delete key (_used p1)) (delete c (_rused p1)) p1), w1)
              end
          end
      end.

(** [ThreadedConnectionPool(minconn, maxconn, ...)]: [minconn] connections
    are opened at once. *)
Fixpoint open_idle (n : nat) : Method unit :=
  fun p w =>
    match n with
    | O => ((Ret tt, p), w)
    | S n' =>
        match _connect None p w with
        | ((Ret _, p1), w1) => open_idle n' p1 w1
        | ((Raise e, p1), w1) => ((Raise e, p1), w1)
        end
    end.

Definition ThreadedConnectionPool (minconn maxconn : nat) : M F Pool :=
  fun w =>
    let p0 := {| minconn := minconn; maxconn := maxconn; pool_closed := false;
                 _pool := []; _used := ∅; _rused := ∅; _keys := 0 |} in
    match open_idle minconn p0 w with
    | ((Ret _, p), w1) => (Ret p, w1)
    | ((Raise e, _), w1) => (Raise e, w1)
    end.

(** A method called on the module's pool object. *)
Definition on_pool {A} (m : Method A) : M F A :=
  fun w =>
    match _connection_pool w with
    | None => (Raise (LibraryError "AttributeError"), w)
    | Some p => let '((r, p1), w1) := m p w in (r, set_connection_pool (Some p1) w1)
    end.

(** ** database.py *)

(** [get_connection_pool()]: the pool is built on first use and kept. *)
Definition get_connection_pool : M F unit :=
  fun w =>
    match _connection_pool w with
    | Some _ => (Ret tt, w)
    | None =>
        match ThreadedConnectionPool 1 5 w with
        | (Ret p, w1) => emit EvAtexitRegister (set_connection_pool (Some p) w1)
        | (Raise e, w1) => (Raise e, w1)
        end
    end.

(** [get_db_connection()]: [None] on any failure, which is logged. *)
Definition get_db_connection : M F (option nat) :=
  try_except
    (get_connection_pool ;;;
     c <- on_pool _getconn ;;
     ret (Some c))
    (fun e =>
       emit (EvLog ERROR "Database connection failed" (Some e)) ;;;
       ret None).

(** [return_connection(conn)] *)
Definition return_connection (conn : option nat) : M F unit :=
  match conn with
  | Some c => get_connection_pool ;;; on_pool (_putconn c)
  | None => ret tt
  end.

(** The [finally] suite the three writers share:
    [if "cur" in locals(): cur.close()] and [return_connection(conn)]. *)
Definition close_and_return (c : nat) (cur : option cursor) : M F unit :=
  match cur with
  | Some cu => cur_close cu
  | None => ret tt
  end ;;;
  return_connection (Some c).

(** [initialize_database()] *)
Definition initialize_database : M F bool :=
  conn <- get_db_connection ;;
  match conn with
  | None => ret false
  | Some c =>
      try_except_finally
        (before_local (set_autocommit c true)
           (bind_local (conn_cursor c) (fun cur =>
              cur_execute cur CreatePredictions ;;;
              cur_execute cur CreateDriftReports ;;;
              emit (EvLog INFO "Database tables initialized successfully" None) ;;;
              ret true)))
        (fun e =>
           emit (EvLog ERROR "Database initialization failed" (Some e)) ;;;
           ret false)
        (close_and_return c)
  end.

(** [log_prediction(input_data, prediction, model_version)] *)
Definition log_prediction (input_data : pydict F) (prediction : F)
    (model_version : string) : M F bool :=
  conn <- get_db_connection ;;
  match conn with
  | None => ret false
  | Some c =>
      try_except_finally
        (bind_local (conn_cursor c) (fun cur =>
           doc <- (fun w => (json_dumps input_data, w)) ;;
           cur_execute cur (InsertPrediction doc prediction model_version) ;;;
           conn_commit c ;;;
           ret true))
        (fun e =>
           emit (EvLog ERROR "Error logging prediction" (Some e)) ;;;
           ret false)
        (close_and_return c)
  end.

(** [log_drift_result(drift_detected, drift_score, feature_name, drift_type,
    report_data)] *)
Definition log_drift_result (drift_detected : bool) (drift_score : F)
    (feature_name drift_type : string) (report_data : pydict F) : M F bool :=
  conn <- get_db_connection ;;
  match conn with
  | None => ret false
  | Some c =>
      try_except_finally
        (bind_local (conn_cursor c) (fun cur =>
           doc <- (fun w => (json_dumps report_data, w)) ;;
           cur_execute cur
             (InsertDriftReport drift_detected drift_score feature_name drift_type doc) ;;;
           conn_commit c ;;;
           emit (EvLog INFO "Drift result logged" None) ;;;
           ret true))
        (fun e =>
           emit (EvLog ERROR "Error logging drift result" (Some e)) ;;;
           ret false)
        (close_and_return c)
  end.

End PoolMethods.

(** ** drift_detection.py *)

(** The evidently run of [detect_drift]:
    [Report([DataDriftPreset()]).run(current, reference)] under the fixed
    schema, read at [result.dict()["metrics"][0]["value"]] as
    [(int(value["count"]), float(value["share"]))].  The statistics are the
    library's; any exception of the run is a [Raise]. *)
Class Evidently (F : Type) := {
  data_drift : DataFrame F -> DataFrame F -> result (Z * F);
}.

Section DriftDetection.
Context {F : Type} `{!PyFloatOps F} `{!Evidently F}.

(** [timedelta(days=7)] in microseconds. *)
Definition seven_days : Z := 7 * 86400 * 1000000.

(** [pd.read_parquet(path)] *)
Definition read_parquet (path : string) : M F (DataFrame F) :=
  fun w => match files w !! path with
           | Some (Parquet t) => (Ret t, w)
           | Some Garbage => (Raise (ArrowInvalid path), w)
           | None => (Raise (FileNotFoundError path), w)
           end.

(** [get_recent_predictions()]: a connection of its own, opened with
    [psycopg2.connect] on the [DB_CONN] settings. *)
Definition get_recent_predictions : M F (option (DataFrame F)) :=
  conn <- psycopg2_connect Direct ;;
  with_connection conn
    (with_cursor conn (fun cur =>
       since <- (fun w => (Ret (clock w - seven_days), w)) ;;
       rows <- cur_execute cur (SelectRecentInputData since) ;;
       ret (if (10 <=? length rows)%nat then Some (json_loads <$> rows) else None))).

(** [load_reference_data()] *)
Definition load_reference_data : M F (DataFrame F) :=
  fun w =>
    if USE_CLOUD_STORAGE (config w)
    then read_parquet ("gs://" +:+ BUCKET_NAME (config w) +:+ "/" +:+
                       CLOUD_REFERENCE_PATH (config w)) w
    else read_parquet (LOCAL_REFERENCE_PATH (config w)) w.

(** The arguments [detect_drift] gives to [log_drift_result]. *)
Record drift_args := {
  a_drift_detected : bool;
  a_drift_score : F;
  a_feature_name : string;
  a_drift_type : string;
  a_report_data : pydict F;
}.

Definition drift_report_args (share : F) (count : Z) (current_df : DataFrame F)
    : drift_args :=
  let drift_share := round3 share in
  let drifted_columns := count in
  let dataset_drift := gt_half drift_share in
  {| a_drift_detected := dataset_drift;
     a_drift_score := drift_share;
     a_feature_name := pretty drifted_columns +:+ "_columns_drifted";
     a_drift_type := "data_drift";
     a_report_data :=
       <["drifted_columns" := PyInt drifted_columns]>
         (<["drift_share" := PyFloat drift_share]>
            (<["sample_size" := PyInt (Z.of_nat (length current_df))]> ∅)) |}.

(** [detect_drift()].  The two [astype("object")] assignments on the
    [Gender] column change no value and no row count. *)
Definition detect_drift : M F bool :=
  reference_df <- load_reference_data ;;
  current <- get_recent_predictions ;;
  match current with
  | None => ret false
  | Some current_df =>
      emit EvRunReport ;;;
      drift_data <- (fun w => (data_drift current_df reference_df, w)) ;;
      let a := drift_report_args drift_data.2 drift_data.1 current_df in
      log_drift_result (a_drift_detected a) (a_drift_score a) (a_feature_name a)
        (a_drift_type a) (a_report_data a) ;;;
      emit (if a_drift_detected a
            then EvPrintDrift drift_data.1 (a_drift_score a)
            else EvPrintNoDrift (a_drift_score a)) ;;;
      ret true
  end.

End DriftDetection.

Arguments drift_args F : clear implicits.

(** ** Invariant of the module's pool *)

Section PoolInvariant.
Context {F : Type}.

(** An idle connection is open, has no transaction, and is an object that
    was allocated. *)
Definition idle_ok (w : World F) (c : nat) : bool :=
  match conns w !! c with
  | Some k => negb (closed k) && bool_decide (status k = TxIdle) && (c <? next_conn w)%nat
  | None => false
  end.

(** The pool of [get_connection_pool]: at most [minconn = 1] idle
    connections, all of them sound; every key in use was handed out by
    [_getkey]; [_rused] is the inverse of [_used]. *)
Definition pool_ok (w : World F) : bool :=
  match _connection_pool w with
  | None => true
  | Some p =>
      (minconn p =? 1)%nat && (maxconn p =? 5)%nat
      && (length (_pool p) <=? minconn p)%nat
      && forallb (idle_ok w) (_pool p)
      && forallb (fun kc => (kc.1 <=? _keys p)%nat) (map_to_list (_used p))
      && forallb (fun ck => bool_decide (_used p !! ck.2 = Some ck.1)) (map_to_list (_rused p))
  end.

Definition prediction_rows (w : World F) : list (PredictionRecord F) :=
  from_option rows [] (predictions (db w)).

Definition report_rows (w : World F) : list (DriftReport F) :=
  from_option rows [] (drift_reports (db w)).

(** The connections the pool has handed out and not got back. *)
Definition in_use (w : World F) : gmap nat nat :=
  from_option _rused ∅ (_connection_pool w).

Definition idle (w : World F) : list nat :=
  from_option _pool [] (_connection_pool w).

(** The next [n] round trips meet no fault. *)
Definition faults_clear (n : nat) (w : World F) : bool :=
  forallb (fun f => match f with NoFault => true | _ => false end) (take n (faults w)).

Definition is_direct_connect (e : event F) : bool :=
  match e with EvConnect Direct => true | _ => false end.

(** How often the trace shows a connection opened outside the pool. *)
Definition direct_connects (t : list (event F)) : nat :=
  length (List.filter is_direct_connect t).

End PoolInvariant.

(** ** Vocabulary of the properties

    The predicates the lemmas are stated with, and the suites of the three
    writers under a name of their own, cut where the proofs reason about
    them. *)

Section Vocabulary.
Context {F : Type} `{!PyFloatOps F}.

(** The invariant of [pool_ok], as propositions. *)
Record pool_inv (w : World F) (p : Pool) : Prop := {
  inv_minconn : minconn p = 1%nat;
  inv_maxconn : maxconn p = 5%nat;
  inv_idle_short : (length (_pool p) <= 1)%nat;
  inv_idle_ok : forall c, c ∈ _pool p -> idle_ok w c = true;
  inv_keys : forall k c, _used p !! k = Some c -> (k <= _keys p)%nat;
  inv_rused : forall c k, _rused p !! c = Some k -> _used p !! k = Some c;
}.

(** The keys in use, with the connection each was given. *)
Definition used_of (w : World F) : gmap nat nat :=
  from_option _used ∅ (_connection_pool w).

(** Nothing but the database, the connections, the pool, the faults and the
    log has changed, and no connection was opened outside the pool. *)
Record same_site (w w' : World F) : Prop := {
  site_clock : clock w' = clock w;
  site_config : config w' = config w;
  site_files : files w' = files w;
  site_direct : direct_connects (trace w') = direct_connects (trace w);
}.

(** [get_db_connection] has taken [w] to [w1] and handed out [c]: the pool
    [p] holds it under the fresh [key], nothing is idle, and the connection
    [k] is open with no transaction. *)
Record lent (w w1 : World F) (c : nat) (p : Pool) (key : nat) (k : Connection F)
    : Prop := {
  lent_is : _connection_pool w1 = Some p;
  lent_open : pool_closed p = false;
  lent_idle : _pool p = [];
  lent_rused : _rused p !! c = Some key;
  lent_used : _used p = <[key := c]> (used_of w);
  lent_fresh : used_of w !! key = None;
  lent_alloc : (c < next_conn w1)%nat;
  lent_lookup : conns w1 !! c = Some k;
  lent_conn_open : closed k = false;
  lent_conn_idle : status k = TxIdle;
}.

(** The pool once [putconn] has forgotten the key of [c]. *)
Definition released (c key : nat) (p : Pool) : Pool :=
  with_used (delete key (_used p)) (delete c (_rused p)) p.

(** Two states of the server with the same tables and the same rows. *)
Definition same_rows (d d' : Database F) : Prop :=
  rows <$> predictions d' = rows <$> predictions d
  /\ rows <$> drift_reports d' = rows <$> drift_reports d.

(** A computation that only writes to the trace, and never a direct connect. *)
Record quiet (w w' : World F) : Prop := {
  quiet_clock : clock w' = clock w;
  quiet_config : config w' = config w;
  quiet_files : files w' = files w;
  quiet_db : db w' = db w;
  quiet_conns : conns w' = conns w;
  quiet_next_conn : next_conn w' = next_conn w;
  quiet_pool : _connection_pool w' = _connection_pool w;
  quiet_faults : faults w' = faults w;
  quiet_direct : direct_connects (trace w') = direct_connects (trace w);
}.

(** The guarded statement the two [log_*] functions share. *)
Definition guarded_insert (c : nat) (payload : pydict F) (stmt : jsondoc F -> sql F)
    (msg : string) (after : M F bool) : M F bool :=
  try_except_finally
    (bind_local (conn_cursor c) (fun cur =>
       doc <- (fun w => (json_dumps payload, w)) ;;
       cur_execute cur (stmt doc) ;;;
       conn_commit c ;;;
       after))
    (fun e => emit (EvLog ERROR msg (Some e)) ;;; ret false)
    (close_and_return c).

(** The state of the connection when the [try] suite is left. *)
Inductive conn_left (k : Connection F) : Prop :=
| left_closed : closed k = true -> conn_left k
| left_idle : closed k = false -> status k = TxIdle -> conn_left k
| left_in_error :
    closed k = false -> status k = TxInError -> autocommit k = false -> conn_left k.

(** The [try] suite of the two [log_*] functions. *)
Definition insert_suite (c : nat) (payload : pydict F) (stmt : jsondoc F -> sql F)
    (after : M F bool) : Suite F cursor bool :=
  bind_local (conn_cursor c) (fun cur =>
    doc <- (fun w => (json_dumps payload, w)) ;;
    cur_execute cur (stmt doc) ;;;
    conn_commit c ;;;
    after).

(** What the [finally] suite leaves when it does not raise. *)
Record given_back (w0 w3 : World F) (c : nat) (k2 : Connection F) : Prop := {
  back_ok : pool_ok w3 = true;
  back_used : used_of w3 = used_of w0;
  back_in_use : in_use w3 !! c = None;
  back_open :
    closed k2 = false ->
    idle w3 = [c]
    /\ exists k3, conns w3 !! c = Some k3 /\ closed k3 = false /\ status k3 = TxIdle
                  /\ autocommit k3 = autocommit k2;
  back_closed :
    closed k2 = true -> idle w3 = [] /\ conns w3 !! c = Some k2;
  back_pool :
    exists p3, _connection_pool w3 = Some p3 /\ pool_closed p3 = false;
}.

(** The row [log_prediction] inserts into table [t] at time [now]. *)
Definition prediction_row (t : Table (PredictionRecord F)) (now : Z)
    (doc : jsondoc F) (prediction : F) (model_version : string) : PredictionRecord F :=
  {| pr_id := next_id t; pr_timestamp := now; pr_input_data := doc;
     pr_prediction := prediction; pr_model_version := model_version |}.

(** The row [log_drift_result] inserts into table [t] at time [now]. *)
Definition report_row (t : Table (DriftReport F)) (now : Z) (drift_detected : bool)
    (drift_score : F) (feature_name drift_type : string) (doc : jsondoc F)
    : DriftReport F :=
  {| dr_id := next_id t; dr_timestamp := now; dr_drift_detected := drift_detected;
     dr_drift_score := drift_score; dr_feature_name := feature_name;
     dr_drift_type := drift_type; dr_report_data := doc |}.

(** What a writer leaves of the pool when it returns. *)
Definition pool_restored (w w' : World F) : Prop :=
  pool_ok w' = true /\ used_of w' = used_of w
  /\ forall c w1, get_db_connection w = (Ret (Some c), w1) ->
                  exists k2, given_back w w' c k2.

(** The sample [get_recent_predictions] draws from the rows of the table at
    time [now]: [None] when the query returns fewer than ten rows. *)
Definition recent_sample (now : Z) (rs : list (PredictionRecord F))
    : option (DataFrame F) :=
  let fetched := pr_input_data <$> select_recent (now - seven_days) rs in
  if (10 <=? length fetched)%nat then Some (json_loads <$> fetched) else None.

(** What a reader that opens its own connection leaves untouched. *)
Record read_only (w w' : World F) : Prop := {
  ro_clock : clock w' = clock w;
  ro_config : config w' = config w;
  ro_files : files w' = files w;
  ro_pool : _connection_pool w' = _connection_pool w;
  ro_rows : same_rows (db w) (db w');
  ro_next : (next_conn w <= next_conn w')%nat;
  ro_conns : forall c, (c < next_conn w)%nat -> conns w' !! c = conns w !! c;
}.

(** The [try] suite of [initialize_database]. *)
Definition init_suite (c : nat) : Suite F cursor bool :=
  before_local (set_autocommit c true)
    (bind_local (conn_cursor c) (fun cur =>
       cur_execute cur CreatePredictions ;;;
       cur_execute cur CreateDriftReports ;;;
       emit (EvLog INFO "Database tables initialized successfully" None) ;;;
       ret true)).

(** The acquired connection is out of use: idle again, or closed. *)
Definition handed_back (w w' : World F) (c : nat) : Prop :=
  in_use w' !! c = None /\ used_of w' = used_of w
  /\ (idle w' = [c]
      \/ idle w' = [] /\ exists k, conns w' !! c = Some k /\ closed k = true).

(** The rows of the table inside the seven-day window that ends at [now]. *)
Definition window_rows (now : Z) (rs : list (PredictionRecord F))
    : list (PredictionRecord F) :=
  filter (in_window (now - seven_days)) rs.

End Vocabulary.

Section DriftVocabulary.
Context {F : Type} `{!PyFloatOps F} `{!Evidently F}.

(** The path [load_reference_data] reads. *)
Definition reference_path (cfg : Config) : string :=
  if USE_CLOUD_STORAGE cfg
  then "gs://" +:+ BUCKET_NAME cfg +:+ "/" +:+ CLOUD_REFERENCE_PATH cfg
  else LOCAL_REFERENCE_PATH cfg.

(** The outcomes of [detect_drift], one constructor for each way through
    its body. *)
Inductive drift_run (w : World F) : result bool -> World F -> Prop :=
| run_no_reference e :
    load_reference_data w = (Raise e, w) ->
    drift_run w (Raise e) w
| run_read_failed reference_df e w1 :
    load_reference_data w = (Ret reference_df, w) ->
    get_recent_predictions w = (Raise e, w1) ->
    drift_run w (Raise e) w1
| run_gated reference_df w1 :
    load_reference_data w = (Ret reference_df, w) ->
    get_recent_predictions w = (Ret None, w1) ->
    drift_run w (Ret false) w1
| run_analysis_failed reference_df current_df w1 e :
    load_reference_data w = (Ret reference_df, w) ->
    get_recent_predictions w = (Ret (Some current_df), w1) ->
    data_drift current_df reference_df = Raise e ->
    drift_run w (Raise e) (set_trace (trace w1 ++ [EvRunReport]) w1)
| run_log_raised reference_df current_df w1 count share e w3 :
    load_reference_data w = (Ret reference_df, w) ->
    get_recent_predictions w = (Ret (Some current_df), w1) ->
    data_drift current_df reference_df = Ret (count, share) ->
    (let a := drift_report_args share count current_df in
     log_drift_result (a_drift_detected a) (a_drift_score a) (a_feature_name a)
       (a_drift_type a) (a_report_data a) (set_trace (trace w1 ++ [EvRunReport]) w1)
     = (Raise e, w3)) ->
    drift_run w (Raise e) w3
| run_completed reference_df current_df w1 count share logged w3 :
    load_reference_data w = (Ret reference_df, w) ->
    get_recent_predictions w = (Ret (Some current_df), w1) ->
    data_drift current_df reference_df = Ret (count, share) ->
    (let a := drift_report_args share count current_df in
     log_drift_result (a_drift_detected a) (a_drift_score a) (a_feature_name a)
       (a_drift_type a) (a_report_data a) (set_trace (trace w1 ++ [EvRunReport]) w1)
     = (Ret logged, w3)) ->
    drift_run w (Ret true)
      (set_trace
         (trace w3 ++
          [let a := drift_report_args share count current_df in
           if a_drift_detected a
           then EvPrintDrift count (a_drift_score a)
           else EvPrintNoDrift (a_drift_score a)]) w3).

End DriftVocabulary.

(** ** What a call may do to the tables *)

Section Growth.
Context {F : Type}.

(** A table that exists stays, keeps its rows in place, and its sequence
    never goes back. *)
Definition table_grows {A} (o o' : option (Table A)) : Prop :=
  match o with
  | None => True
  | Some t =>
      exists t', o' = Some t' /\ rows t `prefix_of` rows t' /\ next_id t <= next_id t'
  end.

Definition grows (d d' : Database F) : Prop :=
  table_grows (predictions d) (predictions d')
  /\ table_grows (drift_reports d) (drift_reports d').

(** What no call changes, and what a call only adds to. *)
Record extends (w w' : World F) : Prop := {
  ext_clock : clock w' = clock w;
  ext_config : config w' = config w;
  ext_files : files w' = files w;
  ext_db : grows (db w) (db w');
  ext_trace : trace w `prefix_of` trace w';
}.

(** Every outcome of [m], returned or raised, is related to the state it
    started from. *)
Definition always {A} (R : World F -> World F -> Prop) (m : M F A) : Prop :=
  forall w r w', m w = (r, w') -> R w w'.

Definition always_suite {L A} (R : World F -> World F -> Prop) (s : Suite F L A) : Prop :=
  forall w l r w', s w = ((l, r), w') -> R w w'.

Definition always_method {A} (R : World F -> World F -> Prop) (m : Method A) : Prop :=
  forall p w r p' w', m p w = ((r, p'), w') -> R w w'.

End Growth.

(** ** Vocabulary of the further properties *)

Section StoreVocabulary.
Context {F : Type} `{!PyFloatOps F}.

(** The connections the pool holds, idle and lent. *)
Definition held (w : World F) : nat := (length (idle w) + size (used_of w))%nat.


(** What the [INSERT] of [log_prediction] asks of its arguments: a mapping
    [json.dumps] encodes, with no [NaN] or infinity, and a version that
    fits [VARCHAR(50)]. *)
Definition storable_prediction (input_data : pydict F) (model_version : string) : bool :=
  match json_dumps input_data with
  | Ret doc => jsonb_accepts doc && (String.length model_version <=? 50)%nat
  | Raise _ => false
  end.


(** The ids of a table were handed out in increasing order, all of them
    below the next value of its sequence. *)
Definition ids_ok {A} (id : A -> Z) (o : option (Table A)) : Prop :=
  match o with
  | None => True
  | Some t =>
      StronglySorted Z.lt (id <$> rows t) /\ Forall (fun r => id r < next_id t) (rows t)
  end.

End StoreVocabulary.

(** ** [closeall] and the callback registered with [atexit] *)

Section CloseAll.
Context {F : Type} `{!PyFloatOps F}.

Definition with_closed (b : bool) (p : Pool) : Pool :=
  {| minconn := minconn p; maxconn := maxconn p; pool_closed := b;
     _pool := _pool p; _used := _used p; _rused := _rused p; _keys := _keys p |}.

(** [try: conn.close() except Exception: pass] *)
Definition close_quietly (w : World F) (c : nat) : World F :=
  (try_except (conn_close c) (fun _ => ret tt) w).2.

(** [closeall()]: every connection the pool knows, idle or lent, is closed,
    and the pool is closed for good.  Closing one connection does not
    depend on another, so the order of the in-use map is immaterial. *)
Definition _closeall : Method unit :=
  fun p w =>
    if pool_closed p then ((Raise (PoolError "connection pool is closed"), p), w)
    else
      ((Ret tt, with_closed true p),
       foldl close_quietly w (_pool p ++ (map_to_list (_used p)).*2)).

(** [lambda: _connection_pool.closeall() if _connection_pool else None] *)
Definition atexit_callback : M F unit :=
  fun w => match _connection_pool w with
           | Some _ => on_pool _closeall w
           | None => (Ret tt, w)
           end.

(** [close] applied to the object behind [c], if there is one. *)
Definition close_in (m : gmap nat (Connection F)) (c : nat) : gmap nat (Connection F) :=
  match m !! c with
  | Some k => <[c := broken k]> m
  | None => m
  end.

End CloseAll.

(** ** Python strings

    A [string] stands for a Python [str] whose code points lie below 256,
    one character for each. *)

Section PyStr.
Import Stdlib.Strings.Ascii.

(** [c.isspace()] *)
Definition isspace (a : ascii) : bool :=
  let n := nat_of_ascii a in
  ((9 <=? n) && (n <=? 13) || (28 <=? n) && (n <=? 32) || (n =? 133) || (n =? 160))%nat.

Fixpoint lstrip (s : string) : string :=
  match s with
  | String a rest => if isspace a then lstrip rest else s
  | EmptyString => EmptyString
  end.

(** [s.strip()] *)
Definition strip (s : string) : string :=
  String.rev (lstrip (String.rev (lstrip s))).

(** [s.split("\n")[0]] *)
Fixpoint first_line (s : string) : string :=
  match s with
  | String a rest => if Ascii.eqb a "010" then EmptyString else String a (first_line rest)
  | EmptyString => EmptyString
  end.

(** [c.lower()]: the capitals of ASCII and of Latin-1. *)
Definition lower_char (a : ascii) : ascii :=
  let n := nat_of_ascii a in
  if ((65 <=? n) && (n <=? 90) || (192 <=? n) && (n <=? 222) && negb (n =? 215))%nat
  then ascii_of_nat (n + 32)
  else a.

(** [s.lower()] *)
Fixpoint lower (s : string) : string :=
  match s with
  | String a rest => String (lower_char a) (lower rest)
  | EmptyString => EmptyString
  end.

End PyStr.

(** ** config.py *)

(** [subprocess.CompletedProcess], of a run with [capture_output=True,
    text=True]. *)
Record CompletedProcess := { returncode : Z; stdout : string }.

(** The machine the module is imported on: [os.environ], what starting a
    command line does (the process it runs, or the exception [subprocess.run]
    raises: no such program, [TimeoutExpired], ...), and the command lines
    started so far. *)
Record Machine := {
  environ : gmap string string;
  programs : list string -> result CompletedProcess;
  started : list (list string);
}.

(** [os.getenv(key)] *)
Definition getenv (m : Machine) (key : string) : option string := environ m !! key.

(** [os.getenv(key, default)] *)
Definition getenv_or (m : Machine) (key fallback : string) : string :=
  default fallback (environ m !! key).

(** [subprocess.run(argv, capture_output=True, text=True, timeout=10)] *)
Definition subprocess_run (argv : list string) (m : Machine)
    : result CompletedProcess * Machine :=
  (programs m argv,
   {| environ := environ m; programs := programs m; started := started m ++ [argv] |}).

Definition gcloud_list : list string :=
  ["gcloud"; "sql"; "instances"; "list"; "--format=value(name)"; "--filter=name:mlflow*"].

Definition gcloud_describe (instance_name : string) : list string :=
  ["gcloud"; "sql"; "instances"; "describe"; instance_name;
   "--format=value(ipAddresses[0].ipAddress)"].

(** The [try] suite of [get_database_host]. *)
Definition resolve_host (m : Machine) : result string * Machine :=
  let project_id := getenv m "GOOGLE_CLOUD_PROJECT" in
  if bool_decide (project_id = None \/ project_id = Some EmptyString)
  then (Ret (getenv_or m "DATABASE_HOST" "localhost"), m)
  else
    match subprocess_run gcloud_list m with
    | (Raise e, m1) => (Raise e, m1)
    | (Ret result, m1) =>
        if negb (returncode result =? 0) || bool_decide (strip (stdout result) = EmptyString)
        then (Ret (getenv_or m1 "DATABASE_HOST" "localhost"), m1)
        else
          let instance_name := first_line (strip (stdout result)) in
          match subprocess_run (gcloud_describe instance_name) m1 with
          | (Raise e, m2) => (Raise e, m2)
          | (Ret result, m2) =>
              if returncode result =? 0
              then (Ret (strip (stdout result)), m2)
              else (Ret (getenv_or m2 "DATABASE_HOST" "localhost"), m2)
          end
    end.

(** [get_database_host()]: the suite under
    [except (subprocess.SubprocessError, FileNotFoundError, Exception)]. *)
Definition get_database_host (m : Machine) : result string * Machine :=
  match resolve_host m with
  | (Ret host, m1) => (Ret host, m1)
  | (Raise _, m1) => (Ret (getenv_or m1 "DATABASE_HOST" "localhost"), m1)
  end.

(** The attributes of [Config] that the database, the monitoring and the
    serving code read, in the order the class body evaluates them; the
    four of the monitoring code are the [Config] of the world. *)
Record Settings := {
  MODEL_NAME : string;
  MLFLOW_TRACKING_URI : string;
  MODEL_ALIAS : string;
  MODEL_API_URL : string;
  DATABASE_HOST : string;
  DATABASE_PORT : string;
  DATABASE_NAME : string;
  DATABASE_USER : string;
  DATABASE_PASSWORD : string;
  monitoring : Config;
}.

(** The body of [class Config], run when the module is imported. *)
Definition load_settings (m : Machine) : result Settings * Machine :=
  let model_name := getenv_or m "MODEL_NAME" "bank-churn-classifier" in
  let tracking_uri := getenv_or m "MLFLOW_TRACKING_URI" "http://localhost:5000" in
  let model_alias := getenv_or m "MODEL_ALIAS" "production" in
  let model_api_url :=
    getenv_or m "MODEL_API_URL"
      ("https://model-api-" +:+ getenv_or m "GOOGLE_CLOUD_PROJECT" "unknown"
       +:+ ".europe-west2.run.app") in
  match get_database_host m with
  | (Raise e, m1) => (Raise e, m1)
  | (Ret database_host, m1) =>
      (Ret {| MODEL_NAME := model_name;
              MLFLOW_TRACKING_URI := tracking_uri;
              MODEL_ALIAS := model_alias;
              MODEL_API_URL := model_api_url;
              DATABASE_HOST := database_host;
              DATABASE_PORT := getenv_or m1 "DATABASE_PORT" "5432";
              DATABASE_NAME := getenv_or m1 "DATABASE_NAME" "monitoring";
              DATABASE_USER := getenv_or m1 "DATABASE_USER" "postgres";
              DATABASE_PASSWORD := getenv_or m1 "DATABASE_PASSWORD" "example";
              monitoring :=
                {| USE_CLOUD_STORAGE :=
                     bool_decide (lower (getenv_or m1 "USE_CLOUD_STORAGE" "false") = "true");
                   BUCKET_NAME :=
                     getenv_or m1 "BUCKET_NAME"
                       (getenv_or m1 "GOOGLE_CLOUD_PROJECT" "local" +:+ "-mlflow-artifacts");
                   LOCAL_REFERENCE_PATH :=
                     getenv_or m1 "LOCAL_REFERENCE_PATH" "monitoring/reference_data.parquet";
                   CLOUD_REFERENCE_PATH :=
                     getenv_or m1 "CLOUD_REFERENCE_PATH" "reference/reference_data.parquet" |} |},
       m1)
  end.

(** The keyword arguments of a [psycopg2.connect]; [None] is an argument
    the caller left to the library's default. *)
Record ConnectArgs := {
  arg_host : option string;
  arg_port : option string;
  arg_database : option string;
  arg_user : option string;
  arg_password : option string;
  arg_connect_timeout : option Z;
}.

(** [DB_CONN] of [drift_detection.py]. *)
Definition DB_CONN (config : Settings) : ConnectArgs :=
  {| arg_host := Some (DATABASE_HOST config);
     arg_port := Some (DATABASE_PORT config);
     arg_database := Some (DATABASE_NAME config);
     arg_user := Some (DATABASE_USER config);
     arg_password := Some (DATABASE_PASSWORD config);
     arg_connect_timeout := None |}.

(** The connection arguments [get_connection_pool] gives to the pool. *)
Definition pool_connect_args (m : Machine) : ConnectArgs :=
  {| arg_host := getenv m "DATABASE_HOST";
     arg_port := Some (getenv_or m "DATABASE_PORT" "5432");
     arg_database := Some (getenv_or m "DATABASE_NAME" "monitoring");
     arg_user := Some (getenv_or m "DATABASE_USER" "postgres");
     arg_password := getenv m "DATABASE_PASSWORD";
     arg_connect_timeout := Some 10 |}.

(** The spellings [s] for which [s.lower() == "true"]. *)
Definition true_spellings : list string :=
  ["true"; "truE"; "trUe"; "trUE"; "tRue"; "tRuE"; "tRUe"; "tRUE";
   "True"; "TruE"; "TrUe"; "TrUE"; "TRue"; "TRuE"; "TRUe"; "TRUE"].

(** The project id is unset or empty: [not project_id]. *)
Definition no_project (m : Machine) : Prop :=
  getenv m "GOOGLE_CLOUD_PROJECT" = None
  \/ getenv m "GOOGLE_CLOUD_PROJECT" = Some EmptyString.

(** The machine after it has started the command lines [ran]. *)
Definition after_running (ran : list (list string)) (m : Machine) : Machine :=
  {| environ := environ m; programs := programs m; started := started m ++ ran |}.

(** ** A runnable instance

    Floats that denote rationals, rounded half to even at three decimals;
    used to run the model on concrete worlds. *)

Module Example.

Definition round_half_even (q : Q) : Z :=
  let n := (2 * Qnum q + Zpos (Qden q)) / (2 * Zpos (Qden q)) in
  if ((2 * Qnum q + Zpos (Qden q)) mod (2 * Zpos (Qden q)) =? 0) && Z.odd n
  then n - 1 else n.

Definition q_round3 (q : Q) : Q := Qred (Qmake (round_half_even (q * 1000)%Q) 1000).

#[export] Instance exact_float : PyFloatOps Q := {
  round3 := q_round3;
  gt_half q := if Qlt_le_dec (1 # 2)%Q q then true else false;
  is_finite _ := true;
}.

(** An evidently run that reports [count] drifted columns out of fifteen. *)
Definition fixed_drift (count : Z) : Evidently Q :=
  {| data_drift _ _ := Ret (count, Qred (Qmake count 15)) |}.

Definition local_config : Config :=
  {| USE_CLOUD_STORAGE := false; BUCKET_NAME := "local-mlflow-artifacts";
     LOCAL_REFERENCE_PATH := "monitoring/reference_data.parquet";
     CLOUD_REFERENCE_PATH := "reference/reference_data.parquet" |}.

Definition customer (credit : Z) : pydict Q :=
  <["CreditScore" := PyFloat (inject_Z credit)]> (<["Gender" := PyStr "Female"]> ∅).

Definition reference_table : DataFrame Q := customer <$> [600; 650; 700].

Definition stored (i : Z) : PredictionRecord Q :=
  {| pr_id := i; pr_timestamp := 1000 * i; pr_input_data := to_json <$> customer (600 + i);
     pr_prediction := (1 # 4)%Q; pr_model_version := "v3" |}.

Definition empty_db : Database Q :=
  {| predictions := Some empty_table; drift_reports := Some empty_table |}.

(** Twelve stored predictions, the last at time [12000]. *)
Definition busy_db : Database Q :=
  {| predictions := Some {| rows := stored <$> seqZ 1 12; next_id := 13 |};
     drift_reports := Some empty_table |}.

(** A process that has not used its pool yet. *)
Definition start (d : Database Q) (fs : list fault) : World Q :=
  {| clock := 20000; config := local_config;
     files := <["monitoring/reference_data.parquet" := Parquet reference_table]> ∅;
     db := d; conns := ∅; next_conn := 0; _connection_pool := None;
     faults := fs; trace := [] |}.

(** The analysis of the examples: eight drifted columns. *)
#[export] Instance eight_of_fifteen : Evidently Q := fixed_drift 8.

Definition busy_table : Table (PredictionRecord Q) :=
  {| rows := stored <$> seqZ 1 12; next_id := 13 |}.

Definition fresh_world : World Q := start empty_db [].

Definition busy_world : World Q := start busy_db [].

(** The read goes through; the server is gone when the pool connects. *)
Definition server_lost_after_read : World Q :=
  start busy_db [NoFault; NoFault; NoFault; ConnectionLost].

(** The pool connects; the server rejects the statement; the connection
    breaks under the rollback that [putconn] sends. *)
Definition rejected_then_lost : World Q :=
  start empty_db [NoFault; StatementFails; ConnectionLost].

(** A process whose reference file is missing. *)
Definition without_reference : World Q :=
  {| clock := 20000; config := local_config; files := ∅; db := busy_db;
     conns := ∅; next_conn := 0; _connection_pool := None; faults := [];
     trace := [] |}.

(** Five acquisitions and no release. *)
Definition exhausted : World Q :=
  Nat.iter 5 (fun w => (get_db_connection w).2) fresh_world.

Definition exhausted_pool : Pool :=
  default {| minconn := 1; maxconn := 5; pool_closed := true; _pool := [];
             _used := ∅; _rused := ∅; _keys := 0 |} (_connection_pool exhausted).

Definition first_connection : Connection Q :=
  default fresh_connection (conns exhausted !! 0%nat).

Definition payload_650 : pydict Q := customer 650.


End Example.

(** ** Further concrete worlds *)

Module Scenario.
Import Example.

(** A server on which [initialize_database] has never run. *)
Definition bare_db : Database Q := {| predictions := None; drift_reports := None |}.

Definition bare_world : World Q := start bare_db [].

(** The server cannot be reached. *)
Definition offline_world : World Q := start busy_db [ConnectionLost].

(** The busy process after [initialize_database]: the pool is built and its
    one connection is idle. *)
Definition served_world : World Q := (initialize_database busy_world).2.

Definition served_pool : Pool :=
  default {| minconn := 1; maxconn := 5; pool_closed := true; _pool := [];
             _used := ∅; _rused := ∅; _keys := 0 |} (_connection_pool served_world).

(** The process at exit, one connection idle and one still lent. *)
Definition lending_world : World Q := (get_db_connection (get_db_connection fresh_world).2).2.

Definition leaving_world : World Q :=
  (return_connection (Some 0%nat) lending_world).2.

Definition leaving_pool : Pool :=
  default {| minconn := 1; maxconn := 5; pool_closed := true; _pool := [];
             _used := ∅; _rused := ∅; _keys := 0 |} (_connection_pool leaving_world).

(** A version tag of fifty-one characters. *)
Definition long_version : string :=
  "v3-0123456789-0123456789-0123456789-0123456789-0123".

End Scenario.

(** ** Concrete machines *)

Module Machines.

(** A development machine: no project id, no [gcloud]. *)
Definition laptop : Machine :=
  {| environ := <["DATABASE_HOST" := "db.internal"]> (<["USE_CLOUD_STORAGE" := "True"]> ∅);
     programs := fun _ => Raise (FileNotFoundError "gcloud");
     started := [] |}.

Definition answers (listing address : string) (argv : list string)
    : result CompletedProcess :=
  if bool_decide (argv = gcloud_list)
  then Ret {| returncode := 0; stdout := listing |}
  else if bool_decide (argv = gcloud_describe "mlflow-db")
  then Ret {| returncode := 0; stdout := address |}
  else Ret {| returncode := 1; stdout := EmptyString |}.

(** Line feed. *)
Definition LF : string := String (Ascii.ascii_of_nat 10) EmptyString.

(** A machine of the project: two instances are listed and the first has
    an address. *)
Definition cloud_machine : Machine :=
  {| environ := <["GOOGLE_CLOUD_PROJECT" := "churn-prod"]> (<["DATABASE_HOST" := "10.0.0.5"]> ∅);
     programs := answers ("mlflow-db" +:+ LF +:+ "mlflow-replica" +:+ LF)
                         ("34.39.46.29" +:+ LF);
     started := [] |}.

(** The same, for an instance that has no address yet. *)
Definition cloud_without_address : Machine :=
  {| environ := <["GOOGLE_CLOUD_PROJECT" := "churn-prod"]> (<["DATABASE_HOST" := "10.0.0.5"]> ∅);
     programs := answers ("mlflow-db" +:+ LF) LF;
     started := [] |}.

Definition listing : CompletedProcess :=
  {| returncode := 0; stdout := "mlflow-db" +:+ LF +:+ "mlflow-replica" +:+ LF |}.

Definition address : CompletedProcess :=
  {| returncode := 0; stdout := "34.39.46.29" +:+ LF |}.

Definition laptop_settings : Settings :=
  match (load_settings laptop).1 with
  | Ret cfg => cfg
  | Raise _ =>
      {| MODEL_NAME := EmptyString; MLFLOW_TRACKING_URI := EmptyString;
         MODEL_ALIAS := EmptyString; MODEL_API_URL := EmptyString;
         DATABASE_HOST := EmptyString; DATABASE_PORT := EmptyString;
         DATABASE_NAME := EmptyString; DATABASE_USER := EmptyString;
         DATABASE_PASSWORD := EmptyString;
         monitoring := Example.local_config |}
  end.

Definition cloud_settings : Settings :=
  match (load_settings cloud_machine).1 with
  | Ret cfg => cfg
  | Raise _ =>
      {| MODEL_NAME := EmptyString; MLFLOW_TRACKING_URI := EmptyString;
         MODEL_ALIAS := EmptyString; MODEL_API_URL := EmptyString;
         DATABASE_HOST := EmptyString; DATABASE_PORT := EmptyString;
         DATABASE_NAME := EmptyString; DATABASE_USER := EmptyString;
         DATABASE_PASSWORD := EmptyString;
         monitoring := Example.local_config |}
  end.

End Machines.

(** * Properties *)

#[local] Open Scope py_scope.

(** Projections of updated worlds and pools. *)
Ltac wsimpl :=
  cbn [clock config files db conns next_conn _connection_pool faults trace
       set_db set_conns set_next_conn set_connection_pool set_faults set_trace
       minconn maxconn pool_closed _pool _used _rused _keys
       with_pool with_used with_keys
       autocommit closed status pending broken settled with_status fresh_connection
       fst snd connection] in *.

(** The primitives of the monad. *)
Ltac munfold :=
  unfold bind, ret, raise, try_except, emit, next_fault, deref, store in *.

(** Tests on the transaction status of a known connection. *)
Ltac bd :=
  repeat first [ rewrite bool_decide_eq_true_2 by done
               | rewrite bool_decide_eq_false_2 by done ].

(** One step of a run on a symbolic world. *)
Ltac norm :=
  repeat (wsimpl;
          cbn [orb andb negb app foldl apply_writes eff_rows eff_writes
               eff_seq_predictions eff_seq_drift_reports] in *;
          first [ rewrite lookup_insert_eq | rewrite insert_insert_eq | progress bd ]);
  wsimpl.

(** ** The invariant of the pool *)

Lemma forallb_map_to_list {K A} `{Countable K} (f : K * A -> bool) (m : gmap K A) :
  forallb f (map_to_list m) = true <-> forall k v, m !! k = Some v -> f (k, v) = true.
Proof.
  rewrite forallb_forall. split.
  - intros Hf k v Hkv. apply Hf. apply list_elem_of_In. by apply elem_of_map_to_list.
  - intros Hf [k v] Hin. apply Hf. apply elem_of_map_to_list. by apply list_elem_of_In.
Qed.

Section Lemmas.
Context {F : Type} `{!PyFloatOps F}.

Lemma pool_ok_inv (w : World F) (p : Pool) :
  _connection_pool w = Some p -> pool_ok w = true <-> pool_inv w p.
Proof.
  intros Hp. unfold pool_ok. rewrite Hp.
  rewrite !andb_true_iff, !forallb_map_to_list, forallb_forall,
    !Nat.eqb_eq, Nat.leb_le.
  split.
  - intros [[[[[H1 H2] H3] H4] H5] H6]. split; auto.
    + by rewrite <- H1.
    + intros c Hc. apply H4. by apply list_elem_of_In.
    + intros k c Hk. specialize (H5 k c Hk). cbn in H5. by apply Nat.leb_le.
    + intros c k Hc. specialize (H6 c k Hc). cbn in H6. by apply bool_decide_eq_true in H6.
  - intros [H1 H2 H3 H4 H5 H6]. repeat split; auto.
    + by rewrite H1.
    + intros c Hc. apply H4. by apply list_elem_of_In.
    + intros k c Hk. cbn. apply Nat.leb_le. eauto.
    + intros c k Hc. cbn. apply bool_decide_eq_true. eauto.
Qed.

Lemma pool_ok_none (w : World F) : _connection_pool w = None -> pool_ok w = true.
Proof. intros Hp. unfold pool_ok. by rewrite Hp. Qed.

Lemma list_pop_nil {A} : list_pop (@nil A) = None.
Proof. reflexivity. Qed.

Lemma list_pop_snoc {A} (l : list A) (x : A) : list_pop (l ++ [x]) = Some (l, x).
Proof. unfold list_pop. rewrite reverse_snoc. by rewrite reverse_involutive. Qed.

Lemma direct_connects_snoc (t : list (event F)) (e : event F) :
  is_direct_connect e = false -> direct_connects (t ++ [e]) = direct_connects t.
Proof.
  intros He. unfold direct_connects. rewrite List.filter_app. cbn. rewrite He.
  by rewrite app_nil_r.
Qed.


Lemma same_site_refl (w : World F) : same_site w w.
Proof. by split. Qed.

Lemma same_site_trans (w1 w2 w3 : World F) :
  same_site w1 w2 -> same_site w2 w3 -> same_site w1 w3.
Proof. intros [] []. split; congruence. Qed.

(** ** Acquiring a connection *)

Lemma idle_ok_elim (w : World F) c :
  idle_ok w c = true ->
  exists k, conns w !! c = Some k /\ closed k = false /\ status k = TxIdle
            /\ (c < next_conn w)%nat.
Proof.
  unfold idle_ok. destruct (conns w !! c) as [k|]; [|done].
  rewrite !andb_true_iff, negb_true_iff, bool_decide_eq_true, Nat.ltb_lt.
  intros [[? ?] ?]. eauto.
Qed.

Ltac lent_field Hp :=
  solve [ reflexivity | done | lia | by rewrite lookup_insert_eq
        | by (unfold used_of; rewrite Hp) ].

Lemma keys_insert (u : gmap nat nat) key c n n' :
  (forall k c', u !! k = Some c' -> (k <= n)%nat) -> (key <= n')%nat -> (n <= n')%nat ->
  forall k c', <[key := c]> u !! k = Some c' -> (k <= n')%nat.
Proof.
  intros Hu ? ? k c' Hk. apply lookup_insert_Some in Hk as [[<- _]|[_ Hk]]; [lia|].
  apply Hu in Hk. lia.
Qed.

Lemma keys_weaken (u : gmap nat nat) n n' :
  (forall k c', u !! k = Some c' -> (k <= n)%nat) -> (n <= n')%nat ->
  forall k c', u !! k = Some c' -> (k <= n')%nat.
Proof. intros Hu ? k c' Hk. apply Hu in Hk. lia. Qed.

Lemma rused_insert (u r : gmap nat nat) key c :
  (forall c' k, r !! c' = Some k -> u !! k = Some c') -> u !! key = None ->
  forall c' k, <[c := key]> r !! c' = Some k -> <[key := c]> u !! k = Some c'.
Proof.
  intros Hr Hfresh c' k Hc. apply lookup_insert_Some in Hc as [[<- <-]|[Hne Hc]].
  - by rewrite lookup_insert_eq.
  - pose proof (Hr _ _ Hc) as Hu. rewrite lookup_insert_ne; [done|].
    intros <-. congruence.
Qed.

Lemma rused_delete (u r : gmap nat nat) key c :
  (forall c' k, r !! c' = Some k -> u !! k = Some c') -> r !! c = Some key ->
  forall c' k, delete c r !! c' = Some k -> delete key u !! k = Some c'.
Proof.
  intros Hr Hc c' k Hc'. apply lookup_delete_Some in Hc' as [Hne Hc'].
  pose proof (Hr _ _ Hc') as Hu. rewrite lookup_delete_ne; [done|].
  intros <-. apply Hr in Hc. congruence.
Qed.

Lemma no_idle (w : World F) : forall c, c ∈ @nil nat -> idle_ok w c = true.
Proof. intros c Hc. by apply elem_of_nil in Hc. Qed.

Ltac site := split; wsimpl; rewrite ?direct_connects_snoc by done; done.

Lemma get_db_connection_spec (w : World F) :
  pool_ok w = true ->
  exists r w1,
    get_db_connection w = (Ret r, w1) /\ same_site w w1 /\ db w1 = db w
    /\ pool_ok w1 = true
    /\ match r with
       | None => used_of w1 = used_of w
       | Some c => exists p key k, lent w w1 c p key k
       end.
Proof.
  intros Hok. unfold get_db_connection, try_except, bind, get_connection_pool.
  destruct (_connection_pool w) as [p|] eqn:Hp.
  - (* the pool exists *)
    pose proof (proj1 (pool_ok_inv w p Hp) Hok) as [Hmin Hmax Hshort Hidle Hkeys Hrused].
    unfold on_pool. rewrite Hp. unfold _getconn.
    destruct (pool_closed p) eqn:Hclosed.
    { munfold; wsimpl. eexists _, _. split; [reflexivity|]. wsimpl.
      split; [site|]. split; [done|]. split.
      - eapply pool_ok_inv; [wsimpl; reflexivity|]. by split.
      - unfold used_of; wsimpl. by rewrite Hp. }
    wsimpl.
    assert (Hfresh : _used p !! S (_keys p) = None).
    { destruct (_used p !! S (_keys p)) eqn:E; [|done].
      apply Hkeys in E. lia. }
    rewrite Hfresh.
    destruct (_pool p) as [|c [|c' l]] eqn:Hidl; [| |cbn in Hshort; lia].
    + (* nothing idle *)
      rewrite list_pop_nil.
      case_bool_decide as Hfull.
      * munfold; wsimpl. eexists _, _. split; [reflexivity|]. wsimpl.
        split; [site|]. split; [done|]. split.
        -- eapply pool_ok_inv; [wsimpl; reflexivity|].
           split; wsimpl; rewrite ?Hidl;
             [done|done|cbn; lia|apply no_idle| |done].
           eapply keys_weaken; [exact Hkeys|lia].
        -- unfold used_of; wsimpl. by rewrite Hp.
      * unfold _connect, psycopg2_connect. munfold; wsimpl.
        destruct (hd NoFault (faults w)) eqn:Hf; wsimpl;
          (eexists _, _; split; [reflexivity|]; wsimpl;
           split; [site|]; split; [done|]; split).
        -- eapply pool_ok_inv; [wsimpl; reflexivity|].
           split; wsimpl; rewrite ?Hidl;
             [done|done|cbn; lia|apply no_idle| |].
           ++ eapply keys_insert; [exact Hkeys|lia|lia].
           ++ by apply rused_insert.
        -- eexists _, _, _. split; [wsimpl; reflexivity|..]; wsimpl; lent_field Hp.
        -- eapply pool_ok_inv; [wsimpl; reflexivity|].
           split; wsimpl; rewrite ?Hidl;
             [done|done|cbn; lia|apply no_idle| |done].
           eapply keys_weaken; [exact Hkeys|lia].
        -- unfold used_of; wsimpl. by rewrite Hp.
        -- eapply pool_ok_inv; [wsimpl; reflexivity|].
           split; wsimpl; rewrite ?Hidl;
             [done|done|cbn; lia|apply no_idle| |done].
           eapply keys_weaken; [exact Hkeys|lia].
        -- unfold used_of; wsimpl. by rewrite Hp.
    + (* one idle connection *)
      change [c] with ([] ++ [c]). rewrite list_pop_snoc.
      munfold; wsimpl. eexists _, _. split; [reflexivity|]. wsimpl.
      split; [site|]. split; [done|].
      destruct (idle_ok_elim w c) as (k & Hk & Hopen & Hst & Hlt).
      { apply Hidle. set_solver. }
      split.
      * eapply pool_ok_inv; [wsimpl; reflexivity|].
        split; wsimpl; [done|done|cbn; lia|apply no_idle| |].
        -- eapply keys_insert; [exact Hkeys|lia|lia].
        -- by apply rused_insert.
      * exists (with_used (<[S (_keys p) := c]> (_used p)) (<[c := S (_keys p)]> (_rused p))
                  (with_pool [] (with_keys (S (_keys p)) p))), (S (_keys p)), k.
        split; wsimpl; lent_field Hp.
  - (* first use: the pool is built *)
    unfold ThreadedConnectionPool, open_idle, _connect, psycopg2_connect.
    munfold; wsimpl.
    destruct (hd NoFault (faults w)) eqn:Hf; wsimpl.
    + unfold on_pool; wsimpl. unfold _getconn; wsimpl.
      rewrite lookup_empty, list_pop_snoc. wsimpl.
      eexists _, _. split; [reflexivity|]. wsimpl.
      split; [site|]. split; [done|]. split.
      * eapply pool_ok_inv; [wsimpl; reflexivity|].
        split; wsimpl; [done|done|cbn; lia|apply no_idle| |].
        -- eapply keys_insert; [|lia|reflexivity]. intros k c'. by rewrite lookup_empty.
        -- apply rused_insert; [|done]. intros c' k. by rewrite lookup_empty.
      * eexists _, _, _. split; [wsimpl; reflexivity|..]; wsimpl; lent_field Hp.
    + eexists _, _. split; [reflexivity|]. wsimpl.
      split; [site|]. split; [done|]. split.
      * apply pool_ok_none. by wsimpl.
      * unfold used_of; wsimpl. by rewrite Hp.
    + eexists _, _. split; [reflexivity|]. wsimpl.
      split; [site|]. split; [done|]. split.
      * apply pool_ok_none. by wsimpl.
      * unfold used_of; wsimpl. by rewrite Hp.
Qed.


(** ** Returning a connection *)

Lemma return_connection_eq (w : World F) c p key k :
  _connection_pool w = Some p -> pool_closed p = false ->
  (length (_pool p) < minconn p)%nat ->
  _rused p !! c = Some key -> _used p !! key = Some c ->
  conns w !! c = Some k ->
  return_connection (Some c) w =
    if closed k then (Ret tt, set_connection_pool (Some (released c key p)) w)
    else if bool_decide (status k = TxUnknown)
    then (Ret tt, set_connection_pool (Some (released c key p))
                    (set_conns (<[c := broken k]> (conns w)) w))
    else if bool_decide (status k = TxIdle) || autocommit k
    then (Ret tt, set_connection_pool (Some (released c key (with_pool (_pool p ++ [c]) p))) w)
    else match hd NoFault (faults w) with
         | ConnectionLost =>
             (Raise (OperationalError "server closed the connection unexpectedly"),
              set_connection_pool (Some p)
                (set_conns (<[c := broken k]> (conns w)) (set_faults (tl (faults w)) w)))
         | _ =>
             (Ret tt,
              set_connection_pool (Some (released c key (with_pool (_pool p ++ [c]) p)))
                (set_conns (<[c := settled k]> (conns w)) (set_faults (tl (faults w)) w)))
         end.
Proof.
  intros Hp Hopen Hlen Hr Hu Hk.
  unfold return_connection, get_connection_pool, bind. rewrite Hp.
  unfold on_pool. rewrite Hp. unfold _putconn. rewrite Hopen, Hr.
  apply Nat.ltb_lt in Hlen. rewrite Hlen.
  unfold deref at 1. rewrite Hk.
  destruct (closed k) eqn:Hc.
  { rewrite Hu. reflexivity. }
  case_bool_decide as Hunk.
  { unfold conn_close, bind, deref, store. rewrite Hk. rewrite Hu. reflexivity. }
  case_bool_decide as Hidle.
  { cbn [orb]. wsimpl. rewrite Hu. reflexivity. }
  cbn [orb]. unfold conn_rollback, bind, deref. rewrite Hk, Hc.
  destruct (autocommit k) eqn:Ha.
  { cbn [orb]. unfold ret. wsimpl. rewrite Hu. reflexivity. }
  rewrite bool_decide_eq_false_2 by done. cbn [orb].
  unfold next_fault, store, raise. wsimpl.
  destruct (hd NoFault (faults w)); wsimpl; rewrite ?Hu; reflexivity.
Qed.


Lemma same_rows_refl (d : Database F) : same_rows d d.
Proof. by split. Qed.

Lemma same_rows_advance (e : effect F) (d : Database F) :
  same_rows d (advance_sequences e d).
Proof.
  split; cbn; [destruct (eff_seq_predictions e)|destruct (eff_seq_drift_reports e)];
    try done.
  - by destruct (predictions d).
  - by destruct (drift_reports d).
Qed.

Lemma released_ok (w w' : World F) c key p l :
  pool_inv w p -> _rused p !! c = Some key ->
  l = [] \/ (l = [c] /\ idle_ok w' c = true) ->
  _connection_pool w' = Some (released c key (with_pool l p)) ->
  pool_ok w' = true.
Proof.
  intros [Hmin Hmax Hshort Hidle Hkeys Hrused] Hc Hl Hp'.
  eapply pool_ok_inv; [exact Hp'|].
  split; unfold released; wsimpl; [done|done| | | |].
  - destruct Hl as [->|[-> _]]; cbn; lia.
  - destruct Hl as [->|[-> Hok]]; [apply no_idle|].
    intros c' Hc'. apply list_elem_of_singleton in Hc'. by subst.
  - intros k c' Hk. apply lookup_delete_Some in Hk as [_ Hk]. eauto.
  - by apply rused_delete.
Qed.

(** ** The two [log_*] functions *)

Lemma insert_suite_spec (w1 : World F) c k payload stmt after :
  conns w1 !! c = Some k -> closed k = false -> status k = TxIdle ->
  (forall w, exists w', after w = (Ret true, w') /\ quiet w w') ->
  exists r2 w2 k2,
    insert_suite c payload stmt after w1 = ((Some {| connection := c |}, r2), w2)
    /\ same_site w1 w2
    /\ _connection_pool w2 = _connection_pool w1
    /\ next_conn w2 = next_conn w1
    /\ conns w2 !! c = Some k2
    /\ match r2 with
       | Ret b =>
           b = true /\ closed k2 = false /\ status k2 = TxIdle
           /\ exists doc eff,
               json_dumps payload = Ret doc
               /\ run_sql (clock w1) (db w1) (stmt doc) = Ret eff
               /\ db w2 = apply_writes (advance_sequences eff (db w1)) (eff_writes eff)
       | Raise e => same_rows (db w1) (db w2) /\ conn_left k2
       end.
Proof.
  intros Hk Hopen Hidle Hafter.
  unfold insert_suite, bind_local, conn_cursor.
  unfold bind at 1, deref at 1. rewrite Hk, Hopen. unfold ret at 1.
  unfold bind at 1.
  destruct (json_dumps payload) as [doc|e] eqn:Hjson.
  2:{ exists (Raise e), w1, k. repeat split; auto using same_rows_refl.
      by apply left_idle. }
  unfold bind at 1, cur_execute. cbn [connection].
  unfold bind at 1, deref at 1. rewrite Hk, Hopen.
  unfold bind at 1, next_fault at 1.
  destruct (hd NoFault (faults w1)) eqn:Hf1.
  - (* the statement reaches the server *)
    rewrite Hidle. cbn [bool_decide decide_rel]. 
    rewrite !bool_decide_eq_false_2 by done. rewrite bool_decide_eq_true_2 by done.
    wsimpl. unfold apply_writes at 1. cbn [foldl].
    destruct (run_sql (clock w1) (db w1) (stmt doc)) as [eff|e] eqn:Hrun.
    + destruct (autocommit k) eqn:Hauto.
      * (* autocommit: written at once; commit has nothing to send *)
        unfold bind at 1, conn_commit, bind at 1, deref at 1. wsimpl.
        rewrite Hk, Hopen, Hauto. cbn [orb]. unfold ret at 1.
        match goal with |- context [after ?w] => destruct (Hafter w) as (w' & -> & Hq) end.
        destruct Hq. wsimpl.
        exists (Ret true), w', k. split; [done|].
        split; [split; wsimpl; congruence|].
        repeat split; try congruence.
        exists doc, eff. repeat split; auto.
      * unfold bind at 1, conn_commit, bind at 1, deref at 1. wsimpl.
        rewrite lookup_insert_eq. wsimpl. cbn [orb].
        rewrite bool_decide_eq_false_2 by done.
        unfold bind at 1, next_fault at 1. wsimpl.
        destruct (hd NoFault (tl (faults w1))) eqn:Hf2.
        -- rewrite bool_decide_eq_false_2 by done. wsimpl. rewrite insert_insert_eq.
           match goal with |- context [after ?w] => destruct (Hafter w) as (w' & -> & Hq) end.
           destruct Hq. wsimpl.
           eexists (Ret true), w', _. split; [done|].
           split; [split; wsimpl; congruence|].
           split; [congruence|]. split; [congruence|].
           split; [rewrite quiet_conns0; apply lookup_insert_eq|].
           repeat split. exists doc, eff. repeat split; auto.
        -- unfold store, bind, raise. wsimpl. rewrite insert_insert_eq.
           eexists (Raise _), _, _. split; [reflexivity|]. wsimpl.
           split; [site|]. split; [done|]. split; [done|].
           split; [apply lookup_insert_eq|]. split; [apply same_rows_advance|].
           by apply left_idle.
        -- unfold store, bind, raise. wsimpl. rewrite insert_insert_eq.
           eexists (Raise _), _, _. split; [reflexivity|]. wsimpl.
           split; [site|]. split; [done|]. split; [done|].
           split; [apply lookup_insert_eq|]. split; [apply same_rows_advance|].
           by apply left_closed.
    + (* the statement is in error on the tables as they are *)
      destruct (autocommit k) eqn:Hauto; unfold store, bind, ret, raise; wsimpl.
      * eexists (Raise _), _, k. split; [reflexivity|]. wsimpl.
        split; [site|]. repeat split; auto. by apply left_idle.
      * eexists (Raise _), _, _. split; [reflexivity|]. wsimpl.
        split; [site|]. split; [done|]. split; [done|].
        split; [apply lookup_insert_eq|]. split; [apply same_rows_refl|].
        by apply left_in_error.
  - destruct (autocommit k) eqn:Hauto; unfold store, bind, ret, raise; wsimpl.
    + eexists (Raise _), _, k. split; [reflexivity|]. wsimpl.
      split; [site|]. repeat split; auto. by apply left_idle.
    + eexists (Raise _), _, _. split; [reflexivity|]. wsimpl.
      split; [site|]. split; [done|]. split; [done|].
      split; [apply lookup_insert_eq|]. split; [apply same_rows_refl|].
      by apply left_in_error.
  - unfold store, bind, ret, raise; wsimpl.
    eexists (Raise _), _, _. split; [reflexivity|]. wsimpl.
    split; [site|]. split; [done|]. split; [done|].
    split; [apply lookup_insert_eq|]. split; [apply same_rows_refl|].
    by apply left_closed.
Qed.


Lemma close_and_return_spec (w0 w1 w2 : World F) c p key k k2 cur :
  lent w0 w1 c p key k -> pool_ok w1 = true ->
  _connection_pool w2 = _connection_pool w1 -> next_conn w2 = next_conn w1 ->
  conns w2 !! c = Some k2 -> conn_left k2 ->
  exists rf w3,
    close_and_return c cur w2 = (rf, w3) /\ same_site w2 w3 /\ db w3 = db w2
    /\ match rf with
       | Ret _ => given_back w0 w3 c k2
       | Raise e =>
           closed k2 = false /\ status k2 = TxInError
           /\ e = OperationalError "server closed the connection unexpectedly"
       end.
Proof.
  intros [Hp Hopen Hidl Hr Hu Hfresh Halloc Hk Hkopen Hkidle] Hok Hp2 Hn2 Hk2 Hleft.
  pose proof (proj1 (pool_ok_inv w1 p Hp) Hok) as Hinv.
  assert (Hukey : _used p !! key = Some c) by (rewrite Hu; apply lookup_insert_eq).
  assert (Hlen : (length (_pool p) < minconn p)%nat).
  { rewrite Hidl. destruct Hinv as [-> _ _ _ _ _]. cbn. lia. }
  rewrite Hp in Hp2.
  assert (Hback : delete key (_used p) = used_of w0).
  { rewrite Hu. by apply delete_insert_id. }
  assert (Hstep : close_and_return c cur w2 = return_connection (Some c) w2).
  { unfold close_and_return. by destruct cur. }
  rewrite Hstep.
  rewrite (return_connection_eq w2 c p key k2) by done.
  destruct Hleft as [Hc|Hc Hst|Hc Hst Ha].
  - (* a closed connection is dropped *)
    rewrite Hc. eexists _, _. split; [reflexivity|].
    split; [by split|]. split; [done|]. split.
    + eapply (released_ok w1 _ c key p []); eauto.
      unfold released. wsimpl. do 2 f_equal. unfold with_pool. rewrite <- Hidl. by destruct p.
    + unfold used_of. by wsimpl.
    + unfold in_use. wsimpl. apply lookup_delete_eq.
    + congruence.
    + intros _. unfold idle. by wsimpl.
    + eexists. split; [wsimpl; reflexivity|]. by unfold released; wsimpl.
  - rewrite Hc, Hst. rewrite bool_decide_eq_false_2 by done.
    rewrite bool_decide_eq_true_2 by done. cbn [orb].
    eexists _, _. split; [reflexivity|].
    split; [by split|]. split; [done|]. rewrite Hidl. split.
    + eapply (released_ok w1 _ c key p [c]); eauto.
      right. split; [done|]. unfold idle_ok. wsimpl. rewrite Hk2, Hc, Hst.
      rewrite bool_decide_eq_true_2 by done. cbn. apply Nat.ltb_lt. lia.
    + unfold used_of. by wsimpl.
    + unfold in_use. wsimpl. apply lookup_delete_eq.
    + intros _. unfold idle. wsimpl. split; [done|]. by exists k2.
    + congruence.
    + eexists. split; [wsimpl; reflexivity|]. by unfold released; wsimpl.
  - rewrite Hc, Hst, Ha. rewrite !bool_decide_eq_false_2 by done. cbn [orb].
    destruct (hd NoFault (faults w2));
      (eexists _, _; split; [reflexivity|]; split; [by split|]; split; [done|]);
      try done; rewrite Hidl.
    all: split;
      [ eapply (released_ok w1 _ c key p [c]); eauto;
        right; split; [done|]; unfold idle_ok; wsimpl; rewrite lookup_insert_eq;
        wsimpl; rewrite Hc; rewrite bool_decide_eq_true_2 by done; cbn;
        apply Nat.ltb_lt; lia
      | unfold used_of; by wsimpl
      | unfold in_use; wsimpl; apply lookup_delete_eq
      | intros _; unfold idle; wsimpl; split; [done|];
        eexists; split; [apply lookup_insert_eq|]; by wsimpl
      | congruence
      | eexists; split; [wsimpl; reflexivity|]; by unfold released; wsimpl ].
Qed.


Lemma same_rows_trans (d1 d2 d3 : Database F) :
  same_rows d1 d2 -> same_rows d2 d3 -> same_rows d1 d3.
Proof. intros [] []. split; congruence. Qed.

Lemma guarded_insert_spec (w0 w1 : World F) c p key k payload stmt msg after :
  lent w0 w1 c p key k -> pool_ok w1 = true ->
  (forall w, exists w', after w = (Ret true, w') /\ quiet w w') ->
  exists r w',
    guarded_insert c payload stmt msg after w1 = (r, w') /\ same_site w1 w'
    /\ match r with
       | Ret b =>
           (exists k2, given_back w0 w' c k2)
           /\ if b
              then exists doc eff,
                  json_dumps payload = Ret doc
                  /\ run_sql (clock w1) (db w1) (stmt doc) = Ret eff
                  /\ db w' = apply_writes (advance_sequences eff (db w1)) (eff_writes eff)
              else same_rows (db w1) (db w')
       | Raise e =>
           same_rows (db w1) (db w')
           /\ e = OperationalError "server closed the connection unexpectedly"
       end.
Proof.
  intros Hlent Hok Hafter.
  pose proof Hlent as [Hp Hopen Hidl Hr Hu Hfresh Halloc Hk Hkopen Hkidle].
  destruct (insert_suite_spec w1 c k payload stmt after Hk Hkopen Hkidle Hafter)
    as (r2 & w2 & k2 & Hsuite & Hsite2 & Hp2 & Hn2 & Hk2 & Hr2).
  unfold guarded_insert, try_except_finally.
  fold (insert_suite c payload stmt after). rewrite Hsuite.
  destruct r2 as [b|e].
  - destruct Hr2 as (-> & Hc2 & Hs2 & doc & eff & Hjson & Hrun & Hdb).
    destruct (close_and_return_spec w0 w1 w2 c p key k k2 (Some {| connection := c |}))
      as (rf & w3 & -> & Hsite3 & Hdb3 & Hrf); auto.
    { by apply left_idle. }
    exists (match rf with Ret _ => Ret true | Raise e => Raise e end), w3.
    split; [by destruct rf|]. split; [by eapply same_site_trans|].
    destruct rf as [[]|e'].
    + split; [by exists k2|]. exists doc, eff. repeat split; auto. congruence.
    + (* no release raises on an idle connection *)
      destruct Hrf as (? & ? & _). congruence.
  - destruct Hr2 as [Hrows Hleft].
    unfold bind at 1, emit at 1, ret at 1.
    set (w2' := set_trace _ w2).
    destruct (close_and_return_spec w0 w1 w2' c p key k k2 (Some {| connection := c |}))
      as (rf & w3 & -> & Hsite3 & Hdb3 & Hrf); auto.
    exists (match rf with Ret _ => Ret false | Raise e => Raise e end), w3.
    split; [by destruct rf|].
    assert (same_site w2 w2') by (subst w2'; split; wsimpl; rewrite ?direct_connects_snoc by done; done).
    split; [eauto using same_site_trans|].
    assert (same_rows (db w1) (db w3)) by (rewrite Hdb3; exact Hrows).
    destruct rf as [[]|e']; [|by destruct Hrf as (_ & _ & ->)].
    split; [by exists k2|done].
Qed.


Lemma run_sql_insert_prediction now (d : Database F) doc p mv eff :
  run_sql now d (InsertPrediction doc p mv) = Ret eff ->
  exists t,
    predictions d = Some t
    /\ apply_writes (advance_sequences eff d) (eff_writes eff) =
       {| predictions := Some {| rows := rows t ++ [prediction_row t now doc p mv];
                                 next_id := next_id t + 1 |};
          drift_reports := drift_reports d |}.
Proof.
  unfold run_sql. destruct (predictions d) as [t|] eqn:Ht; [|done].
  destruct (negb (jsonb_accepts doc)); [done|].
  destruct (50 <? String.length mv)%nat; [done|].
  intros [= <-]. exists t. split; [done|].
  unfold apply_writes, advance_sequences. cbn. by rewrite Ht.
Qed.

Lemma run_sql_insert_report now (d : Database F) dd ds fn dt doc eff :
  run_sql now d (InsertDriftReport dd ds fn dt doc) = Ret eff ->
  exists t,
    drift_reports d = Some t
    /\ apply_writes (advance_sequences eff d) (eff_writes eff) =
       {| predictions := predictions d;
          drift_reports := Some {| rows := rows t ++ [report_row t now dd ds fn dt doc];
                                   next_id := next_id t + 1 |} |}.
Proof.
  unfold run_sql. destruct (drift_reports d) as [t|] eqn:Ht; [|done].
  destruct (negb (jsonb_accepts doc)); [done|].
  destruct (100 <? String.length fn)%nat; [done|].
  destruct (50 <? String.length dt)%nat; [done|].
  intros [= <-]. exists t. split; [done|].
  unfold apply_writes, advance_sequences. cbn. by rewrite Ht.
Qed.

Lemma ret_quiet (w : World F) :
  exists w', ret (F := F) true w = (Ret true, w') /\ quiet w w'.
Proof. exists w. by split. Qed.

Lemma emit_ret_quiet (e : event F) (w : World F) :
  is_direct_connect e = false ->
  exists w', (emit e ;;; ret true) w = (Ret true, w') /\ quiet w w'.
Proof.
  intros He. eexists. split; [reflexivity|].
  split; wsimpl; try done. by apply direct_connects_snoc.
Qed.

Lemma log_prediction_spec (w : World F) input_data prediction model_version :
  pool_ok w = true ->
  exists r w',
    log_prediction input_data prediction model_version w = (r, w')
    /\ same_site w w'
    /\ (forall b, r = Ret b -> pool_restored w w')
    /\ match r with
       | Ret true =>
           exists t doc,
             predictions (db w) = Some t /\ json_dumps input_data = Ret doc
             /\ db w' =
                {| predictions :=
                     Some {| rows := rows t ++
                               [prediction_row t (clock w) doc prediction model_version];
                             next_id := next_id t + 1 |};
                   drift_reports := drift_reports (db w) |}
       | _ => same_rows (db w) (db w')
       end.
Proof.
  intros Hok.
  destruct (get_db_connection_spec w Hok) as (r0 & w1 & Hget & Hsite & Hdb & Hok1 & Hr0).
  unfold log_prediction, bind. rewrite Hget.
  destruct r0 as [c|].
  - destruct Hr0 as (p & key & k & Hlent).
    destruct (guarded_insert_spec w w1 c p key k input_data
                (fun doc => InsertPrediction doc prediction model_version)
                "Error logging prediction" (ret true) Hlent Hok1 ret_quiet)
      as (r & w' & Hrun & Hsite' & Hr).
    exists r, w'. split; [exact Hrun|]. split; [by eapply same_site_trans|].
    destruct r as [b|e].
    + destruct Hr as [[k2 Hback] Hb]. split.
      * intros _ _. split; [apply Hback|]. split; [apply Hback|].
        intros c' w1' Hg. rewrite Hget in Hg. injection Hg as <- <-. by exists k2.
      * destruct b; [|by rewrite <- Hdb].
        destruct Hb as (doc & eff & Hjson & Hsql & Hdb').
        apply run_sql_insert_prediction in Hsql as (t & Ht & Happ).
        exists t, doc. rewrite <- Hdb, <- (site_clock _ _ Hsite).
        split; [done|]. split; [done|]. by rewrite Hdb', Happ.
    + split; [done|]. destruct Hr as [Hr _]. by rewrite <- Hdb.
  - exists (Ret false), w1. split; [done|]. split; [done|]. split.
    + intros _ _. split; [done|]. split; [done|]. intros c w1'. congruence.
    + rewrite Hdb. apply same_rows_refl.
Qed.

Lemma log_drift_result_spec (w : World F) dd ds fn dt report_data :
  pool_ok w = true ->
  exists r w',
    log_drift_result dd ds fn dt report_data w = (r, w')
    /\ same_site w w'
    /\ (forall b, r = Ret b -> pool_restored w w')
    /\ match r with
       | Ret true =>
           exists t doc,
             drift_reports (db w) = Some t /\ json_dumps report_data = Ret doc
             /\ db w' =
                {| predictions := predictions (db w);
                   drift_reports :=
                     Some {| rows := rows t ++ [report_row t (clock w) dd ds fn dt doc];
                             next_id := next_id t + 1 |} |}
       | _ => same_rows (db w) (db w')
       end.
Proof.
  intros Hok.
  destruct (get_db_connection_spec w Hok) as (r0 & w1 & Hget & Hsite & Hdb & Hok1 & Hr0).
  unfold log_drift_result, bind at 1. rewrite Hget.
  destruct r0 as [c|].
  - destruct Hr0 as (p & key & k & Hlent).
    destruct (guarded_insert_spec w w1 c p key k report_data
                (fun doc => InsertDriftReport dd ds fn dt doc)
                "Error logging drift result"
                (emit (EvLog INFO "Drift result logged" None) ;;; ret true) Hlent Hok1)
      as (r & w' & Hrun & Hsite' & Hr).
    { intros w2. by apply emit_ret_quiet. }
    exists r, w'. split; [exact Hrun|]. split; [by eapply same_site_trans|].
    destruct r as [b|e].
    + destruct Hr as [[k2 Hback] Hb]. split.
      * intros _ _. split; [apply Hback|]. split; [apply Hback|].
        intros c' w1' Hg. rewrite Hget in Hg. injection Hg as <- <-. by exists k2.
      * destruct b; [|by rewrite <- Hdb].
        destruct Hb as (doc & eff & Hjson & Hsql & Hdb').
        apply run_sql_insert_report in Hsql as (t & Ht & Happ).
        exists t, doc. rewrite <- Hdb, <- (site_clock _ _ Hsite).
        split; [done|]. split; [done|]. by rewrite Hdb', Happ.
    + split; [done|]. destruct Hr as [Hr _]. by rewrite <- Hdb.
  - exists (Ret false), w1. split; [done|]. split; [done|]. split.
    + intros _ _. split; [done|]. split; [done|]. intros c w1'. congruence.
    + rewrite Hdb. apply same_rows_refl.
Qed.

(** The writers catch every [Exception] of their body, so the one exception
    that can leave them is the one the release raises in the [finally]
    suite: the rollback [putconn] runs on a connection whose transaction
    failed.  No row is stored on that path. *)
Lemma log_prediction_raise (w w' : World F) input_data prediction model_version e :
  pool_ok w = true ->
  log_prediction input_data prediction model_version w = (Raise e, w') ->
  e = OperationalError "server closed the connection unexpectedly"
  /\ same_rows (db w) (db w').
Proof.
  intros Hok Hrun.
  destruct (get_db_connection_spec w Hok) as (r0 & w1 & Hget & Hsite & Hdb & Hok1 & Hr0).
  unfold log_prediction, bind in Hrun. rewrite Hget in Hrun.
  destruct r0 as [c|]; [|done].
  destruct Hr0 as (p & key & k & Hlent).
  destruct (guarded_insert_spec w w1 c p key k input_data
              (fun doc => InsertPrediction doc prediction model_version)
              "Error logging prediction" (ret true) Hlent Hok1 ret_quiet)
    as (r & w2 & Hrun2 & _ & Hr).
  pose proof (eq_trans (eq_sym Hrun2) Hrun) as Heq. injection Heq as -> ->.
  destruct Hr as [Hrows ->]. split; [done|]. by rewrite <- Hdb.
Qed.

Lemma log_drift_result_raise (w w' : World F) dd ds fn dt report_data e :
  pool_ok w = true ->
  log_drift_result dd ds fn dt report_data w = (Raise e, w') ->
  e = OperationalError "server closed the connection unexpectedly"
  /\ same_rows (db w) (db w').
Proof.
  intros Hok Hrun.
  destruct (get_db_connection_spec w Hok) as (r0 & w1 & Hget & Hsite & Hdb & Hok1 & Hr0).
  unfold log_drift_result, bind at 1 in Hrun. rewrite Hget in Hrun.
  destruct r0 as [c|]; [|done].
  destruct Hr0 as (p & key & k & Hlent).
  destruct (guarded_insert_spec w w1 c p key k report_data
              (fun doc => InsertDriftReport dd ds fn dt doc)
              "Error logging drift result"
              (emit (EvLog INFO "Drift result logged" None) ;;; ret true) Hlent Hok1)
    as (r & w2 & Hrun2 & _ & Hr).
  { intros w3. by apply emit_ret_quiet. }
  pose proof (eq_trans (eq_sym Hrun2) Hrun) as Heq. injection Heq as -> ->.
  destruct Hr as [Hrows ->]. split; [done|]. by rewrite <- Hdb.
Qed.


(** ** The read *)

Lemma direct_connects_direct (t : list (event F)) :
  direct_connects (t ++ [EvConnect Direct]) = S (direct_connects t).
Proof.
  unfold direct_connects. rewrite List.filter_app, length_app. cbn. lia.
Qed.

Lemma read_only_pool_ok (w w' : World F) :
  read_only w w' -> pool_ok w = true -> pool_ok w' = true.
Proof.
  intros [_ _ _ Hp _ Hn Hc] Hok.
  destruct (_connection_pool w) as [p|] eqn:Hpw; [|by apply pool_ok_none].
  apply (pool_ok_inv w' p Hp).
  destruct (proj1 (pool_ok_inv w p Hpw) Hok) as [H1 H2 H3 H4 H5 H6].
  split; auto. intros c Hin. specialize (H4 c Hin).
  destruct (idle_ok_elim w c H4) as (k & Hk & Hopen & Hst & Hlt).
  unfold idle_ok. rewrite (Hc c Hlt), Hk, Hopen, Hst.
  rewrite bool_decide_eq_true_2 by done. cbn. apply Nat.ltb_lt. lia.
Qed.

Ltac leaf :=
  eexists _, _; split; [reflexivity|]; norm;
  split;
  [ split; norm;
    [ done | done | done | done
    | first [ apply same_rows_refl | apply same_rows_advance ]
    | lia
    | intros c' Hc'; rewrite ?lookup_insert_ne by lia; done ]
  | split; [ rewrite ?direct_connects_snoc by done; apply direct_connects_direct | ] ].

Lemma get_recent_predictions_spec (w : World F) :
  exists r w',
    get_recent_predictions w = (r, w') /\ read_only w w'
    /\ direct_connects (trace w') = S (direct_connects (trace w))
    /\ match r with
       | Ret sample =>
           exists t, predictions (db w) = Some t
                     /\ sample = recent_sample (clock w) (rows t)
       | Raise _ => True
       end.
Proof.
  unfold get_recent_predictions, with_connection, with_cursor, psycopg2_connect,
    conn_cursor, cur_execute, conn_commit, conn_rollback, cur_close.
  munfold. norm.
  destruct (hd NoFault (faults w)) eqn:Hf1; norm; [|by leaf..].
  destruct (hd NoFault (tl (faults w))) eqn:Hf2; norm.
  - unfold run_sql.
    destruct (predictions (db w)) as [t|] eqn:Ht; norm.
    + destruct (hd NoFault (tl (tl (faults w)))) eqn:Hf3; norm; leaf; [|done..].
      by exists t.
    + destruct (hd NoFault (tl (tl (faults w)))) eqn:Hf3; norm; by leaf.
  - destruct (hd NoFault (tl (tl (faults w)))) eqn:Hf3; norm; by leaf.
  - by leaf.
Qed.


(** ** [initialize_database] *)

Ltac init_leaf :=
  eexists _, _, _, _; split; [reflexivity|]; norm;
  split; [split; norm; rewrite ?direct_connects_snoc by done; done|];
  split; [done|]; split; [done|];
  split; [first [reflexivity | apply lookup_insert_eq | eassumption]|];
  norm.

Lemma init_suite_spec (w1 : World F) c k :
  conns w1 !! c = Some k -> closed k = false -> status k = TxIdle ->
  exists l r2 w2 k2,
    init_suite c w1 = ((l, r2), w2)
    /\ same_site w1 w2
    /\ _connection_pool w2 = _connection_pool w1
    /\ next_conn w2 = next_conn w1
    /\ conns w2 !! c = Some k2
    /\ autocommit k2 = true
    /\ (closed k2 = true \/ closed k2 = false /\ status k2 = TxIdle)
    /\ match r2 with
       | Ret b =>
           b = true /\ closed k2 = false
           /\ predictions (db w2) = Some (default empty_table (predictions (db w1)))
           /\ drift_reports (db w2) = Some (default empty_table (drift_reports (db w1)))
       | Raise _ => True
       end.
Proof.
  intros Hk Hopen Hidle.
  unfold init_suite, before_local, bind_local, set_autocommit, conn_cursor, cur_execute.
  munfold. norm. rewrite Hk, Hopen, Hidle. norm.
  destruct (hd NoFault (faults w1)) eqn:Hf1; norm.
  - unfold run_sql at 1. norm.
    destruct (hd NoFault (tl (faults w1))) eqn:Hf2; norm.
    + unfold run_sql at 1. norm.
      init_leaf. split; [done|]. split; [by right|]. repeat split; try done.
    + init_leaf. split; [done|]. split; [by right|]. done.
    + init_leaf. split; [done|]. split; [by left|]. done.
  - init_leaf. split; [done|]. split; [by right|]. done.
  - init_leaf. split; [done|]. split; [by left|]. done.
Qed.

Lemma initialize_database_spec (w : World F) :
  pool_ok w = true ->
  exists b w',
    initialize_database w = (Ret b, w')
    /\ same_site w w'
    /\ pool_restored w w'
    /\ (b = true ->
        predictions (db w') = Some (default empty_table (predictions (db w)))
        /\ drift_reports (db w') = Some (default empty_table (drift_reports (db w)))
        /\ exists c k p,
            idle w' = [c] /\ conns w' !! c = Some k
            /\ autocommit k = true /\ closed k = false /\ status k = TxIdle
            /\ _connection_pool w' = Some p /\ pool_closed p = false
            /\ forall c0 w1, get_db_connection w = (Ret (Some c0), w1) -> c0 = c).
Proof.
  intros Hok.
  destruct (get_db_connection_spec w Hok) as (r0 & w1 & Hget & Hsite & Hdb & Hok1 & Hr0).
  unfold initialize_database, bind at 1. rewrite Hget.
  destruct r0 as [c|].
  2:{ exists false, w1. split; [done|]. split; [done|]. split; [|done].
      split; [done|]. split; [done|]. intros c w1'. congruence. }
  destruct Hr0 as (p & key & k & Hlent).
  pose proof Hlent as [Hp Hopen Hidl Hr Hu Hfresh Halloc Hk Hkopen Hkidle].
  destruct (init_suite_spec w1 c k Hk Hkopen Hkidle)
    as (l & r2 & w2 & k2 & Hsuite & Hsite2 & Hp2 & Hn2 & Hk2 & Hauto & Hst2 & Hr2).
  unfold try_except_finally. fold (init_suite c). rewrite Hsuite.
  assert (Hleft : conn_left k2).
  { destruct Hst2 as [?|[? ?]]; [by apply left_closed|by apply left_idle]. }
  destruct r2 as [b|e].
  - destruct Hr2 as (-> & Hc2 & Hpred & Hrep).
    destruct (close_and_return_spec w w1 w2 c p key k k2 l)
      as (rf & w3 & -> & Hsite3 & Hdb3 & Hrf); auto.
    destruct rf as [[]|e'].
    + exists true, w3. split; [done|]. split; [eauto using same_site_trans|].
      split.
      * split; [apply Hrf|]. split; [apply Hrf|].
        intros c' w1' Hg. rewrite Hget in Hg. injection Hg as <- <-. by exists k2.
      * intros _. rewrite Hdb3, <- Hdb. split; [done|]. split; [done|].
        destruct Hrf as [_ _ _ Hbo _ (p3 & Hp3 & Hp3o)].
        destruct (Hbo Hc2) as (Hidle3 & k3 & Hk3 & Hc3 & Hs3 & Ha3).
        exists c, k3, p3. repeat split; auto; congruence.
    + destruct Hrf as (? & ? & _). destruct Hst2 as [?|[_ Hs]]; congruence.
  - unfold bind at 1, emit at 1, ret at 1.
    set (w2' := set_trace _ w2).
    destruct (close_and_return_spec w w1 w2' c p key k k2 l)
      as (rf & w3 & -> & Hsite3 & Hdb3 & Hrf); auto.
    assert (same_site w2 w2') by (subst w2'; split; wsimpl; rewrite ?direct_connects_snoc by done; done).
    destruct rf as [[]|e'].
    + exists false, w3. split; [done|]. split; [eauto using same_site_trans|].
      split; [|done].
      split; [apply Hrf|]. split; [apply Hrf|].
      intros c' w1' Hg. rewrite Hget in Hg. injection Hg as <- <-. by exists k2.
    + destruct Hrf as (? & ? & _). destruct Hst2 as [?|[_ Hs]]; congruence.
Qed.


(** ** Order of the rows, JSON, and two states of the pool *)

#[local] Instance newer_transitive : Transitive (@newer F).
Proof. intros a b c. unfold newer. lia. Qed.

#[local] Instance newer_total : Total (@newer F).
Proof. intros a b. unfold newer. lia. Qed.

Lemma faults_clear_S n (w : World F) :
  faults_clear (S n) w = true ->
  hd NoFault (faults w) = NoFault
  /\ faults_clear n (set_faults (tl (faults w)) w) = true.
Proof.
  unfold faults_clear. wsimpl. destruct (faults w) as [|f fs]; cbn.
  - intros _. split; [done|]. by destruct n.
  - destruct f; cbn; done.
Qed.

Lemma faults_clear_3 (w : World F) :
  faults_clear 3 w = true ->
  hd NoFault (faults w) = NoFault
  /\ hd NoFault (tl (faults w)) = NoFault
  /\ hd NoFault (tl (tl (faults w))) = NoFault.
Proof.
  intros H3. apply faults_clear_S in H3 as [H1 H3].
  apply faults_clear_S in H3 as [H2 H3]. wsimpl.
  apply faults_clear_S in H3 as [H3 _]. wsimpl. done.
Qed.

Lemma get_recent_predictions_returns (w : World F) t :
  predictions (db w) = Some t -> faults_clear 3 w = true ->
  exists w', get_recent_predictions w = (Ret (recent_sample (clock w) (rows t)), w').
Proof.
  intros Ht (Hf1 & Hf2 & Hf3)%faults_clear_3.
  unfold get_recent_predictions, with_connection, with_cursor, psycopg2_connect,
    conn_cursor, cur_execute, conn_commit, conn_rollback, cur_close.
  munfold. norm. rewrite Hf1. norm. rewrite Hf2. norm.
  unfold run_sql. rewrite Ht. norm. rewrite Hf3. norm.
  eexists. reflexivity.
Qed.




Lemma get_db_connection_idle (w : World F) p c :
  _connection_pool w = Some p -> pool_closed p = false -> _pool p = [c] ->
  pool_ok w = true ->
  get_db_connection w =
    (Ret (Some c),
     set_connection_pool
       (Some (with_used (<[S (_keys p) := c]> (_used p)) (<[c := S (_keys p)]> (_rused p))
                (with_pool [] (with_keys (S (_keys p)) p)))) w).
Proof.
  intros Hp Hopen Hidl Hok.
  pose proof (proj1 (pool_ok_inv w p Hp) Hok) as [Hmin Hmax Hshort Hidle Hkeys Hrused].
  unfold get_db_connection, try_except, bind, get_connection_pool.
  rewrite Hp. wsimpl. unfold on_pool. rewrite Hp. unfold _getconn. rewrite Hopen. wsimpl.
  assert (Hfresh : _used p !! S (_keys p) = None).
  { destruct (_used p !! S (_keys p)) eqn:E; [|done]. apply Hkeys in E. lia. }
  rewrite Hfresh, Hidl. change [c] with ([] ++ [c]). rewrite list_pop_snoc.
  reflexivity.
Qed.

Lemma get_db_connection_exhausted (w : World F) p :
  _connection_pool w = Some p -> pool_closed p = false -> _pool p = [] ->
  size (_used p) = maxconn p -> pool_ok w = true ->
  on_pool _getconn w =
    (Raise (PoolError "connection pool exhausted"),
     set_connection_pool (Some (with_keys (S (_keys p)) p)) w)
  /\ get_db_connection w =
    (Ret None,
     set_trace
       (trace w ++ [EvLog ERROR "Database connection failed"
                      (Some (PoolError "connection pool exhausted"))])
       (set_connection_pool (Some (with_keys (S (_keys p)) p)) w)).
Proof.
  intros Hp Hopen Hidl Hfull Hok.
  pose proof (proj1 (pool_ok_inv w p Hp) Hok) as [Hmin Hmax Hshort Hidle Hkeys Hrused].
  assert (Hfresh : _used p !! S (_keys p) = None).
  { destruct (_used p !! S (_keys p)) eqn:E; [|done]. apply Hkeys in E. lia. }
  assert (Hget : on_pool _getconn w =
    (Raise (PoolError "connection pool exhausted"),
     set_connection_pool (Some (with_keys (S (_keys p)) p)) w)).
  { unfold on_pool. rewrite Hp. unfold _getconn. rewrite Hopen. wsimpl.
    rewrite Hfresh, Hidl, list_pop_nil. by rewrite bool_decide_eq_true_2. }
  split; [exact Hget|].
  unfold get_db_connection, try_except, bind, get_connection_pool.
  rewrite Hp. wsimpl. rewrite Hget. reflexivity.
Qed.

Lemma report_data_dumps (count : Z) (share : F) (n : Z) :
  json_dumps
    (<["drifted_columns" := PyInt count]>
       (<["drift_share" := PyFloat share]>
          (<["sample_size" := PyInt n]> (∅ : pydict F))))
  = Ret (<["drifted_columns" := JInt count]>
           (<["drift_share" := JFloat share]>
              (<["sample_size" := JInt n]> ∅))).
Proof. reflexivity. Qed.

End Lemmas.

Section DriftLemmas.
Context {F : Type} `{!PyFloatOps F} `{!Evidently F}.

(** ** [detect_drift] *)

Lemma load_reference_data_eq (w : World F) :
  load_reference_data w =
    (match files w !! reference_path (config w) with
     | Some (Parquet t) => Ret t
     | Some Garbage => Raise (ArrowInvalid (reference_path (config w)))
     | None => Raise (FileNotFoundError (reference_path (config w)))
     end, w).
Proof.
  unfold load_reference_data, reference_path, read_parquet.
  destruct (USE_CLOUD_STORAGE (config w));
    by destruct (files w !! _) as [[]|].
Qed.

Lemma same_rows_reports (d d' : Database F) :
  same_rows d d' ->
  from_option rows [] (drift_reports d') = from_option rows [] (drift_reports d)
  /\ from_option rows [] (predictions d') = from_option rows [] (predictions d).
Proof.
  intros [Hp Hr].
  destruct (drift_reports d), (drift_reports d'), (predictions d), (predictions d');
    cbn in *; split; congruence.
Qed.

Lemma detect_drift_run (w : World F) r w' :
  detect_drift w = (r, w') -> drift_run w r w'.
Proof.
  unfold detect_drift, bind at 1.
  pose proof (load_reference_data_eq w) as Hload.
  destruct (files w !! reference_path (config w)) as [[ref|]|] eqn:Hfile;
    rewrite Hload; try (intros [= <- <-]; by apply run_no_reference).
  unfold bind at 1.
  destruct (get_recent_predictions w) as [[[current_df|]|e] w1] eqn:Hread.
  - unfold bind at 1, emit at 1. unfold bind at 1.
    destruct (data_drift current_df ref) as [[count share]|e] eqn:Hdrift.
    + cbn [fst snd]. unfold bind at 1.
      destruct (log_drift_result _ _ _ _ _ _) as [[logged|e] w3] eqn:Hlog.
      * unfold bind, emit, ret. intros [= <- <-]. by eapply run_completed.
      * intros [= <- <-]. by eapply run_log_raised.
    + intros [= <- <-]. by eapply run_analysis_failed.
  - unfold ret. intros [= <- <-]. by eapply run_gated.
  - intros [= <- <-]. by eapply run_read_failed.
Qed.


Lemma given_back_handed_back (w w' : World F) c k2 :
  given_back w w' c k2 -> handed_back w w' c.
Proof.
  intros [_ Hu Hi Ho Hc _]. split; [done|]. split; [done|].
  destruct (closed k2) eqn:E.
  - right. destruct (Hc eq_refl). eauto.
  - left. by destruct (Ho eq_refl).
Qed.


End DriftLemmas.

(** * The claims *)

Section DriftClaims.
Context {F : Type} `{!PyFloatOps F} `{!Evidently F}.

(** C1 (as amended).  A run that finds fewer than ten rows returns [False]
    and writes no report row.  A run returns [True] exactly when the sample
    is not gated and the analysis completes: it has then called
    [log_drift_result] once, whose result it does not look at, and one
    report row is written when that call returned [True], none when it
    returned [False].  A run that raises writes no report row. *)
Theorem drift_run_reports (w : World F) (r : result bool) (w' : World F) :
  pool_ok w = true ->
  detect_drift w = (r, w') ->
  (forall reference_df w1,
     load_reference_data w = (Ret reference_df, w) ->
     get_recent_predictions w = (Ret None, w1) ->
     r = Ret false /\ w' = w1)
  /\ match r with
     | Ret false =>
         report_rows w' = report_rows w
         /\ exists t,
             predictions (db w) = Some t /\ recent_sample (clock w) (rows t) = None
     | Ret true =>
         exists t reference_df current_df count share w2 logged w3,
           predictions (db w) = Some t
           /\ recent_sample (clock w) (rows t) = Some current_df
           /\ load_reference_data w = (Ret reference_df, w)
           /\ data_drift current_df reference_df = Ret (count, share)
           /\ (let a := drift_report_args share count current_df in
               log_drift_result (a_drift_detected a) (a_drift_score a)
                 (a_feature_name a) (a_drift_type a) (a_report_data a) w2
               = (Ret logged, w3))
           /\ report_rows w2 = report_rows w
           /\ report_rows w' = report_rows w3
           /\ if logged
              then exists row, report_rows w' = report_rows w ++ [row]
              else report_rows w' = report_rows w
     | Raise _ => report_rows w' = report_rows w
     end.
Proof.
  intros Hok Hrun. split.
  { intros reference_df w1 Hload Hread. unfold detect_drift, bind in Hrun.
    rewrite Hload, Hread in Hrun. unfold ret in Hrun. by injection Hrun as <- <-. }
  apply detect_drift_run in Hrun.
  destruct (get_recent_predictions_spec w) as (r1 & w1 & Hread & Hro & _ & Hsample).
  pose proof (proj1 (same_rows_reports _ _ (ro_rows _ _ Hro))) as Hrows1.
  fold (report_rows w1) (report_rows w) in Hrows1.
  inversion Hrun as
    [ e Hload
    | ref e w1' Hload Hread'
    | ref w1' Hload Hread'
    | ref cur w1' e Hload Hread' Hdrift
    | ref cur w1' count share e w3 Hload Hread' Hdrift Hlog
    | ref cur w1' count share logged w3 Hload Hread' Hdrift Hlog ]; subst;
    try (rewrite Hread in Hread'; injection Hread' as -> <-).
  - done.
  - done.
  - split; [done|]. destruct Hsample as (t & Ht & Hs). by exists t.
  - done.
  - set (w2 := set_trace (trace w1 ++ [EvRunReport]) w1) in *.
    assert (Hok2 : pool_ok w2 = true).
    { apply (read_only_pool_ok w1); [|by eapply read_only_pool_ok].
      subst w2. by split; wsimpl; auto using same_rows_refl. }
    cbv zeta in Hlog. set (a := drift_report_args share count cur) in *.
    destruct (log_drift_result_spec w2 (a_drift_detected a) (a_drift_score a)
                (a_feature_name a) (a_drift_type a) (a_report_data a) Hok2)
      as (r3 & w3' & Hlog' & _ & _ & Hr3).
    rewrite Hlog in Hlog'. injection Hlog' as <- <-.
    apply same_rows_reports in Hr3 as [Hr3 _].
    etransitivity; [exact Hr3|exact Hrows1].
  - set (w2 := set_trace (trace w1 ++ [EvRunReport]) w1) in *.
    assert (Hok2 : pool_ok w2 = true).
    { apply (read_only_pool_ok w1); [|by eapply read_only_pool_ok].
      subst w2. by split; wsimpl; auto using same_rows_refl. }
    cbv zeta in Hlog. set (a := drift_report_args share count cur) in *.
    destruct (log_drift_result_spec w2 (a_drift_detected a) (a_drift_score a)
                (a_feature_name a) (a_drift_type a) (a_report_data a) Hok2)
      as (r3 & w3' & Hlog' & _ & _ & Hr3).
    rewrite Hlog in Hlog'. injection Hlog' as <- <-.
    destruct Hsample as (t & Ht & Hs).
    exists t, ref, cur, count, share, w2, logged, w3.
    split; [done|]. split; [done|]. split; [done|]. split; [done|].
    split; [exact Hlog|]. split; [done|]. split; [done|].
    unfold report_rows at 1 3. wsimpl. fold (report_rows w3).
    destruct logged.
    + destruct Hr3 as (tr & doc & Htr & Hdoc & Hdb3).
      eexists. unfold report_rows at 1. rewrite Hdb3. cbn.
      rewrite <- Hrows1. change (report_rows w1) with (report_rows w2).
      unfold report_rows. by rewrite Htr.
    + apply same_rows_reports in Hr3 as [Hr3 _].
      etransitivity; [exact Hr3|exact Hrows1].
Qed.


(** C9.  When the reference path holds no readable snapshot,
    [load_reference_data] raises, [detect_drift] raises the same exception
    and leaves the world as it found it: no report row, no comparison, no
    connection. *)
Theorem reference_failure_aborts_run (w : World F) :
  (forall table, files w !! reference_path (config w) <> Some (Parquet table)) ->
  exists e,
    load_reference_data w = (Raise e, w)
    /\ detect_drift w = (Raise e, w)
    /\ report_rows (detect_drift w).2 = report_rows w
    /\ trace (detect_drift w).2 = trace w.
Proof.
  intros Hmissing.
  pose proof (load_reference_data_eq w) as Hload.
  assert (exists e, load_reference_data w = (Raise e, w)) as [e He].
  { destruct (files w !! reference_path (config w)) as [[table|]|]; eauto.
    by destruct (Hmissing table). }
  exists e. split; [done|].
  assert (Hrun : detect_drift w = (Raise e, w)).
  { unfold detect_drift, bind at 1. by rewrite He. }
  by rewrite Hrun.
Qed.

End DriftClaims.

Section StoreClaims.
Context {F : Type} `{!PyFloatOps F}.

(** C2.  With the table present and the three round trips of the read
    unharmed, [get_recent_predictions] returns [None] iff fewer than ten
    rows have [timestamp >= now - 7 days]; otherwise it returns the
    [input_data] payloads of the first fifty of those rows in an order that
    is newest first. *)
Theorem recent_predictions_gate (w : World F) (t : Table (PredictionRecord F)) :
  predictions (db w) = Some t ->
  faults_clear 3 w = true ->
  exists sorted r w',
    get_recent_predictions w = (Ret r, w')
    /\ sorted ≡ₚ window_rows (clock w) (rows t)
    /\ StronglySorted newer sorted
    /\ (r = None <-> (length (window_rows (clock w) (rows t)) < 10)%nat)
    /\ ((10 <= length (window_rows (clock w) (rows t)))%nat ->
        r = Some (json_loads <$> (pr_input_data <$> take 50 sorted))
        /\ (length (take 50 sorted) <= 50)%nat).
Proof.
  intros Ht Hclear. set (matching := window_rows (clock w) (rows t)).
  destruct (get_recent_predictions_returns w t Ht Hclear) as [w' Hread].
  exists (merge_sort newer matching), (recent_sample (clock w) (rows t)), w'.
  split; [exact Hread|].
  split; [apply merge_sort_Permutation|].
  split; [apply StronglySorted_merge_sort; [apply newer_transitive|apply newer_total]|].
  assert (Hlen : length (pr_input_data <$> select_recent (clock w - seven_days) (rows t))
                 = (50 `min` length matching)%nat).
  { rewrite length_fmap. unfold select_recent. rewrite length_take.
    by rewrite (Permutation_length (merge_sort_Permutation newer matching)). }
  unfold recent_sample. cbv zeta. rewrite Hlen.
  split.
  - destruct (10 <=? 50 `min` length matching)%nat eqn:E.
    + apply Nat.leb_le in E. split; [done|lia].
    + apply Nat.leb_gt in E. split; [lia|done].
  - intros Hten. split; [|rewrite length_take; lia].
    destruct (10 <=? 50 `min` length matching)%nat eqn:E; [done|].
    apply Nat.leb_gt in E. lia.
Qed.

(** C5 (as amended).  [initialize_database], [log_prediction] and
    [log_drift_result] open no connection of their own: whatever they use
    comes from [get_db_connection].  [get_recent_predictions] opens one
    direct connection on every call and leaves the pool as it is. *)
Theorem connection_sources (w : World F) :
  pool_ok w = true ->
  (forall r w', initialize_database w = (r, w') ->
     direct_connects (trace w') = direct_connects (trace w))
  /\ (forall input_data prediction model_version r w',
        log_prediction input_data prediction model_version w = (r, w') ->
        direct_connects (trace w') = direct_connects (trace w))
  /\ (forall drift_detected drift_score feature_name drift_type report_data r w',
        log_drift_result drift_detected drift_score feature_name drift_type report_data w
          = (r, w') ->
        direct_connects (trace w') = direct_connects (trace w))
  /\ (forall r w', get_recent_predictions w = (r, w') ->
        direct_connects (trace w') = S (direct_connects (trace w))
        /\ _connection_pool w' = _connection_pool w).
Proof.
  intros Hok. split; [|split; [|split]].
  - intros r w' Hrun.
    destruct (initialize_database_spec w Hok) as (b & w2 & Hrun' & Hsite & _).
    rewrite Hrun in Hrun'. injection Hrun' as -> ->. apply Hsite.
  - intros i p mv r w' Hrun.
    destruct (log_prediction_spec w i p mv Hok) as (r2 & w2 & Hrun' & Hsite & _).
    rewrite Hrun in Hrun'. injection Hrun' as -> ->. apply Hsite.
  - intros dd ds fn dt rd r w' Hrun.
    destruct (log_drift_result_spec w dd ds fn dt rd Hok) as (r2 & w2 & Hrun' & Hsite & _).
    rewrite Hrun in Hrun'. injection Hrun' as -> ->. apply Hsite.
  - intros r w' Hrun.
    destruct (get_recent_predictions_spec w) as (r2 & w2 & Hrun' & Hro & Hdirect & _).
    rewrite Hrun in Hrun'. injection Hrun' as -> ->. split; [done|apply Hro].
Qed.

(** C6 (as amended).  Each of the three writers, when it returns, has
    handed the connection it acquired back to the pool: the connection is
    no longer in use, the in-use map is what it was, and the connection is
    idle again or, if it broke, closed; the boolean returned is the one the
    [try] suite decided (the row is there iff it is [True]).  The read
    takes nothing from the pool and gives nothing back to it. *)
Theorem writers_hand_back_connection (w : World F) (c : nat) (w1 : World F) :
  pool_ok w = true ->
  get_db_connection w = (Ret (Some c), w1) ->
  (forall b w', initialize_database w = (Ret b, w') -> handed_back w w' c)
  /\ (forall input_data prediction model_version b w',
        log_prediction input_data prediction model_version w = (Ret b, w') ->
        handed_back w w' c
        /\ if b
           then exists row, prediction_rows w' = prediction_rows w ++ [row]
           else prediction_rows w' = prediction_rows w)
  /\ (forall drift_detected drift_score feature_name drift_type report_data b w',
        log_drift_result drift_detected drift_score feature_name drift_type report_data w
          = (Ret b, w') ->
        handed_back w w' c
        /\ if b
           then exists row, report_rows w' = report_rows w ++ [row]
           else report_rows w' = report_rows w)
  /\ (forall r w', get_recent_predictions w = (r, w') ->
        _connection_pool w' = _connection_pool w).
Proof.
  intros Hok Hget. split; [|split; [|split]].
  - intros b w' Hrun.
    destruct (initialize_database_spec w Hok) as (b2 & w2 & Hrun' & _ & Hback & _).
    rewrite Hrun in Hrun'. injection Hrun' as -> ->.
    destruct Hback as (_ & _ & Hback). destruct (Hback c w1 Hget) as [k2 Hk2].
    by eapply given_back_handed_back.
  - intros i p mv b w' Hrun.
    destruct (log_prediction_spec w i p mv Hok) as (r2 & w2 & Hrun' & _ & Hback & Hr).
    rewrite Hrun in Hrun'. injection Hrun' as <- <-.
    split.
    + destruct (Hback b eq_refl) as (_ & _ & Hb). destruct (Hb c w1 Hget) as [k2 Hk2].
      by eapply given_back_handed_back.
    + destruct b.
      * destruct Hr as (t & doc & Ht & _ & Hdb). eexists.
        unfold prediction_rows. rewrite Hdb, Ht. reflexivity.
      * apply same_rows_reports in Hr as [_ Hr]. exact Hr.
  - intros dd ds fn dt rd b w' Hrun.
    destruct (log_drift_result_spec w dd ds fn dt rd Hok)
      as (r2 & w2 & Hrun' & _ & Hback & Hr).
    rewrite Hrun in Hrun'. injection Hrun' as <- <-.
    split.
    + destruct (Hback b eq_refl) as (_ & _ & Hb). destruct (Hb c w1 Hget) as [k2 Hk2].
      by eapply given_back_handed_back.
    + destruct b.
      * destruct Hr as (t & doc & Ht & _ & Hdb). eexists.
        unfold report_rows. rewrite Hdb, Ht. reflexivity.
      * apply same_rows_reports in Hr as [Hr _]. exact Hr.
  - intros r w' Hrun.
    destruct (get_recent_predictions_spec w) as (r2 & w2 & Hrun' & Hro & _).
    rewrite Hrun in Hrun'. injection Hrun' as -> ->. apply Hro.
Qed.


(** C8 (as amended).  With five connections in use and none idle, the
    pool's [getconn] raises its exhaustion error at once, with no round
    trip, and [get_db_connection] turns it into [None]; after one of the
    connections in use, open and with no transaction in progress, is
    returned, the next [get_db_connection] yields that connection. *)
Theorem exhausted_pool_acquire (w : World F) (p : Pool) (c key : nat)
    (k : Connection F) :
  pool_ok w = true ->
  _connection_pool w = Some p -> pool_closed p = false ->
  _pool p = [] -> size (_used p) = 5%nat ->
  _rused p !! c = Some key -> (c < next_conn w)%nat ->
  conns w !! c = Some k -> closed k = false -> status k = TxIdle ->
  exists w0 w1 w2 w3,
    on_pool _getconn w = (Raise (PoolError "connection pool exhausted"), w0)
    /\ get_db_connection w = (Ret None, w1)
    /\ faults w1 = faults w
    /\ return_connection (Some c) w1 = (Ret tt, w2)
    /\ get_db_connection w2 = (Ret (Some c), w3).
Proof.
  intros Hok Hp Hopen Hidl Hsize Hc Halloc Hk Hkopen Hkidle.
  pose proof (proj1 (pool_ok_inv w p Hp) Hok) as Hinv.
  pose proof Hinv as [Hmin Hmax Hshort Hidle Hkeys Hrused].
  destruct (get_db_connection_exhausted w p Hp Hopen Hidl) as [Hpool Hget];
    [congruence|done|].
  set (p1 := with_keys (S (_keys p)) p) in *.
  set (w1 := set_trace _ (set_connection_pool (Some p1) w)) in *.
  assert (Hinv1 : pool_inv w1 p1).
  { split; subst p1; wsimpl;
      [done|done|done|rewrite Hidl; apply no_idle
      |eapply keys_weaken; [exact Hkeys|lia]|done]. }
  assert (Hback : return_connection (Some c) w1
                  = (Ret tt,
                     set_connection_pool
                       (Some (released c key (with_pool (_pool p1 ++ [c]) p1))) w1)).
  { rewrite (return_connection_eq w1 c p1 key k); subst p1 w1; wsimpl; auto.
    - rewrite Hkopen, Hkidle. rewrite bool_decide_eq_false_2 by done.
      by rewrite bool_decide_eq_true_2.
    - rewrite Hidl, Hmin. cbn. lia. }
  eexists _, w1, _, _. split; [exact Hpool|]. split; [exact Hget|].
  split; [done|]. split; [exact Hback|].
  subst p1 w1. wsimpl. rewrite Hidl. cbn [app].
  erewrite get_db_connection_idle; [reflexivity|wsimpl; reflexivity|done|done|].
  eapply (released_ok _ _ c key _ [c]); [exact Hinv1|exact Hc| |wsimpl; reflexivity].
  right. split; [done|]. unfold idle_ok. wsimpl. rewrite Hk, Hkopen, Hkidle.
  rewrite bool_decide_eq_true_2 by done. cbn. by apply Nat.ltb_lt.
Qed.

(** C10.  After [initialize_database] has returned [True], the connection
    it acquired is idle in the pool with [autocommit] set, and the next
    [get_db_connection] hands out that connection, still with
    [autocommit] set. *)
Theorem initialize_database_leaves_autocommit (w w' : World F) :
  pool_ok w = true ->
  initialize_database w = (Ret true, w') ->
  exists c k,
    (forall c0 w1, get_db_connection w = (Ret (Some c0), w1) -> c0 = c)
    /\ idle w' = [c]
    /\ conns w' !! c = Some k
    /\ autocommit k = true /\ closed k = false
    /\ exists w'', get_db_connection w' = (Ret (Some c), w'')
                   /\ conns w'' !! c = Some k.
Proof.
  intros Hok Hrun.
  destruct (initialize_database_spec w Hok) as (b & w2 & Hrun' & _ & Hback & Hb).
  rewrite Hrun in Hrun'. injection Hrun' as <- <-.
  destruct (Hb eq_refl) as (_ & _ & c & k & p & Hidle & Hk & Ha & Hc & Hs & Hp & Hpo & Hacq).
  destruct Hback as (Hok' & _).
  exists c, k. split; [exact Hacq|]. split; [done|]. split; [done|].
  split; [done|]. split; [done|].
  unfold idle in Hidle. rewrite Hp in Hidle. cbn in Hidle.
  eexists. split; [by apply (get_db_connection_idle w' p c)|]. by wsimpl.
Qed.

End StoreClaims.

(** * The claims on concrete worlds *)

Import Example.

(** Two runs of the model: a process with an empty table is gated, and the
    busy process persists one report. *)
Example gated_run :
  (detect_drift fresh_world).1 = Ret false
  /\ report_rows (detect_drift fresh_world).2 = [].
Proof. vm_compute. split; reflexivity. Qed.

Example completed_run :
  (detect_drift busy_world).1 = Ret true
  /\ (fun r => (dr_drift_detected r, dr_drift_score r, dr_feature_name r, dr_drift_type r))
       <$> report_rows (detect_drift busy_world).2
     = [(true, (533 # 1000)%Q, "8_columns_drifted", "data_drift")].
Proof. vm_compute. split; reflexivity. Qed.

(** C1, where the claim as first stated fails: the run returns [True] and
    no report row exists, because [log_drift_result] found no connection. *)
Lemma run_true_without_report :
  (detect_drift server_lost_after_read).1 = Ret true
  /\ report_rows server_lost_after_read = []
  /\ report_rows (detect_drift server_lost_after_read).2 = [].
Proof. vm_compute. repeat split; reflexivity. Qed.

Lemma drift_run_reports_witness :
  pool_ok busy_world = true
  /\ detect_drift busy_world = (Ret true, (detect_drift busy_world).2)
  /\ (forall reference_df w1,
        load_reference_data busy_world = (Ret reference_df, busy_world) ->
        get_recent_predictions busy_world = (Ret None, w1) ->
        Ret true = Ret false /\ (detect_drift busy_world).2 = w1)
  /\ exists t reference_df current_df count share w2 logged w3,
       predictions (db busy_world) = Some t
       /\ recent_sample (clock busy_world) (rows t) = Some current_df
       /\ load_reference_data busy_world = (Ret reference_df, busy_world)
       /\ data_drift current_df reference_df = Ret (count, share)
       /\ (let a := drift_report_args share count current_df in
           log_drift_result (a_drift_detected a) (a_drift_score a) (a_feature_name a)
             (a_drift_type a) (a_report_data a) w2 = (Ret logged, w3))
       /\ report_rows w2 = report_rows busy_world
       /\ report_rows (detect_drift busy_world).2 = report_rows w3
       /\ if logged
          then exists row,
              report_rows (detect_drift busy_world).2 = report_rows busy_world ++ [row]
          else report_rows (detect_drift busy_world).2 = report_rows busy_world.
Proof.
  split; [reflexivity|]. split; [vm_compute; reflexivity|].
  apply (drift_run_reports busy_world (Ret true) (detect_drift busy_world).2);
    vm_compute; reflexivity.
Defined.

Lemma recent_predictions_gate_witness :
  predictions (db busy_world) = Some busy_table
  /\ faults_clear 3 busy_world = true
  /\ exists sorted r w',
       get_recent_predictions busy_world = (Ret r, w')
       /\ sorted ≡ₚ window_rows (clock busy_world) (rows busy_table)
       /\ StronglySorted newer sorted
       /\ (r = None <-> (length (window_rows (clock busy_world) (rows busy_table)) < 10)%nat)
       /\ ((10 <= length (window_rows (clock busy_world) (rows busy_table)))%nat ->
           r = Some (json_loads <$> (pr_input_data <$> take 50 sorted))
           /\ (length (take 50 sorted) <= 50)%nat).
Proof.
  split; [reflexivity|]. split; [reflexivity|].
  apply (recent_predictions_gate busy_world busy_table); reflexivity.
Defined.


(** C4, where the code leaves the claim: the server rejects the statement,
    [except] has chosen [False], and the rollback that [putconn] sends from
    the [finally] suite meets a broken connection; its exception leaves the
    function, and the key of the connection stays in use. *)
Theorem log_raises_when_release_fails :
  (log_prediction payload_650 (73 # 100)%Q "v3" rejected_then_lost).1
    = Raise (OperationalError "server closed the connection unexpectedly")
  /\ (log_drift_result true (8 # 15)%Q "8_columns_drifted" "data_drift" payload_650
        rejected_then_lost).1
    = Raise (OperationalError "server closed the connection unexpectedly")
  /\ in_use (log_prediction payload_650 (73 # 100)%Q "v3" rejected_then_lost).2 !! 0%nat
    = Some 1%nat.
Proof. vm_compute. repeat split; reflexivity. Qed.

(** C5, where the claim as first stated fails: the read opens a direct
    connection and the pool is never built. *)
Lemma read_opens_direct_connection :
  direct_connects (trace busy_world) = 0%nat
  /\ direct_connects (trace (get_recent_predictions busy_world).2) = 1%nat
  /\ _connection_pool (get_recent_predictions busy_world).2 = None.
Proof. vm_compute. repeat split; reflexivity. Qed.

Lemma connection_sources_witness :
  pool_ok fresh_world = true
  /\ (forall r w', initialize_database fresh_world = (r, w') ->
        direct_connects (trace w') = direct_connects (trace fresh_world))
  /\ (forall input_data prediction model_version r w',
        log_prediction input_data prediction model_version fresh_world = (r, w') ->
        direct_connects (trace w') = direct_connects (trace fresh_world))
  /\ (forall drift_detected drift_score feature_name drift_type report_data r w',
        log_drift_result drift_detected drift_score feature_name drift_type report_data
          fresh_world = (r, w') ->
        direct_connects (trace w') = direct_connects (trace fresh_world))
  /\ (forall r w', get_recent_predictions fresh_world = (r, w') ->
        direct_connects (trace w') = S (direct_connects (trace fresh_world))
        /\ _connection_pool w' = _connection_pool fresh_world).
Proof.
  split; [reflexivity|]. apply (connection_sources fresh_world). reflexivity.
Defined.

(** C6, where the claim as first stated fails: after the read, the
    connection it opened is neither idle in the pool nor closed. *)
Lemma read_keeps_connection_open :
  next_conn busy_world = 0%nat
  /\ (get_recent_predictions busy_world).1
     = Ret (recent_sample (clock busy_world) (rows busy_table))
  /\ idle (get_recent_predictions busy_world).2 = []
  /\ closed <$> conns (get_recent_predictions busy_world).2 !! 0%nat = Some false.
Proof.
  split; [reflexivity|]. split.
  { destruct (get_recent_predictions_returns busy_world busy_table) as [w' ->];
      reflexivity. }
  split; vm_compute; reflexivity.
Qed.

Lemma writers_hand_back_connection_witness :
  pool_ok fresh_world = true
  /\ get_db_connection fresh_world = (Ret (Some 0%nat), (get_db_connection fresh_world).2)
  /\ (forall b w', initialize_database fresh_world = (Ret b, w') ->
        handed_back fresh_world w' 0)
  /\ (forall input_data prediction model_version b w',
        log_prediction input_data prediction model_version fresh_world = (Ret b, w') ->
        handed_back fresh_world w' 0
        /\ if b
           then exists row, prediction_rows w' = prediction_rows fresh_world ++ [row]
           else prediction_rows w' = prediction_rows fresh_world)
  /\ (forall drift_detected drift_score feature_name drift_type report_data b w',
        log_drift_result drift_detected drift_score feature_name drift_type report_data
          fresh_world = (Ret b, w') ->
        handed_back fresh_world w' 0
        /\ if b
           then exists row, report_rows w' = report_rows fresh_world ++ [row]
           else report_rows w' = report_rows fresh_world)
  /\ (forall r w', get_recent_predictions fresh_world = (r, w') ->
        _connection_pool w' = _connection_pool fresh_world).
Proof.
  split; [reflexivity|]. split; [vm_compute; reflexivity|].
  apply (writers_hand_back_connection fresh_world 0 (get_db_connection fresh_world).2);
    [reflexivity|vm_compute; reflexivity].
Defined.



(** C8, where the claim as first stated fails: the caller of
    [get_db_connection] gets [None], not an exhaustion error. *)
Lemma exhausted_acquire_returns_none :
  size (_used exhausted_pool) = 5%nat
  /\ _pool exhausted_pool = []
  /\ (get_db_connection exhausted).1 = Ret None
  /\ (get_db_connection exhausted).1 <> Raise (PoolError "connection pool exhausted").
Proof. vm_compute. repeat split; try reflexivity. discriminate. Qed.

Lemma exhausted_pool_acquire_witness :
  pool_ok exhausted = true
  /\ _connection_pool exhausted = Some exhausted_pool
  /\ pool_closed exhausted_pool = false
  /\ _pool exhausted_pool = []
  /\ size (_used exhausted_pool) = 5%nat
  /\ _rused exhausted_pool !! 0%nat = Some 1%nat
  /\ (0 < next_conn exhausted)%nat
  /\ conns exhausted !! 0%nat = Some first_connection
  /\ closed first_connection = false
  /\ status first_connection = TxIdle
  /\ exists w0 w1 w2 w3,
       on_pool _getconn exhausted = (Raise (PoolError "connection pool exhausted"), w0)
       /\ get_db_connection exhausted = (Ret None, w1)
       /\ faults w1 = faults exhausted
       /\ return_connection (Some 0%nat) w1 = (Ret tt, w2)
       /\ get_db_connection w2 = (Ret (Some 0%nat), w3).
Proof.
  assert (Halloc : (0 < next_conn exhausted)%nat) by (vm_compute; lia).
  split; [vm_compute; reflexivity|]. split; [vm_compute; reflexivity|].
  split; [reflexivity|]. split; [reflexivity|]. split; [vm_compute; reflexivity|].
  split; [vm_compute; reflexivity|]. split; [exact Halloc|].
  split; [vm_compute; reflexivity|]. split; [reflexivity|]. split; [reflexivity|].
  apply (exhausted_pool_acquire exhausted exhausted_pool 0%nat 1%nat first_connection);
    first [exact Halloc | vm_compute; reflexivity].
Defined.

Lemma reference_failure_aborts_run_witness :
  (forall table,
     files without_reference !! reference_path (config without_reference)
     <> Some (Parquet table))
  /\ exists e,
       load_reference_data without_reference = (Raise e, without_reference)
       /\ detect_drift without_reference = (Raise e, without_reference)
       /\ report_rows (detect_drift without_reference).2 = report_rows without_reference
       /\ trace (detect_drift without_reference).2 = trace without_reference.
Proof.
  assert (Hmissing : forall table,
            files without_reference !! reference_path (config without_reference)
            <> Some (Parquet table)) by (intros table; vm_compute; discriminate).
  split; [exact Hmissing|].
  apply (reference_failure_aborts_run without_reference). exact Hmissing.
Defined.

Lemma initialize_database_leaves_autocommit_witness :
  pool_ok fresh_world = true
  /\ initialize_database fresh_world = (Ret true, (initialize_database fresh_world).2)
  /\ exists c k,
       (forall c0 w1, get_db_connection fresh_world = (Ret (Some c0), w1) -> c0 = c)
       /\ idle (initialize_database fresh_world).2 = [c]
       /\ conns (initialize_database fresh_world).2 !! c = Some k
       /\ autocommit k = true /\ closed k = false
       /\ exists w'', get_db_connection (initialize_database fresh_world).2
                        = (Ret (Some c), w'')
                      /\ conns w'' !! c = Some k.
Proof.
  split; [reflexivity|]. split; [vm_compute; reflexivity|].
  apply (initialize_database_leaves_autocommit fresh_world); 
    [reflexivity|vm_compute; reflexivity].
Defined.

(** * Further properties of the code *)

(** ** What every outcome of a call preserves *)

Section Steps.
Context {F : Type} `{!PyFloatOps F}.
Variable R : World F -> World F -> Prop.
Hypothesis R_refl : forall w, R w w.
Hypothesis R_trans : forall w1 w2 w3, R w1 w2 -> R w2 w3 -> R w1 w3.
Hypothesis R_emit : forall w e, R w (set_trace (trace w ++ [e]) w).
Hypothesis R_faults : forall w fs, R w (set_faults fs w).
Hypothesis R_conns : forall w cs, R w (set_conns cs w).
Hypothesis R_next_conn : forall w n, R w (set_next_conn n w).
Hypothesis R_pool : forall w p, R w (set_connection_pool p w).
Hypothesis R_writes : forall w xs, R w (set_db (apply_writes (db w) xs) w).
Hypothesis R_sequences : forall w e, R w (set_db (advance_sequences e (db w)) w).

Lemma always_ret {A} (a : A) : always R (ret a).
Proof. intros w r w' [= <- <-]. apply R_refl. Qed.

Lemma always_raise {A} e : always R (raise (A := A) e).
Proof. intros w r w' [= <- <-]. apply R_refl. Qed.

Lemma always_pure {A} (x : result A) : always R (fun w => (x, w)).
Proof. intros w r w' [= <- <-]. apply R_refl. Qed.

Lemma always_bind {A B} (m : M F A) (k : A -> M F B) :
  always R m -> (forall a, always R (k a)) -> always R (bind m k).
Proof.
  intros Hm Hk w r w' Hrun. unfold bind in Hrun.
  destruct (m w) as [[a|e] w1] eqn:E.
  - eapply R_trans; [by eapply Hm|by eapply Hk].
  - injection Hrun as <- <-. by eapply Hm.
Qed.

Lemma always_try_except {A} (m : M F A) (h : exn -> M F A) :
  always R m -> (forall e, always R (h e)) -> always R (try_except m h).
Proof.
  intros Hm Hh w r w' Hrun. unfold try_except in Hrun.
  destruct (m w) as [[a|e] w1] eqn:E.
  - injection Hrun as <- <-. by eapply Hm.
  - eapply R_trans; [by eapply Hm|by eapply Hh].
Qed.

Lemma always_bind_local {L A} (m : M F L) (rest : L -> M F A) :
  always R m -> (forall l, always R (rest l)) -> always_suite R (bind_local m rest).
Proof.
  intros Hm Hk w l r w' Hrun. unfold bind_local in Hrun.
  destruct (m w) as [[a|e] w1] eqn:E.
  - destruct (rest a w1) as [r2 w2] eqn:E2. injection Hrun as <- <- <-.
    eapply R_trans; [by eapply Hm|by eapply Hk].
  - injection Hrun as <- <- <-. by eapply Hm.
Qed.

Lemma always_before_local {L A} (m : M F unit) (s : Suite F L A) :
  always R m -> always_suite R s -> always_suite R (before_local m s).
Proof.
  intros Hm Hs w l r w' Hrun. unfold before_local in Hrun.
  destruct (m w) as [[a|e] w1] eqn:E.
  - eapply R_trans; [by eapply Hm|by eapply Hs].
  - injection Hrun as <- <- <-. by eapply Hm.
Qed.

Lemma always_try_except_finally {L A} (s : Suite F L A) (h : exn -> M F A)
    (fin : option L -> M F unit) :
  always_suite R s -> (forall e, always R (h e)) -> (forall l, always R (fin l)) ->
  always R (try_except_finally s h fin).
Proof.
  intros Hs Hh Hfin w r w' Hrun. unfold try_except_finally in Hrun.
  destruct (s w) as [[l r1] w1] eqn:E.
  assert (R w w1) by (by eapply Hs).
  destruct r1 as [a|e].
  - destruct (fin l w1) as [[u|e] w3] eqn:E3; injection Hrun as <- <-;
      (eapply R_trans; [eassumption|by eapply Hfin]).
  - destruct (h e w1) as [r2 w2] eqn:E2.
    assert (R w1 w2) by (by eapply Hh).
    destruct (fin l w2) as [[u|e'] w3] eqn:E3; injection Hrun as <- <-;
      (eapply R_trans; [eassumption|]; eapply R_trans; [eassumption|by eapply Hfin]).
Qed.

Lemma always_emit e : always R (emit e).
Proof. intros w r w' [= <- <-]. apply R_emit. Qed.

Lemma always_next_fault : always R (next_fault (F := F)).
Proof. intros w r w' [= <- <-]. apply R_faults. Qed.

Lemma always_deref c : always R (deref c).
Proof.
  intros w r w' Hrun. unfold deref in Hrun.
  destruct (conns w !! c); injection Hrun as <- <-; apply R_refl.
Qed.

Lemma always_store c k : always R (store c k).
Proof. intros w r w' [= <- <-]. apply R_conns. Qed.

Lemma always_if {A} (b : bool) (m1 m2 : M F A) :
  always R m1 -> always R m2 -> always R (if b then m1 else m2).
Proof. by destruct b. Qed.

Lemma always_psycopg2_connect o : always R (psycopg2_connect o).
Proof.
  unfold psycopg2_connect.
  apply always_bind; [apply always_emit|]. intros _.
  apply always_bind; [apply always_next_fault|]. intros [| |]; try apply always_raise.
  intros w r w' [= <- <-]. eapply R_trans; [apply R_conns|apply R_next_conn].
Qed.

Lemma always_conn_cursor c : always R (conn_cursor c).
Proof.
  unfold conn_cursor. apply always_bind; [apply always_deref|]. intros k.
  apply always_if; [apply always_raise|apply always_ret].
Qed.

Lemma always_cur_close cur : always R (cur_close (F := F) cur).
Proof. apply always_ret. Qed.

Lemma always_set_autocommit c v : always R (set_autocommit c v).
Proof.
  unfold set_autocommit. apply always_bind; [apply always_deref|]. intros k.
  apply always_if; [apply always_raise|].
  apply always_if; [apply always_store|apply always_raise].
Qed.

Lemma always_cur_execute cur s : always R (cur_execute cur s).
Proof.
  unfold cur_execute. apply always_bind; [apply always_deref|]. intros k.
  apply always_if; [apply always_raise|].
  apply always_bind; [apply always_next_fault|]. intros [| |].
  - apply always_if; [apply always_raise|].
    intros w r w' Hrun.
    destruct (run_sql _ _ s) as [eff|e].
    + destruct (autocommit k); injection Hrun as <- <-.
      * eapply R_trans; [apply R_sequences|].
        match goal with |- R ?x _ => pose proof (R_writes x (eff_writes eff)) as Hw end.
        exact Hw.
      * eapply R_trans; [apply R_sequences|apply R_conns].
    + revert w r w' Hrun. apply always_bind; [|intros; apply always_raise].
      apply always_if; [apply always_ret|apply always_store].
  - apply always_bind; [|intros; apply always_raise].
    apply always_if; [apply always_ret|apply always_store].
  - apply always_bind; [apply always_store|intros; apply always_raise].
Qed.

Lemma always_conn_commit c : always R (conn_commit c).
Proof.
  unfold conn_commit. apply always_bind; [apply always_deref|]. intros k.
  apply always_if; [apply always_raise|].
  apply always_if; [apply always_ret|].
  apply always_bind; [apply always_next_fault|]. intros [| |].
  - apply always_if; [apply always_store|].
    intros w r w' [= <- <-]. eapply R_trans; [apply R_writes|apply R_conns].
  - apply always_bind; [apply always_store|intros; apply always_raise].
  - apply always_bind; [apply always_store|intros; apply always_raise].
Qed.

Lemma always_conn_rollback c : always R (conn_rollback c).
Proof.
  unfold conn_rollback. apply always_bind; [apply always_deref|]. intros k.
  apply always_if; [apply always_raise|].
  apply always_if; [apply always_ret|].
  apply always_bind; [apply always_next_fault|]. intros [| |];
    first [apply always_store
          |apply always_bind; [apply always_store|intros; apply always_raise]].
Qed.

Lemma always_conn_close c : always R (conn_close c).
Proof.
  unfold conn_close. apply always_bind; [apply always_deref|]. intros k. apply always_store.
Qed.

Lemma always_with_connection {A} c (body : M F A) :
  always R body -> always R (with_connection c body).
Proof.
  intros Hb w r w' Hrun. unfold with_connection in Hrun.
  destruct (body w) as [[a|e] w1] eqn:E; (eapply R_trans; [by eapply Hb|]).
  - destruct (conn_commit c w1) as [[u|e] w2] eqn:E2; injection Hrun as <- <-;
      by eapply always_conn_commit.
  - destruct (conn_rollback c w1) as [[u|e'] w2] eqn:E2; injection Hrun as <- <-;
      by eapply always_conn_rollback.
Qed.

Lemma always_with_cursor {A} c (body : cursor -> M F A) :
  (forall cur, always R (body cur)) -> always R (with_cursor c body).
Proof.
  intros Hb. unfold with_cursor. apply always_bind; [apply always_conn_cursor|].
  intros cur w r w' Hrun.
  destruct (body cur w) as [r1 w1] eqn:E. unfold cur_close, ret in Hrun.
  injection Hrun as <- <-. by eapply Hb.
Qed.


Lemma always_connect key : always_method R (_connect key).
Proof.
  intros p w r p' w' Hrun. unfold _connect in Hrun.
  destruct (psycopg2_connect ByPool w) as [[c|e] w1] eqn:E.
  - destruct key; injection Hrun as <- <- <-; by eapply always_psycopg2_connect.
  - injection Hrun as <- <- <-. by eapply always_psycopg2_connect.
Qed.

Lemma always_getconn : always_method R _getconn.
Proof.
  intros p w r p' w' Hrun. unfold _getconn in Hrun.
  destruct (pool_closed p); [injection Hrun as <- <- <-; apply R_refl|].
  destruct (_used _ !! _); [injection Hrun as <- <- <-; apply R_refl|].
  destruct (list_pop _) as [[rest c]|]; [injection Hrun as <- <- <-; apply R_refl|].
  case_bool_decide; [injection Hrun as <- <- <-; apply R_refl|].
  by eapply always_connect.
Qed.

Lemma always_putconn c : always_method R (_putconn c).
Proof.
  intros p w r p' w' Hrun. unfold _putconn in Hrun.
  destruct (pool_closed p); [injection Hrun as <- <- <-; apply R_refl|].
  destruct (_rused p !! c) as [key|]; [|injection Hrun as <- <- <-; apply R_refl].
  destruct (if (length (_pool p) <? minconn p)%nat then _ else _)
    as [[r1 p1] w1] eqn:E in Hrun.
  assert (w' = w1) as ->.
  { destruct r1; [destruct (_used p1 !! key)|]; by injection Hrun as _ _ ->. }
  clear Hrun.
  destruct (length (_pool p) <? minconn p)%nat.
  - destruct (deref c w) as [[k|e] w0] eqn:Ed.
    + assert (R w w0) by (by eapply always_deref).
      destruct (closed k); [by injection E as _ _ <-|].
      case_bool_decide.
      { destruct (conn_close c w0) as [r2 w2] eqn:Ec. injection E as _ _ <-.
        eapply R_trans; [eassumption|by eapply always_conn_close]. }
      case_bool_decide; [by injection E as _ _ <-|].
      destruct (conn_rollback c w0) as [[u|e] w2] eqn:Er; injection E as _ _ <-;
        (eapply R_trans; [eassumption|by eapply always_conn_rollback]).
    + injection E as _ _ <-. by eapply always_deref.
  - destruct (conn_close c w) as [r2 w2] eqn:Ec. injection E as _ _ <-.
    by eapply always_conn_close.
Qed.

Lemma always_open_idle n : always_method R (open_idle n).
Proof.
  induction n as [|n IH]; intros p w r p' w' Hrun; cbn in Hrun.
  - injection Hrun as <- <- <-. apply R_refl.
  - destruct (_connect None p w) as [[[u|e] p1] w1] eqn:E.
    + eapply R_trans; [by eapply always_connect|by eapply IH].
    + injection Hrun as <- <- <-. by eapply always_connect.
Qed.

Lemma always_ThreadedConnectionPool a b : always R (ThreadedConnectionPool a b).
Proof.
  intros w r w' Hrun. unfold ThreadedConnectionPool in Hrun.
  destruct (open_idle _ _ w) as [[[u|e] p1] w1] eqn:E; injection Hrun as <- <-;
    by eapply always_open_idle.
Qed.

Lemma always_on_pool {A} (m : Method A) : always_method R m -> always R (on_pool m).
Proof.
  intros Hm w r w' Hrun. unfold on_pool in Hrun.
  destruct (_connection_pool w) as [p|]; [|injection Hrun as <- <-; apply R_refl].
  destruct (m p w) as [[r1 p1] w1] eqn:E. injection Hrun as <- <-.
  eapply R_trans; [by eapply Hm|apply R_pool].
Qed.

Lemma always_get_connection_pool : always R get_connection_pool.
Proof.
  intros w r w' Hrun. unfold get_connection_pool in Hrun.
  destruct (_connection_pool w); [injection Hrun as <- <-; apply R_refl|].
  destruct (ThreadedConnectionPool 1 5 w) as [[p|e] w1] eqn:E.
  - eapply R_trans; [by eapply always_ThreadedConnectionPool|].
    eapply R_trans; [apply R_pool|by eapply always_emit].
  - injection Hrun as <- <-. by eapply always_ThreadedConnectionPool.
Qed.

Lemma always_get_db_connection : always R get_db_connection.
Proof.
  unfold get_db_connection. apply always_try_except.
  - apply always_bind; [apply always_get_connection_pool|]. intros _.
    apply always_bind; [apply always_on_pool, always_getconn|]. intros c. apply always_ret.
  - intros e. apply always_bind; [apply always_emit|]. intros _. apply always_ret.
Qed.

Lemma always_return_connection conn : always R (return_connection conn).
Proof.
  destruct conn as [c|]; [|apply always_ret]. cbn.
  apply always_bind; [apply always_get_connection_pool|]. intros _.
  apply always_on_pool, always_putconn.
Qed.

Lemma always_close_and_return c cur : always R (close_and_return c cur).
Proof.
  unfold close_and_return. apply always_bind.
  - destruct cur; [apply always_cur_close|apply always_ret].
  - intros _. apply always_return_connection.
Qed.

Lemma always_logged msg (e : exn) :
  always R (emit (EvLog ERROR msg (Some e)) ;;; ret false).
Proof. apply always_bind; [apply always_emit|]. intros _. apply always_ret. Qed.

Lemma always_initialize_database : always R initialize_database.
Proof.
  unfold initialize_database. apply always_bind; [apply always_get_db_connection|].
  intros [c|]; [|apply always_ret].
  apply always_try_except_finally.
  - apply always_before_local; [apply always_set_autocommit|].
    apply always_bind_local; [apply always_conn_cursor|]. intros cur.
    apply always_bind; [apply always_cur_execute|]. intros _.
    apply always_bind; [apply always_cur_execute|]. intros _.
    apply always_bind; [apply always_emit|]. intros _. apply always_ret.
  - intros e. apply always_logged.
  - intros l. apply always_close_and_return.
Qed.

Lemma always_log_prediction input_data prediction model_version :
  always R (log_prediction input_data prediction model_version).
Proof.
  unfold log_prediction. apply always_bind; [apply always_get_db_connection|].
  intros [c|]; [|apply always_ret].
  apply always_try_except_finally.
  - apply always_bind_local; [apply always_conn_cursor|]. intros cur.
    apply always_bind; [apply always_pure|]. intros doc.
    apply always_bind; [apply always_cur_execute|]. intros _.
    apply always_bind; [apply always_conn_commit|]. intros _. apply always_ret.
  - intros e. apply always_logged.
  - intros l. apply always_close_and_return.
Qed.

Lemma always_log_drift_result dd ds fn dt report_data :
  always R (log_drift_result dd ds fn dt report_data).
Proof.
  unfold log_drift_result. apply always_bind; [apply always_get_db_connection|].
  intros [c|]; [|apply always_ret].
  apply always_try_except_finally.
  - apply always_bind_local; [apply always_conn_cursor|]. intros cur.
    apply always_bind; [apply always_pure|]. intros doc.
    apply always_bind; [apply always_cur_execute|]. intros _.
    apply always_bind; [apply always_conn_commit|]. intros _.
    apply always_bind; [apply always_emit|]. intros _. apply always_ret.
  - intros e. apply always_logged.
  - intros l. apply always_close_and_return.
Qed.

Lemma always_get_recent_predictions : always R get_recent_predictions.
Proof.
  unfold get_recent_predictions.
  apply always_bind; [apply always_psycopg2_connect|]. intros conn.
  apply always_with_connection, always_with_cursor. intros cur.
  apply always_bind; [intros w r w' [= <- <-]; apply R_refl|]. intros since.
  apply always_bind; [apply always_cur_execute|]. intros rows. apply always_ret.
Qed.

Lemma always_read_parquet path : always R (read_parquet path).
Proof.
  intros w r w' Hrun. unfold read_parquet in Hrun.
  destruct (files w !! path) as [[t|]|]; injection Hrun as <- <-; apply R_refl.
Qed.

Lemma always_load_reference_data : always R load_reference_data.
Proof.
  intros w r w' Hrun. unfold load_reference_data in Hrun.
  destruct (USE_CLOUD_STORAGE (config w)); by eapply always_read_parquet.
Qed.

Lemma always_detect_drift `{!Evidently F} : always R detect_drift.
Proof.
  unfold detect_drift. apply always_bind; [apply always_load_reference_data|].
  intros reference_df.
  apply always_bind; [apply always_get_recent_predictions|].
  intros [current_df|]; [|apply always_ret].
  apply always_bind; [apply always_emit|]. intros _.
  apply always_bind; [apply always_pure|]. intros drift_data.
  apply always_bind; [apply always_log_drift_result|]. intros _.
  apply always_bind; [apply always_emit|]. intros _. apply always_ret.
Qed.

End Steps.

Section AppendOnly.
Context {F : Type} `{!PyFloatOps F}.

Lemma table_grows_refl {A} (o : option (Table A)) : table_grows o o.
Proof. destruct o as [t|]; [|done]. exists t. split; [done|]. split; [done|lia]. Qed.

Lemma table_grows_trans {A} (o1 o2 o3 : option (Table A)) :
  table_grows o1 o2 -> table_grows o2 o3 -> table_grows o1 o3.
Proof.
  destruct o1 as [t1|]; [|done]. intros (t2 & -> & Hr2 & Hn2) (t3 & -> & Hr3 & Hn3).
  exists t3. split; [done|]. split; [by etrans|lia].
Qed.

Lemma grows_refl (d : Database F) : grows d d.
Proof. split; apply table_grows_refl. Qed.

Lemma grows_trans (d1 d2 d3 : Database F) : grows d1 d2 -> grows d2 d3 -> grows d1 d3.
Proof. intros [? ?] [? ?]. split; by eapply table_grows_trans. Qed.

Lemma table_grows_append {A} (o : option (Table A)) (r : A) :
  table_grows o (append_row r <$> o).
Proof.
  destruct o as [t|]; [|done]. eexists. split; [reflexivity|]. cbn.
  split; [by apply prefix_app_r|lia].
Qed.

Lemma table_grows_bump {A} (o : option (Table A)) : table_grows o (bump <$> o).
Proof.
  destruct o as [t|]; [|done]. eexists. split; [reflexivity|]. cbn. split; [done|lia].
Qed.

Lemma table_grows_create {A} (o : option (Table A)) :
  table_grows o (Some (default empty_table o)).
Proof. destruct o as [t|]; [|done]. exists t. split; [done|]. split; [done|lia]. Qed.

Lemma apply_write_grows (d : Database F) (x : write F) : grows d (apply_write d x).
Proof.
  destruct x; split; cbn;
    first [apply table_grows_refl | apply table_grows_append | apply table_grows_create].
Qed.

Lemma apply_writes_grows (xs : list (write F)) (d : Database F) :
  grows d (apply_writes d xs).
Proof.
  revert d. induction xs as [|x xs IH]; intros d; [apply grows_refl|].
  cbn. eapply grows_trans; [apply apply_write_grows|apply IH].
Qed.

Lemma advance_sequences_grows (e : effect F) (d : Database F) :
  grows d (advance_sequences e d).
Proof.
  split; cbn;
    [destruct (eff_seq_predictions e)|destruct (eff_seq_drift_reports e)];
    first [apply table_grows_refl | apply table_grows_bump].
Qed.

Lemma extends_refl (w : World F) : extends w w.
Proof. split; [done|done|done|apply grows_refl|done]. Qed.

Lemma extends_trans (w1 w2 w3 : World F) : extends w1 w2 -> extends w2 w3 -> extends w1 w3.
Proof.
  intros [] []. split; [congruence|congruence|congruence|by eapply grows_trans|by etrans].
Qed.

(** The steps of the model, for [extends]. *)
Ltac extends_steps :=
  first
    [ apply extends_refl
    | apply extends_trans
    | intros; split; cbn;
      first [ done | apply grows_refl | apply apply_writes_grows
            | apply advance_sequences_grows | by apply prefix_app_r ] ].

Lemma initialize_database_extends (w : World F) r w' :
  initialize_database w = (r, w') -> extends w w'.
Proof. apply (always_initialize_database extends); extends_steps. Qed.

Lemma log_prediction_extends (w : World F) i p mv r w' :
  log_prediction i p mv w = (r, w') -> extends w w'.
Proof. apply (always_log_prediction extends); extends_steps. Qed.

Lemma log_drift_result_extends (w : World F) dd ds fn dt rd r w' :
  log_drift_result dd ds fn dt rd w = (r, w') -> extends w w'.
Proof. apply (always_log_drift_result extends); extends_steps. Qed.

Lemma get_recent_predictions_extends (w : World F) r w' :
  get_recent_predictions w = (r, w') -> extends w w'.
Proof. apply (always_get_recent_predictions extends); extends_steps. Qed.

Lemma detect_drift_extends `{!Evidently F} (w : World F) r w' :
  detect_drift w = (r, w') -> extends w w'.
Proof. apply (always_detect_drift extends); extends_steps. Qed.

(** Acquiring and releasing leave the tables alone. *)
Lemma get_db_connection_db (w : World F) r w' :
  get_db_connection w = (r, w') -> db w' = db w.
Proof.
  apply (always_get_db_connection (fun w w' => db w' = db w)); try done.
  intros; congruence.
Qed.

Lemma return_connection_db (w : World F) conn r w' :
  return_connection conn w = (r, w') -> db w' = db w.
Proof.
  apply (always_return_connection (fun w w' => db w' = db w)); try done.
  intros; congruence.
Qed.

End AppendOnly.

Section PoolFacts.
Context {F : Type} `{!PyFloatOps F}.

Lemma set_connection_pool_same (w : World F) p :
  _connection_pool w = p -> set_connection_pool p w = w.
Proof. intros <-. by destruct w. Qed.

Lemma get_db_connection_cases (w : World F) :
  (exists c w', get_db_connection w = (Ret (Some c), w'))
  \/ (exists e w1, get_db_connection w
        = (Ret None, set_trace (trace w1 ++ [EvLog ERROR "Database connection failed" (Some e)]) w1)).
Proof.
  unfold get_db_connection, try_except.
  destruct ((get_connection_pool;;; c <- on_pool _getconn;; ret (Some c)) w)
    as [[conn|e] w1] eqn:E.
  - left. unfold bind in E.
    destruct (get_connection_pool w) as [[[]|e] w0]; [|done].
    destruct (on_pool _getconn w0) as [[c|e] w2]; [|done].
    injection E as <- <-. by eexists _, _.
  - right. by eexists _, _.
Qed.

Lemma get_connection_pool_again (w w1 : World F) :
  get_connection_pool w = (Ret tt, w1) -> get_connection_pool w1 = (Ret tt, w1).
Proof.
  unfold get_connection_pool. destruct (_connection_pool w) as [p|] eqn:Hp.
  - intros [= <-]. by rewrite Hp.
  - destruct (ThreadedConnectionPool 1 5 w) as [[p|e] w0]; [|done].
    intros [= <-]. done.
Qed.

End PoolFacts.

Section InsertRuns.
Context {F : Type} `{!PyFloatOps F}.




Lemma quiet_faults_hd (w w' : World F) :
  quiet w w' -> hd NoFault (faults w') = hd NoFault (faults w).
Proof. intros []. congruence. Qed.








End InsertRuns.

Section Ids.
Context {F : Type} `{!PyFloatOps F}.

Lemma ids_ok_kept {A} (id : A -> Z) (o o' : option (Table A)) :
  ids_ok id o -> rows <$> o' = rows <$> o -> table_grows o o' -> ids_ok id o'.
Proof.
  destruct o as [t|]; destruct o' as [t'|]; try done.
  intros [Hsorted Hbelow] [= Hrows] (t2 & [= <-] & _ & Hnext).
  unfold ids_ok. rewrite Hrows.
  split; [done|]. eapply Forall_impl; [exact Hbelow|]. cbn. intros; lia.
Qed.

Lemma ids_ok_append {A} (id : A -> Z) (t : Table A) (r : A) :
  ids_ok id (Some t) -> id r = next_id t ->
  ids_ok id (Some {| rows := rows t ++ [r]; next_id := next_id t + 1 |}).
Proof.
  intros [Hsorted Hbelow] Hid. split; cbn.
  - rewrite fmap_app. apply StronglySorted_app_2; [|done|repeat constructor].
    intros x y Hx Hy. apply list_elem_of_fmap in Hx as (r0 & -> & Hr0).
    apply list_elem_of_singleton in Hy as ->. rewrite Hid.
    by eapply Forall_forall in Hbelow.
  - apply Forall_app. split.
    + eapply Forall_impl; [exact Hbelow|]. cbn. intros; lia.
    + repeat constructor. lia.
Qed.

Lemma log_prediction_ids (w : World F) i p mv r w' :
  pool_ok w = true ->
  log_prediction i p mv w = (r, w') ->
  ids_ok pr_id (predictions (db w)) -> ids_ok dr_id (drift_reports (db w)) ->
  ids_ok pr_id (predictions (db w')) /\ ids_ok dr_id (drift_reports (db w')).
Proof.
  intros Hok Hrun Hp Hd.
  pose proof (log_prediction_extends _ _ _ _ _ _ Hrun) as [_ _ _ [Hgp Hgd] _].
  destruct (log_prediction_spec w i p mv Hok) as (r2 & w2 & Hrun' & _ & _ & Hr).
  rewrite Hrun in Hrun'. injection Hrun' as <- <-.
  assert (Hsame : same_rows (db w) (db w') ->
                  ids_ok pr_id (predictions (db w')) /\ ids_ok dr_id (drift_reports (db w'))).
  { intros [? ?]. split; by eapply ids_ok_kept. }
  destruct r as [[]|e]; [|by apply Hsame..].
  destruct Hr as (t & doc & Ht & _ & Hdb). rewrite Hdb. cbn. split; [|done].
  rewrite Ht in Hp. by apply ids_ok_append.
Qed.

Lemma log_drift_result_ids (w : World F) dd ds fn dt rd r w' :
  pool_ok w = true ->
  log_drift_result dd ds fn dt rd w = (r, w') ->
  ids_ok pr_id (predictions (db w)) -> ids_ok dr_id (drift_reports (db w)) ->
  ids_ok pr_id (predictions (db w')) /\ ids_ok dr_id (drift_reports (db w')).
Proof.
  intros Hok Hrun Hp Hd.
  pose proof (log_drift_result_extends _ _ _ _ _ _ _ _ Hrun) as [_ _ _ [Hgp Hgd] _].
  destruct (log_drift_result_spec w dd ds fn dt rd Hok) as (r2 & w2 & Hrun' & _ & _ & Hr).
  rewrite Hrun in Hrun'. injection Hrun' as <- <-.
  assert (Hsame : same_rows (db w) (db w') ->
                  ids_ok pr_id (predictions (db w')) /\ ids_ok dr_id (drift_reports (db w'))).
  { intros [? ?]. split; by eapply ids_ok_kept. }
  destruct r as [[]|e]; [|by apply Hsame..].
  destruct Hr as (t & doc & Ht & _ & Hdb). rewrite Hdb. cbn. split; [done|].
  rewrite Ht in Hd. by apply ids_ok_append.
Qed.

Lemma get_recent_predictions_ids (w : World F) r w' :
  get_recent_predictions w = (r, w') ->
  ids_ok pr_id (predictions (db w)) -> ids_ok dr_id (drift_reports (db w)) ->
  ids_ok pr_id (predictions (db w')) /\ ids_ok dr_id (drift_reports (db w')).
Proof.
  intros Hrun Hp Hd.
  pose proof (get_recent_predictions_extends _ _ _ Hrun) as [_ _ _ [Hgp Hgd] _].
  destruct (get_recent_predictions_spec w) as (r2 & w2 & Hrun' & Hro & _).
  rewrite Hrun in Hrun'. injection Hrun' as <- <-.
  destruct Hro as [_ _ _ _ [? ?] _ _]. split; by eapply ids_ok_kept.
Qed.

End Ids.

Section Held.
Context {F : Type} `{!PyFloatOps F}.

Lemma held_pool (w : World F) p :
  _connection_pool w = Some p -> held w = (length (_pool p) + size (_used p))%nat.
Proof. intros Hp. unfold held, idle, used_of. by rewrite Hp. Qed.

Lemma held_none (w : World F) : _connection_pool w = None -> held w = 0%nat.
Proof. intros Hp. unfold held, idle, used_of. by rewrite Hp. Qed.

Lemma get_db_connection_held (w : World F) r w' :
  pool_ok w = true -> (held w <= 5)%nat ->
  get_db_connection w = (r, w') ->
  (held w' <= 5)%nat.
Proof.
  intros Hok Hheld. unfold get_db_connection, try_except, bind, get_connection_pool.
  destruct (_connection_pool w) as [p|] eqn:Hp.
  - pose proof (proj1 (pool_ok_inv w p Hp) Hok) as [Hmin Hmax Hshort Hidle Hkeys Hrused].
    rewrite (held_pool w p Hp) in Hheld.
    unfold on_pool. rewrite Hp. unfold _getconn.
    destruct (pool_closed p) eqn:Hclosed.
    { munfold; wsimpl. intros [= <- <-].
      erewrite held_pool by (wsimpl; reflexivity). wsimpl. lia. }
    wsimpl.
    assert (Hfresh : _used p !! S (_keys p) = None).
    { destruct (_used p !! S (_keys p)) eqn:E; [|done]. apply Hkeys in E. lia. }
    rewrite Hfresh.
    destruct (_pool p) as [|c [|c' l]] eqn:Hidl; [| |cbn in Hshort; lia].
    + rewrite list_pop_nil.
      case_bool_decide as Hfull.
      * munfold; wsimpl. intros [= <- <-].
        erewrite held_pool by (wsimpl; reflexivity). wsimpl. rewrite Hidl in *. cbn in *. lia.
      * unfold _connect, psycopg2_connect. munfold; wsimpl.
        destruct (hd NoFault (faults w)) eqn:Hf; wsimpl; intros [= <- <-];
          (erewrite held_pool by (wsimpl; reflexivity)); wsimpl; rewrite ?Hidl;
          [|cbn in *; lia..].
        rewrite map_size_insert_None by done. cbn in *. lia.
    + change [c] with ([] ++ [c]). rewrite list_pop_snoc. munfold; wsimpl.
      intros [= <- <-]. erewrite held_pool by (wsimpl; reflexivity). wsimpl.
      rewrite map_size_insert_None by done. cbn in *. lia.
  - unfold ThreadedConnectionPool, open_idle, _connect, psycopg2_connect.
    munfold; wsimpl.
    destruct (hd NoFault (faults w)) eqn:Hf; wsimpl.
    + unfold on_pool; wsimpl. unfold _getconn; wsimpl.
      rewrite lookup_empty, list_pop_snoc. wsimpl.
      intros [= <- <-]. erewrite held_pool by (wsimpl; reflexivity). wsimpl.
      rewrite map_size_insert_None by done. rewrite map_size_empty. cbn. lia.
    + intros [= <- <-]. rewrite held_none by (by wsimpl). lia.
    + intros [= <- <-]. rewrite held_none by (by wsimpl). lia.
Qed.

(** [putconn] takes the key out of the in-use map and adds at most the
    connection itself to the idle list. *)
Lemma putconn_held c p (w : World F) r p' w' :
  (forall c' k, _rused p !! c' = Some k -> _used p !! k = Some c') ->
  _putconn c p w = ((r, p'), w') ->
  (length (_pool p') + size (_used p') <= length (_pool p) + size (_used p))%nat.
Proof.
  intros Hrused Hrun. unfold _putconn in Hrun.
  destruct (pool_closed p); [by injection Hrun as _ <- _|].
  destruct (_rused p !! c) as [key|] eqn:Hc; [|by injection Hrun as _ <- _].
  apply Hrused in Hc.
  destruct (if (length (_pool p) <? minconn p)%nat then _ else _)
    as [[r1 p1] w1] eqn:E in Hrun.
  assert (Hp1 : p1 = p \/ p1 = with_pool (_pool p ++ [c]) p).
  { destruct (length (_pool p) <? minconn p)%nat.
    - destruct (deref c w) as [[k|e] w0]; [|injection E as _ <- _; by left].
      destruct (closed k); [injection E as _ <- _; by left|].
      case_bool_decide.
      { destruct (conn_close c w0). injection E as _ <- _; by left. }
      case_bool_decide; [injection E as _ <- _; by right|].
      destruct (conn_rollback c w0) as [[u|e] w2]; injection E as _ <- _; first [by left|by right].
    - destruct (conn_close c w). injection E as _ <- _. by left. }
  destruct r1 as [u|e].
  2:{ injection Hrun as _ <- _.
      destruct Hp1 as [->| ->]; [done|].
      (* the idle list grows only on the path that goes on to forget the key *)
      exfalso. clear -E.
      assert (Hlonger : forall q : Pool, q = with_pool (_pool q ++ [c]) q -> False).
      { intros q Hq. apply (f_equal (fun q => length (_pool q))) in Hq. cbn in Hq.
        rewrite length_app in Hq. cbn in Hq. lia. }
      destruct (length (_pool p) <? minconn p)%nat.
      - destruct (deref c w) as [[k|e0] w0].
        + destruct (closed k); [congruence|].
          case_bool_decide.
          { destruct (conn_close c w0). injection E as _ Hp _. by apply Hlonger in Hp. }
          case_bool_decide; [congruence|].
          destruct (conn_rollback c w0) as [[u|e0] w2]; [congruence|].
          injection E as _ Hp _. by apply Hlonger in Hp.
        + injection E as _ Hp _. by apply Hlonger in Hp.
      - destruct (conn_close c w). injection E as _ Hp _. by apply Hlonger in Hp. }
  assert (Hkey : _used p1 !! key = Some c) by (by destruct Hp1 as [->| ->]).
  rewrite Hkey in Hrun. injection Hrun as _ <- _.
  cbn [with_used with_pool _pool _used].
  assert (size (delete key (_used p1)) = pred (size (_used p1))) as ->.
  { by eapply map_size_delete_Some. }
  assert (size (_used p1) <> 0)%nat.
  { intros Hz. apply map_size_empty_inv in Hz. rewrite Hz in Hkey. by rewrite lookup_empty in Hkey. }
  destruct Hp1 as [->| ->]; cbn [with_used with_pool _pool _used] in *;
    rewrite ?length_app; cbn [length]; lia.
Qed.

Lemma return_connection_held (w : World F) conn r w' :
  pool_ok w = true -> return_connection conn w = (r, w') ->
  (held w' <= Nat.max 1 (held w))%nat.
Proof.
  intros Hok. destruct conn as [c|]; [|intros [= <- <-]; lia].
  unfold return_connection, bind, get_connection_pool.
  destruct (_connection_pool w) as [p|] eqn:Hp.
  - pose proof (proj1 (pool_ok_inv w p Hp) Hok) as [Hmin Hmax Hshort Hidle Hkeys Hrused].
    unfold on_pool. rewrite Hp.
    destruct (_putconn c p w) as [[r1 p1] w1] eqn:E. intros [= <- <-].
    erewrite held_pool by (wsimpl; reflexivity). rewrite (held_pool w p Hp).
    apply putconn_held in E; [lia|done].
  - unfold ThreadedConnectionPool, open_idle, _connect, psycopg2_connect.
    munfold; wsimpl.
    destruct (hd NoFault (faults w)) eqn:Hf; wsimpl.
    + unfold on_pool; wsimpl. unfold _putconn; wsimpl. rewrite lookup_empty.
      intros [= <- <-]. erewrite held_pool by (wsimpl; reflexivity). wsimpl.
      rewrite map_size_empty. cbn. lia.
    + intros [= <- <-]. rewrite held_none by (by wsimpl). lia.
    + intros [= <- <-]. rewrite held_none by (by wsimpl). lia.
Qed.

End Held.

Section CloseAllFacts.
Context {F : Type} `{!PyFloatOps F}.

Lemma set_conns_same (w : World F) : set_conns (conns w) w = w.
Proof. by destruct w. Qed.

Lemma close_quietly_eq (w : World F) c :
  close_quietly w c = set_conns (close_in (conns w) c) w.
Proof.
  unfold close_quietly, try_except, conn_close, bind, deref, store, ret, close_in.
  destruct (conns w !! c); [done|]. cbn. by rewrite set_conns_same.
Qed.

Lemma close_all_eq (cs : list nat) (w : World F) :
  foldl close_quietly w cs = set_conns (foldl close_in (conns w) cs) w.
Proof.
  revert w. induction cs as [|c cs IH]; intros w; cbn.
  - by rewrite set_conns_same.
  - rewrite IH, close_quietly_eq. by wsimpl.
Qed.

Lemma close_in_keeps (m : gmap nat (Connection F)) c c' k :
  m !! c' = Some k ->
  exists k', close_in m c !! c' = Some k' /\ (closed k = true -> closed k' = true).
Proof.
  intros Hk. unfold close_in. destruct (m !! c) as [k0|] eqn:Hc; [|by exists k].
  destruct (decide (c = c')) as [->|Hne].
  - rewrite lookup_insert_eq. by eexists.
  - rewrite lookup_insert_ne by done. by exists k.
Qed.

Lemma close_all_keeps (cs : list nat) (m : gmap nat (Connection F)) c' k :
  m !! c' = Some k ->
  exists k', foldl close_in m cs !! c' = Some k' /\ (closed k = true -> closed k' = true).
Proof.
  revert m k. induction cs as [|c cs IH]; intros m k Hk; cbn; [by exists k|].
  destruct (close_in_keeps m c c' k Hk) as (k1 & Hk1 & Hc1).
  destruct (IH _ _ Hk1) as (k2 & Hk2 & Hc2). exists k2. split; [done|]. auto.
Qed.

Lemma close_all_closes (cs : list nat) (m : gmap nat (Connection F)) c k :
  c ∈ cs -> m !! c = Some k ->
  exists k', foldl close_in m cs !! c = Some k' /\ closed k' = true.
Proof.
  revert m k. induction cs as [|c0 cs IH]; intros m k Hin Hk; [by apply elem_of_nil in Hin|].
  cbn. apply elem_of_cons in Hin as [->|Hin].
  - assert (Hnow : close_in m c0 !! c0 = Some (broken k)).
    { unfold close_in. rewrite Hk. apply lookup_insert_eq. }
    destruct (close_all_keeps cs _ c0 _ Hnow) as (k' & Hk' & Hc). exists k'. auto.
  - destruct (close_in_keeps m c0 c k Hk) as (k1 & Hk1 & _). by eapply IH.
Qed.

Lemma atexit_callback_closes (w : World F) p :
  _connection_pool w = Some p -> pool_closed p = false ->
  atexit_callback w
  = (Ret tt,
     set_connection_pool (Some (with_closed true p))
       (set_conns (foldl close_in (conns w) (_pool p ++ (map_to_list (_used p)).*2)) w)).
Proof.
  intros Hp Hopen. unfold atexit_callback, on_pool, _closeall. rewrite Hp.
  cbn beta iota. rewrite Hopen. by rewrite close_all_eq.
Qed.

Lemma get_db_connection_closed (w : World F) p :
  _connection_pool w = Some p -> pool_closed p = true ->
  get_db_connection w
  = (Ret None,
     set_trace (trace w ++ [EvLog ERROR "Database connection failed"
                              (Some (PoolError "connection pool is closed"))]) w).
Proof.
  intros Hp Hclosed.
  unfold get_db_connection, try_except, bind, get_connection_pool, on_pool, _getconn.
  rewrite Hp. cbn beta iota. rewrite Hp. cbn beta iota. rewrite Hclosed.
  unfold emit, ret. wsimpl.
  by rewrite (set_connection_pool_same w (Some p)).
Qed.

End CloseAllFacts.

Section ReadFacts.
Context {F : Type} `{!PyFloatOps F}.

Ltac run_read :=
  unfold get_recent_predictions, with_connection, with_cursor, psycopg2_connect,
    conn_cursor, cur_execute, conn_commit, conn_rollback, cur_close;
  munfold; norm.

Lemma get_recent_predictions_no_connection (w : World F) :
  hd NoFault (faults w) <> NoFault ->
  get_recent_predictions w
  = (Raise (OperationalError "could not connect to server"),
     set_faults (tl (faults w)) (set_trace (trace w ++ [EvConnect Direct]) w)).
Proof. intros Hf. run_read. by destruct (hd NoFault (faults w)). Qed.

Lemma get_recent_predictions_no_table (w : World F) :
  predictions (db w) = None -> faults_clear 3 w = true ->
  exists w',
    get_recent_predictions w
    = (Raise (ProgrammingError "relation predictions does not exist"), w')
    /\ db w' = db w.
Proof.
  intros Ht (Hf1 & Hf2 & Hf3)%faults_clear_3. run_read.
  rewrite Hf1. norm. rewrite Hf2. norm. unfold run_sql. rewrite Ht. norm.
  rewrite Hf3. norm. eexists. split; [reflexivity|]. by wsimpl.
Qed.


Lemma detect_drift_read_raises `{!Evidently F} (w : World F) reference_df e w1 :
  load_reference_data w = (Ret reference_df, w) ->
  get_recent_predictions w = (Raise e, w1) ->
  detect_drift w = (Raise e, w1).
Proof. intros Hload Hread. unfold detect_drift, bind. by rewrite Hload, Hread. Qed.

Lemma recent_sample_size now (rs : list (PredictionRecord F)) sample :
  recent_sample now rs = Some sample -> (10 <= length sample <= 50)%nat.
Proof.
  unfold recent_sample. cbv zeta.
  destruct (10 <=? _)%nat eqn:E; [|done]. intros [= <-].
  apply Nat.leb_le in E. rewrite length_fmap. split; [done|].
  rewrite length_fmap. unfold select_recent. rewrite length_take. lia.
Qed.

Lemma detect_drift_rows `{!Evidently F} (w : World F) r w' :
  pool_ok w = true -> detect_drift w = (r, w') ->
  prediction_rows w' = prediction_rows w
  /\ (ids_ok pr_id (predictions (db w)) -> ids_ok dr_id (drift_reports (db w)) ->
      ids_ok pr_id (predictions (db w')) /\ ids_ok dr_id (drift_reports (db w'))).
Proof.
  intros Hok Hrun. apply detect_drift_run in Hrun.
  destruct (get_recent_predictions_spec w) as (r1 & w1 & Hread & Hro & _ & Hsample).
  pose proof (proj2 (same_rows_reports _ _ (ro_rows _ _ Hro))) as Hrows1.
  fold (prediction_rows w1) (prediction_rows w) in Hrows1.
  assert (Hids1 : ids_ok pr_id (predictions (db w)) -> ids_ok dr_id (drift_reports (db w)) ->
                  ids_ok pr_id (predictions (db w1)) /\ ids_ok dr_id (drift_reports (db w1))).
  { intros. by eapply get_recent_predictions_ids. }
  assert (Hlog : forall dd ds fn dt rd r3 w3,
            log_drift_result dd ds fn dt rd (set_trace (trace w1 ++ [EvRunReport]) w1)
            = (r3, w3) ->
            prediction_rows w3 = prediction_rows w
            /\ (ids_ok pr_id (predictions (db w)) -> ids_ok dr_id (drift_reports (db w)) ->
                ids_ok pr_id (predictions (db w3)) /\ ids_ok dr_id (drift_reports (db w3)))).
  { intros dd ds fn dt rd r3 w3 Hlog.
    set (w2 := set_trace (trace w1 ++ [EvRunReport]) w1) in *.
    assert (Hok2 : pool_ok w2 = true).
    { apply (read_only_pool_ok w1); [|by eapply read_only_pool_ok].
      subst w2. by split; wsimpl; auto using same_rows_refl. }
    split.
    - destruct (log_drift_result_spec w2 dd ds fn dt rd Hok2)
        as (r3' & w3' & Hlog' & _ & _ & Hr3).
      rewrite Hlog in Hlog'. injection Hlog' as <- <-.
      rewrite <- Hrows1. change (prediction_rows w1) with (prediction_rows w2).
      destruct r3 as [[]|e]; [|by apply same_rows_reports in Hr3 as [_ Hr3]..].
      destruct Hr3 as (tr & doc & Htr & Hdoc & Hdb3).
      unfold prediction_rows. by rewrite Hdb3.
    - intros Hp Hd. destruct (Hids1 Hp Hd) as [Hp1 Hd1].
      by eapply (log_drift_result_ids w2). }
  inversion Hrun as
    [ e Hload
    | ref e w1' Hload Hread'
    | ref w1' Hload Hread'
    | ref cur w1' e Hload Hread' Hdrift
    | ref cur w1' count share e w3 Hload Hread' Hdrift Hlog'
    | ref cur w1' count share logged w3 Hload Hread' Hdrift Hlog' ]; subst;
    try (rewrite Hread in Hread'; injection Hread' as -> <-).
  - done.
  - done.
  - done.
  - done.
  - by eapply Hlog.
  - cbv zeta in Hlog'. apply Hlog in Hlog'. exact Hlog'.
Qed.

End ReadFacts.

(** * Further properties: the configuration *)

Section ConfigFacts.

Lemma after_running_nil (m : Machine) : after_running [] m = m.
Proof. unfold after_running. rewrite app_nil_r. by destruct m. Qed.

Lemma resolve_host_cases (m : Machine) :
  exists r ran,
    resolve_host m = (r, after_running ran m)
    /\ (ran = [] \/ ran = [gcloud_list]
        \/ exists name, ran = [gcloud_list; gcloud_describe name])
    /\ (no_project m -> ran = [] /\ r = Ret (getenv_or m "DATABASE_HOST" "localhost"))
    /\ (r = Ret (getenv_or m "DATABASE_HOST" "localhost")
        \/ (exists e, r = Raise e)
        \/ exists listed described,
             ~ no_project m
             /\ programs m gcloud_list = Ret listed
             /\ returncode listed = 0
             /\ strip (stdout listed) <> EmptyString
             /\ programs m (gcloud_describe (first_line (strip (stdout listed))))
                = Ret described
             /\ returncode described = 0
             /\ ran = [gcloud_list; gcloud_describe (first_line (strip (stdout listed)))]
             /\ r = Ret (strip (stdout described))).
Proof.
  unfold resolve_host. cbv zeta. fold (no_project m).
  case_bool_decide as Hproject.
  { exists (Ret (getenv_or m "DATABASE_HOST" "localhost")), [].
    rewrite after_running_nil. split; [done|]. split; [by left|]. split; [done|by left]. }
  unfold subprocess_run. cbn [environ programs started getenv_or].
  destruct (programs m gcloud_list) as [listed|e] eqn:Hlist.
  2:{ exists (Raise e), [gcloud_list]. split; [done|]. split; [by right; left|].
      split; [done|]. right. left. by exists e. }
  destruct (returncode listed =? 0) eqn:Hcode; cbn [negb orb].
  2:{ exists (Ret (getenv_or m "DATABASE_HOST" "localhost")), [gcloud_list].
      split; [done|]. split; [by right; left|]. split; [done|by left]. }
  case_bool_decide as Hblank.
  { exists (Ret (getenv_or m "DATABASE_HOST" "localhost")), [gcloud_list].
    split; [done|]. split; [by right; left|]. split; [done|by left]. }
  set (name := first_line (strip (stdout listed))).
  destruct (programs m (gcloud_describe name)) as [described|e] eqn:Hdescribe.
  2:{ exists (Raise e), [gcloud_list; gcloud_describe name].
      split; [unfold after_running; by rewrite <- app_assoc|].
      split; [right; right; by exists name|]. split; [done|]. right. left. by exists e. }
  destruct (returncode described =? 0) eqn:Hcode2.
  - exists (Ret (strip (stdout described))), [gcloud_list; gcloud_describe name].
    split; [unfold after_running; by rewrite <- app_assoc|].
    split; [right; right; by exists name|]. split; [done|]. right. right.
    exists listed, described. apply Z.eqb_eq in Hcode, Hcode2. done.
  - exists (Ret (getenv_or m "DATABASE_HOST" "localhost")), [gcloud_list; gcloud_describe name].
    split; [unfold after_running; by rewrite <- app_assoc|].
    split; [right; right; by exists name|]. split; [done|by left].
Qed.

Lemma get_database_host_cases (m : Machine) :
  exists host ran,
    get_database_host m = (Ret host, after_running ran m)
    /\ (ran = [] \/ ran = [gcloud_list]
        \/ exists name, ran = [gcloud_list; gcloud_describe name])
    /\ (no_project m -> ran = [] /\ host = getenv_or m "DATABASE_HOST" "localhost")
    /\ (host <> getenv_or m "DATABASE_HOST" "localhost" ->
        exists listed described,
          programs m gcloud_list = Ret listed
          /\ returncode listed = 0
          /\ strip (stdout listed) <> EmptyString
          /\ programs m (gcloud_describe (first_line (strip (stdout listed))))
             = Ret described
          /\ returncode described = 0
          /\ host = strip (stdout described)).
Proof.
  unfold get_database_host.
  destruct (resolve_host_cases m) as (r & ran & -> & Hran & Hnone & Hr).
  assert (Henv : getenv_or (after_running ran m) "DATABASE_HOST" "localhost"
                 = getenv_or m "DATABASE_HOST" "localhost") by done.
  destruct r as [host|e].
  - exists host, ran. split; [done|]. split; [done|].
    split; [intros Hp; destruct (Hnone Hp) as [? [= ?]]; done|].
    intros Hother. destruct Hr as [[= ?]|[[e [=]]|Hr]]; [done|].
    destruct Hr as (listed & described & _ & ? & ? & ? & ? & ? & _ & [= ->]).
    by exists listed, described.
  - eexists _, ran. split; [reflexivity|]. split; [done|].
    split; [intros Hp; by destruct (Hnone Hp)|]. by rewrite Henv.
Qed.

Lemma get_database_host_environ (m : Machine) r m1 :
  get_database_host m = (r, m1) -> environ m1 = environ m /\ programs m1 = programs m.
Proof.
  unfold get_database_host.
  destruct (resolve_host_cases m) as (r0 & ran & -> & _).
  destruct r0; intros [= <- <-]; done.
Qed.

Lemma lower_char_t (a : Ascii.ascii) :
  lower_char a = Ascii.ascii_of_nat 116 <-> a = Ascii.ascii_of_nat 116 \/ a = Ascii.ascii_of_nat 84.
Proof.
  split.
  - destruct a as [[] [] [] [] [] [] [] []]; vm_compute; intros [=]; auto.
  - intros [->| ->]; reflexivity.
Qed.

Lemma lower_char_r (a : Ascii.ascii) :
  lower_char a = Ascii.ascii_of_nat 114 <-> a = Ascii.ascii_of_nat 114 \/ a = Ascii.ascii_of_nat 82.
Proof.
  split.
  - destruct a as [[] [] [] [] [] [] [] []]; vm_compute; intros [=]; auto.
  - intros [->| ->]; reflexivity.
Qed.

Lemma lower_char_u (a : Ascii.ascii) :
  lower_char a = Ascii.ascii_of_nat 117 <-> a = Ascii.ascii_of_nat 117 \/ a = Ascii.ascii_of_nat 85.
Proof.
  split.
  - destruct a as [[] [] [] [] [] [] [] []]; vm_compute; intros [=]; auto.
  - intros [->| ->]; reflexivity.
Qed.

Lemma lower_char_e (a : Ascii.ascii) :
  lower_char a = Ascii.ascii_of_nat 101 <-> a = Ascii.ascii_of_nat 101 \/ a = Ascii.ascii_of_nat 69.
Proof.
  split.
  - destruct a as [[] [] [] [] [] [] [] []]; vm_compute; intros [=]; auto.
  - intros [->| ->]; reflexivity.
Qed.

Lemma lower_true (s : string) : lower s = "true" <-> s ∈ true_spellings.
Proof.
  split.
  - destruct s as [|a [|b [|c [|d [|? ?]]]]]; try discriminate.
    cbn [lower]. intros [= Ha Hb Hc Hd].
    apply lower_char_t in Ha. apply lower_char_r in Hb.
    apply lower_char_u in Hc. apply lower_char_e in Hd.
    unfold true_spellings.
    destruct Ha as [->| ->], Hb as [->| ->], Hc as [->| ->], Hd as [->| ->];
      vm_compute; set_solver.
  - unfold true_spellings. intros Hin.
    repeat (apply elem_of_cons in Hin as [->|Hin]; [reflexivity|]).
    by apply elem_of_nil in Hin.
Qed.

End ConfigFacts.

(** * Further properties: the store and the pool *)

Section StoreExtras.
Context {F : Type} `{!PyFloatOps F} `{!Evidently F}.

(** X1.  No call of the module deletes or changes what is stored: after
    [initialize_database], [log_prediction], [log_drift_result],
    [get_recent_predictions] or [detect_drift], whether it returned or
    raised and whatever faults it met, every table that existed still
    exists, its old rows are the first rows of the new table in the same
    order, and its sequence has not gone back; the clock, the
    configuration and the reference files are untouched and the trace has
    only been added to. *)
Theorem calls_only_append (w : World F) :
  (forall r w', initialize_database w = (r, w') -> extends w w')
  /\ (forall input_data prediction model_version r w',
        log_prediction input_data prediction model_version w = (r, w') -> extends w w')
  /\ (forall drift_detected drift_score feature_name drift_type report_data r w',
        log_drift_result drift_detected drift_score feature_name drift_type report_data w
          = (r, w') -> extends w w')
  /\ (forall r w', get_recent_predictions w = (r, w') -> extends w w')
  /\ (forall r w', detect_drift w = (r, w') -> extends w w').
Proof.
  split; [|split; [|split; [|split]]]; intros.
  - by eapply initialize_database_extends.
  - by eapply log_prediction_extends.
  - by eapply log_drift_result_extends.
  - by eapply get_recent_predictions_extends.
  - by eapply detect_drift_extends.
Qed.

(** X2.  [get_db_connection] never raises, in any state of the process: it
    returns a connection or [None], it does not touch the tables, and a
    [None] comes with the error it has logged as the last entry of the
    log. *)
Theorem get_db_connection_never_raises (w : World F) :
  exists conn w',
    get_db_connection w = (Ret conn, w')
    /\ db w' = db w
    /\ (conn = None ->
        exists e, last (trace w') = Some (EvLog ERROR "Database connection failed" (Some e))).
Proof.
  destruct (get_db_connection_cases w) as [(c & w' & Hget)|(e & w1 & Hget)].
  - exists (Some c), w'. split; [done|]. split; [by eapply get_db_connection_db|done].
  - eexists None, _. split; [exact Hget|]. split; [by eapply get_db_connection_db|].
    intros _. exists e. wsimpl. apply last_snoc.
Qed.

(** X3.  The pool is built on the first call of [get_connection_pool] and
    kept: when the connect of its one initial connection goes through, the
    pool has that connection idle and nothing lent, with [minconn = 1] and
    [maxconn = 5], the callback is registered with [atexit] once, and any
    later call changes nothing; when the connect fails the exception leaves
    the function, no pool is kept, and the next call starts afresh. *)
Theorem pool_built_on_first_use (w : World F) :
  _connection_pool w = None ->
  match hd NoFault (faults w) with
  | NoFault =>
      exists w1 p,
        get_connection_pool w = (Ret tt, w1)
        /\ _connection_pool w1 = Some p
        /\ minconn p = 1%nat /\ maxconn p = 5%nat /\ pool_closed p = false
        /\ _pool p = [next_conn w] /\ _used p = ∅
        /\ conns w1 !! next_conn w = Some fresh_connection
        /\ trace w1 = trace w ++ [EvConnect ByPool; EvAtexitRegister]
        /\ get_connection_pool w1 = (Ret tt, w1)
  | _ =>
      exists w1,
        get_connection_pool w
        = (Raise (OperationalError "could not connect to server"), w1)
        /\ _connection_pool w1 = None
        /\ trace w1 = trace w ++ [EvConnect ByPool]
  end.
Proof.
  intros Hp.
  assert (Hrun : get_connection_pool w =
            match hd NoFault (faults w) with
            | NoFault =>
                emit EvAtexitRegister
                  (set_connection_pool
                     (Some {| minconn := 1; maxconn := 5; pool_closed := false;
                              _pool := [next_conn w]; _used := ∅; _rused := ∅;
                              _keys := 0 |})
                     (set_next_conn (S (next_conn w))
                        (set_conns (<[next_conn w := fresh_connection]> (conns w))
                           (set_faults (tl (faults w))
                              (set_trace (trace w ++ [EvConnect ByPool]) w)))))
            | _ =>
                (Raise (OperationalError "could not connect to server"),
                 set_faults (tl (faults w)) (set_trace (trace w ++ [EvConnect ByPool]) w))
            end).
  { unfold get_connection_pool. rewrite Hp.
    unfold ThreadedConnectionPool, open_idle, _connect, psycopg2_connect.
    munfold; wsimpl. by destruct (hd NoFault (faults w)). }
  rewrite Hrun. destruct (hd NoFault (faults w)).
  - unfold emit. eexists _, _. split; [reflexivity|]. wsimpl.
    split; [reflexivity|]. cbn [minconn maxconn pool_closed _pool _used].
    do 5 (split; [reflexivity|]). split; [apply lookup_insert_eq|].
    split; [by rewrite <- app_assoc|]. by unfold get_connection_pool.
  - eexists. split; [reflexivity|]. by wsimpl.
  - eexists. split; [reflexivity|]. by wsimpl.
Qed.

(** X4.  [return_connection] hands whatever it is given to [putconn]: for a
    connection the open pool is not lending (one released before, or one
    that never came from the pool) [putconn] raises [PoolError] and the
    exception leaves [return_connection], with nothing changed; for [None]
    it does nothing. *)
Theorem release_of_unlent_connection (w : World F) (p : Pool) (c : nat) :
  _connection_pool w = Some p -> pool_closed p = false -> _rused p !! c = None ->
  return_connection (Some c) w
  = (Raise (PoolError "trying to put unkeyed connection"), w)
  /\ return_connection None w = (Ret tt, w).
Proof.
  intros Hp Hopen Hc. split; [|done].
  unfold return_connection, bind, get_connection_pool, on_pool, _putconn.
  rewrite Hp. cbn beta iota. rewrite Hp. cbn beta iota. rewrite Hopen, Hc.
  by rewrite (set_connection_pool_same w (Some p)).
Qed.

(** X5.  The pool never holds more than its five connections: if the idle
    and the lent connections together are at most five, they still are
    after any [get_db_connection] and after any [return_connection],
    whatever the outcome; acquiring also keeps the pool well formed. *)
Theorem pool_holds_at_most_five (w : World F) :
  pool_ok w = true -> (held w <= 5)%nat ->
  (forall r w', get_db_connection w = (r, w') ->
     pool_ok w' = true /\ (held w' <= 5)%nat)
  /\ (forall conn r w', return_connection conn w = (r, w') -> (held w' <= 5)%nat).
Proof.
  intros Hok Hheld. split.
  - intros r w' Hget. split; [|by eapply get_db_connection_held].
    destruct (get_db_connection_spec w Hok) as (r0 & w1 & Hget' & _ & _ & Hok1 & _).
    rewrite Hget in Hget'. by injection Hget' as -> ->.
  - intros conn r w' Hput. pose proof (return_connection_held w conn r w' Hok Hput). lia.
Qed.

(** X6.  [initialize_database] never raises from a well-formed pool, whatever
    the faults: it returns a boolean.  When that is [True] both tables
    exist, a table that existed is exactly as it was (rows and sequence)
    and a missing one is new and empty; so a second run on initialised
    tables changes nothing. *)
Theorem initialize_database_never_raises (w : World F) :
  pool_ok w = true ->
  exists b w',
    initialize_database w = (Ret b, w')
    /\ (b = true ->
        predictions (db w') = Some (default empty_table (predictions (db w)))
        /\ drift_reports (db w') = Some (default empty_table (drift_reports (db w)))
        /\ (forall t1 t2,
              predictions (db w) = Some t1 -> drift_reports (db w) = Some t2 ->
              db w' = db w)).
Proof.
  intros Hok.
  destruct (initialize_database_spec w Hok) as (b & w' & Hrun & _ & _ & Hb).
  exists b, w'. split; [done|]. intros Htrue.
  destruct (Hb Htrue) as (Hp & Hd & _). split; [done|]. split; [done|].
  intros t1 t2 Ht1 Ht2. rewrite Ht1 in Hp. rewrite Ht2 in Hd. cbn in Hp, Hd.
  destruct (db w') as [p' d'], (db w) as [p0 d0]. cbn in *. congruence.
Qed.



(** X9.  Row ids stay unique and in the order of insertion: if in both
    tables the ids increase along the rows and lie below the next value of
    the sequence, the same holds after [log_prediction],
    [log_drift_result], [get_recent_predictions] and [detect_drift],
    whether they returned or raised (a sequence value an aborted insert
    has consumed is skipped, never given out twice). *)
Theorem ids_stay_increasing (w : World F) :
  pool_ok w = true ->
  ids_ok pr_id (predictions (db w)) -> ids_ok dr_id (drift_reports (db w)) ->
  (forall input_data prediction model_version r w',
     log_prediction input_data prediction model_version w = (r, w') ->
     ids_ok pr_id (predictions (db w')) /\ ids_ok dr_id (drift_reports (db w')))
  /\ (forall drift_detected drift_score feature_name drift_type report_data r w',
        log_drift_result drift_detected drift_score feature_name drift_type report_data w
          = (r, w') ->
        ids_ok pr_id (predictions (db w')) /\ ids_ok dr_id (drift_reports (db w')))
  /\ (forall r w', get_recent_predictions w = (r, w') ->
        ids_ok pr_id (predictions (db w')) /\ ids_ok dr_id (drift_reports (db w')))
  /\ (forall r w', detect_drift w = (r, w') ->
        ids_ok pr_id (predictions (db w')) /\ ids_ok dr_id (drift_reports (db w'))).
Proof.
  intros Hok Hp Hd. split; [|split; [|split]]; intros.
  - by eapply log_prediction_ids.
  - by eapply log_drift_result_ids.
  - by eapply get_recent_predictions_ids.
  - by eapply detect_drift_rows.
Qed.

(** X10.  The callback registered with [atexit] closes every connection the
    pool knows, idle or lent, and closes the pool, leaving the tables as
    they are.  The closed pool stays in the module: afterwards
    [get_db_connection] returns [None] without building a new pool,
    [log_prediction] returns [False] and stores nothing, and a second run
    of the callback raises [PoolError]. *)
Theorem closed_pool_stays_closed (w : World F) (p : Pool) :
  _connection_pool w = Some p -> pool_closed p = false ->
  exists w1 p1,
    atexit_callback w = (Ret tt, w1)
    /\ _connection_pool w1 = Some p1 /\ pool_closed p1 = true
    /\ db w1 = db w
    /\ (forall c k,
          c ∈ _pool p \/ (exists key, _used p !! key = Some c) ->
          conns w !! c = Some k ->
          exists k', conns w1 !! c = Some k' /\ closed k' = true)
    /\ (exists w2, get_db_connection w1 = (Ret None, w2)
                   /\ _connection_pool w2 = Some p1)
    /\ (forall input_data prediction model_version,
          exists w2,
            log_prediction input_data prediction model_version w1 = (Ret false, w2)
            /\ db w2 = db w1)
    /\ (exists w2, atexit_callback w1 = (Raise (PoolError "connection pool is closed"), w2)).
Proof.
  intros Hp Hopen. eexists _, _.
  split; [by apply atexit_callback_closes|]. wsimpl.
  split; [reflexivity|]. split; [reflexivity|]. split; [reflexivity|].
  split.
  { intros c k Hin Hk. apply (close_all_closes _ _ c k); [|done].
    apply elem_of_app. destruct Hin as [Hin|[key Hkey]]; [by left|right].
    apply list_elem_of_fmap. exists (key, c). split; [done|].
    by apply elem_of_map_to_list. }
  split.
  { eexists. split; [by eapply get_db_connection_closed; wsimpl|]. by wsimpl. }
  split.
  { intros i pr mv. eexists. split.
    - unfold log_prediction, bind.
      erewrite get_db_connection_closed by (by wsimpl). reflexivity.
    - by wsimpl. }
  eexists. unfold atexit_callback, on_pool, _closeall. wsimpl. reflexivity.
Qed.

(** X11.  On a server without the [predictions] table the read is not gated:
    [get_recent_predictions] raises the server's error instead of returning
    [None], and [detect_drift] lets that error through instead of returning
    [False]; nothing is written. *)
Theorem missing_table_fails_the_run (w : World F) (reference_df : DataFrame F) :
  predictions (db w) = None -> faults_clear 3 w = true ->
  load_reference_data w = (Ret reference_df, w) ->
  exists w',
    get_recent_predictions w
    = (Raise (ProgrammingError "relation predictions does not exist"), w')
    /\ detect_drift w
       = (Raise (ProgrammingError "relation predictions does not exist"), w')
    /\ db w' = db w.
Proof.
  intros Ht Hclear Hload.
  destruct (get_recent_predictions_no_table w Ht Hclear) as (w' & Hread & Hdb).
  exists w'. split; [done|]. split; [by eapply detect_drift_read_raises|done].
Qed.

(** X12.  When the server cannot be reached, the read raises the connect
    error and [detect_drift] lets it through: the run fails instead of
    returning [False], no connection object exists afterwards that did not
    before, and the pool and the tables are untouched. *)
Theorem unreachable_server_fails_the_run (w : World F) (reference_df : DataFrame F) :
  hd NoFault (faults w) <> NoFault ->
  load_reference_data w = (Ret reference_df, w) ->
  exists w',
    get_recent_predictions w
    = (Raise (OperationalError "could not connect to server"), w')
    /\ detect_drift w = (Raise (OperationalError "could not connect to server"), w')
    /\ db w' = db w /\ conns w' = conns w /\ next_conn w' = next_conn w
    /\ _connection_pool w' = _connection_pool w.
Proof.
  intros Hf Hload. eexists.
  split; [by apply get_recent_predictions_no_connection|].
  split; [eapply detect_drift_read_raises; [done|]; by apply get_recent_predictions_no_connection|].
  by wsimpl.
Qed.


(** X14.  Every report [detect_drift] persists records a sample size between
    10 and 50: the gate of the read and the [LIMIT] of its query bound the
    sample the analysis sees. *)
Theorem persisted_sample_size_bounds (w w' : World F) :
  pool_ok w = true ->
  detect_drift w = (Ret true, w') ->
  report_rows w' <> report_rows w ->
  exists row n,
    report_rows w' = report_rows w ++ [row]
    /\ dr_report_data row !! "sample_size" = Some (JInt n)
    /\ 10 <= n <= 50.
Proof.
  intros Hok Hrun Hchanged. apply detect_drift_run in Hrun.
  destruct (get_recent_predictions_spec w) as (r1 & w1 & Hread & Hro & _ & Hsample).
  pose proof (proj1 (same_rows_reports _ _ (ro_rows _ _ Hro))) as Hrows1.
  fold (report_rows w1) (report_rows w) in Hrows1.
  inversion Hrun as
    [ | | | |
    | ref cur w1' count share logged w3 Hload Hread' Hdrift Hlog ]; subst.
  rewrite Hread in Hread'. injection Hread' as -> <-.
  set (w2 := set_trace (trace w1 ++ [EvRunReport]) w1) in *.
  assert (Hok2 : pool_ok w2 = true).
  { apply (read_only_pool_ok w1); [|by eapply read_only_pool_ok].
    subst w2. by split; wsimpl; auto using same_rows_refl. }
  cbv zeta in Hlog. set (a := drift_report_args share count cur) in *.
  destruct (log_drift_result_spec w2 (a_drift_detected a) (a_drift_score a)
              (a_feature_name a) (a_drift_type a) (a_report_data a) Hok2)
    as (r3 & w3' & Hlog' & _ & _ & Hr3).
  rewrite Hlog in Hlog'. injection Hlog' as <- <-.
  destruct Hsample as (t & Ht & Hs). symmetry in Hs. apply recent_sample_size in Hs.
  unfold report_rows at 1 in Hchanged. wsimpl. fold (report_rows w3) in Hchanged.
  destruct logged.
  2:{ exfalso. apply Hchanged. apply same_rows_reports in Hr3 as [Hr3 _].
      etransitivity; [exact Hr3|exact Hrows1]. }
  destruct Hr3 as (tr & doc & Htr & Hdoc & Hdb3).
  subst a. unfold drift_report_args in Hdoc. cbn [a_report_data] in Hdoc.
  rewrite report_data_dumps in Hdoc. injection Hdoc as <-.
  eexists _, (Z.of_nat (length cur)). split.
  { unfold report_rows at 1. wsimpl. rewrite Hdb3. cbn.
    rewrite <- Hrows1. change (report_rows w1) with (report_rows w2).
    unfold report_rows. rewrite Htr. reflexivity. }
  split; [|lia]. cbn [dr_report_data report_row].
  rewrite lookup_insert_ne by done. rewrite lookup_insert_ne by done.
  apply lookup_insert_eq.
Qed.

(** X15.  [detect_drift] never writes to the [predictions] table: its rows
    are the same after the run as before, whether the run returned or
    raised. *)
Theorem detect_drift_keeps_predictions (w : World F) (r : result bool) (w' : World F) :
  pool_ok w = true -> detect_drift w = (r, w') ->
  prediction_rows w' = prediction_rows w.
Proof. intros Hok Hrun. by eapply detect_drift_rows. Qed.

End StoreExtras.

Section ConfigExtras.

(** X16.  [get_database_host] never raises and starts at most two command
    lines, the listing and then one [describe]; with the project id unset
    or empty it starts none and returns [DATABASE_HOST], or ["localhost"]
    when that is unset.  Any other host it returns is the stripped output
    of a [describe] that exited 0, run for the first line of a listing that
    exited 0 with output that is not blank. *)
Theorem get_database_host_never_raises (m : Machine) :
  exists host ran,
    get_database_host m = (Ret host, after_running ran m)
    /\ (ran = [] \/ ran = [gcloud_list]
        \/ exists name, ran = [gcloud_list; gcloud_describe name])
    /\ (no_project m -> ran = [] /\ host = getenv_or m "DATABASE_HOST" "localhost")
    /\ (host <> getenv_or m "DATABASE_HOST" "localhost" ->
        exists listed described,
          programs m gcloud_list = Ret listed
          /\ returncode listed = 0
          /\ strip (stdout listed) <> EmptyString
          /\ programs m (gcloud_describe (first_line (strip (stdout listed))))
             = Ret described
          /\ returncode described = 0
          /\ host = strip (stdout described)).
Proof. apply get_database_host_cases. Qed.

(** X17.  With a project id set, a listing that exits 0 with output that is
    not blank, and a [describe] of its first line that runs,
    [get_database_host] returns the stripped output of the [describe] when
    that exited 0 - also when that output is blank, in which case the
    host is the empty string, with no fallback - and [DATABASE_HOST] or
    ["localhost"] when it did not exit 0. *)
Theorem database_host_resolution (m : Machine) (listed described : CompletedProcess) :
  ~ no_project m ->
  programs m gcloud_list = Ret listed ->
  returncode listed = 0 ->
  strip (stdout listed) <> EmptyString ->
  programs m (gcloud_describe (first_line (strip (stdout listed)))) = Ret described ->
  (get_database_host m).1
  = Ret (if returncode described =? 0
         then strip (stdout described)
         else getenv_or m "DATABASE_HOST" "localhost").
Proof.
  intros Hproject Hlist Hcode Hblank Hdescribe.
  unfold get_database_host, resolve_host. cbv zeta. fold (no_project m).
  rewrite bool_decide_eq_false_2 by done.
  unfold subprocess_run. cbn [environ programs started getenv_or].
  rewrite Hlist. rewrite Hcode. cbn [Z.eqb negb orb].
  rewrite bool_decide_eq_false_2 by done.
  rewrite Hdescribe. by destruct (returncode described =? 0).
Qed.

(** X18.  Cloud storage is switched on by the sixteen spellings of [true] in
    upper and lower case and by nothing else: not by ["1"], ["yes"] or a
    value with a blank around it, and not when the variable is unset. *)
Theorem cloud_storage_switch (m m1 : Machine) (config : Settings) :
  load_settings m = (Ret config, m1) ->
  USE_CLOUD_STORAGE (monitoring config) = true
  <-> exists s, getenv m "USE_CLOUD_STORAGE" = Some s /\ s ∈ true_spellings.
Proof.
  unfold load_settings. cbv zeta.
  destruct (get_database_host m) as [[host|e] m0] eqn:Hhost; [|done].
  apply get_database_host_environ in Hhost as [Henv _].
  intros [= <- <-]. cbn [monitoring USE_CLOUD_STORAGE].
  unfold getenv_or, getenv. rewrite Henv. rewrite bool_decide_eq_true.
  destruct (environ m !! "USE_CLOUD_STORAGE") as [s|]; cbn [default].
  - rewrite lower_true. split; [by exists s|]. by intros (s' & [= <-] & Hs).
  - split; [done|]. by intros (s' & [=] & _).
Qed.

(** X19.  The read of [drift_detection.py] and the pool of [database.py]
    take their connection settings from the same environment in two ways.
    Port, database and user always agree.  The passwords agree only when
    [DATABASE_PASSWORD] is set (the read falls back to ["example"], the
    pool to none).  The hosts agree only when [DATABASE_HOST] is set to
    the host [get_database_host] found; with the project id unset or empty
    that is whenever [DATABASE_HOST] is set. *)
Theorem read_and_pool_settings (m m1 : Machine) (config : Settings) :
  load_settings m = (Ret config, m1) ->
  arg_port (DB_CONN config) = arg_port (pool_connect_args m1)
  /\ arg_database (DB_CONN config) = arg_database (pool_connect_args m1)
  /\ arg_user (DB_CONN config) = arg_user (pool_connect_args m1)
  /\ (arg_password (DB_CONN config) = arg_password (pool_connect_args m1)
      <-> getenv m "DATABASE_PASSWORD" <> None)
  /\ (arg_host (DB_CONN config) = arg_host (pool_connect_args m1)
      <-> getenv m "DATABASE_HOST" = Some (DATABASE_HOST config))
  /\ (no_project m ->
      (arg_host (DB_CONN config) = arg_host (pool_connect_args m1)
       <-> getenv m "DATABASE_HOST" <> None)).
Proof.
  unfold load_settings. cbv zeta.
  destruct (get_database_host_cases m) as (host & ran & Hhost & _ & Hnone & _).
  rewrite Hhost. intros [= <- <-].
  unfold DB_CONN, pool_connect_args, getenv, getenv_or. cbn.
  split; [done|]. split; [done|]. split; [done|].
  split.
  { destruct (environ m !! "DATABASE_PASSWORD") as [pw|]; cbn; split; intros Hx;
      first [done | congruence | by destruct Hx]. }
  split; [split; intros Hx; congruence|].
  intros Hp. destruct (Hnone Hp) as [_ ->]. unfold getenv_or.
  destruct (environ m !! "DATABASE_HOST") as [h|]; cbn; split; intros Hx;
    first [done | congruence | by destruct Hx].
Qed.

End ConfigExtras.

(** * The further properties on concrete worlds *)

Import Scenario.

(** An outcome is known from its first component. *)
Lemma outcome_of_fst {A B} (x : A * B) (a : A) : x.1 = a -> x = (a, x.2).
Proof. destruct x. cbn. by intros ->. Qed.

Lemma pool_built_on_first_use_witness :
  _connection_pool fresh_world = None
  /\ exists w1 p,
       get_connection_pool fresh_world = (Ret tt, w1)
       /\ _connection_pool w1 = Some p
       /\ minconn p = 1%nat /\ maxconn p = 5%nat /\ pool_closed p = false
       /\ _pool p = [next_conn fresh_world] /\ _used p = ∅
       /\ conns w1 !! next_conn fresh_world = Some fresh_connection
       /\ trace w1 = trace fresh_world ++ [EvConnect ByPool; EvAtexitRegister]
       /\ get_connection_pool w1 = (Ret tt, w1).
Proof.
  split; [reflexivity|]. apply (pool_built_on_first_use fresh_world). reflexivity.
Defined.

Lemma release_of_unlent_connection_witness :
  _connection_pool served_world = Some served_pool
  /\ pool_closed served_pool = false
  /\ _rused served_pool !! 0%nat = None
  /\ return_connection (Some 0%nat) served_world
     = (Raise (PoolError "trying to put unkeyed connection"), served_world)
  /\ return_connection None served_world = (Ret tt, served_world).
Proof.
  split; [vm_compute; reflexivity|]. split; [reflexivity|].
  split; [vm_compute; reflexivity|].
  apply (release_of_unlent_connection served_world served_pool 0%nat);
    vm_compute; reflexivity.
Defined.

Lemma pool_holds_at_most_five_witness :
  pool_ok exhausted = true
  /\ (held exhausted <= 5)%nat
  /\ (forall r w', get_db_connection exhausted = (r, w') ->
        pool_ok w' = true /\ (held w' <= 5)%nat)
  /\ (forall conn r w', return_connection conn exhausted = (r, w') -> (held w' <= 5)%nat).
Proof.
  assert (Hheld : (held exhausted <= 5)%nat) by (vm_compute; lia).
  split; [vm_compute; reflexivity|]. split; [exact Hheld|].
  apply (pool_holds_at_most_five exhausted); [vm_compute; reflexivity|exact Hheld].
Defined.

Lemma initialize_database_never_raises_witness :
  pool_ok bare_world = true
  /\ exists b w',
       initialize_database bare_world = (Ret b, w')
       /\ (b = true ->
           predictions (db w') = Some (default empty_table (predictions (db bare_world)))
           /\ drift_reports (db w')
              = Some (default empty_table (drift_reports (db bare_world)))
           /\ (forall t1 t2,
                 predictions (db bare_world) = Some t1 ->
                 drift_reports (db bare_world) = Some t2 ->
                 db w' = db bare_world)).
Proof.
  split; [reflexivity|]. apply (initialize_database_never_raises bare_world). reflexivity.
Defined.



(** The bounds of [VARCHAR(50)] on the busy process: fifty-one characters
    are refused, the payload is else the same. *)
Example version_of_fifty_one_characters :
  String.length long_version = 51%nat
  /\ storable_prediction payload_650 "v3" = true
  /\ storable_prediction payload_650 long_version = false
  /\ (log_prediction payload_650 (73 # 100)%Q long_version busy_world).1 = Ret false.
Proof. repeat split; vm_compute; reflexivity. Qed.

Lemma ids_stay_increasing_witness :
  pool_ok busy_world = true
  /\ ids_ok pr_id (predictions (db busy_world))
  /\ ids_ok dr_id (drift_reports (db busy_world))
  /\ (forall input_data prediction model_version r w',
        log_prediction input_data prediction model_version busy_world = (r, w') ->
        ids_ok pr_id (predictions (db w')) /\ ids_ok dr_id (drift_reports (db w')))
  /\ (forall drift_detected drift_score feature_name drift_type report_data r w',
        log_drift_result drift_detected drift_score feature_name drift_type report_data
          busy_world = (r, w') ->
        ids_ok pr_id (predictions (db w')) /\ ids_ok dr_id (drift_reports (db w')))
  /\ (forall r w', get_recent_predictions busy_world = (r, w') ->
        ids_ok pr_id (predictions (db w')) /\ ids_ok dr_id (drift_reports (db w')))
  /\ (forall r w', detect_drift busy_world = (r, w') ->
        ids_ok pr_id (predictions (db w')) /\ ids_ok dr_id (drift_reports (db w'))).
Proof.
  assert (Hp : ids_ok pr_id (predictions (db busy_world))).
  { split; cbn; repeat (constructor; [|try done]); repeat constructor. }
  assert (Hd : ids_ok dr_id (drift_reports (db busy_world))).
  { split; cbn; constructor. }
  split; [reflexivity|]. split; [exact Hp|]. split; [exact Hd|].
  apply (ids_stay_increasing busy_world); [reflexivity|exact Hp|exact Hd].
Defined.

Lemma closed_pool_stays_closed_witness :
  _connection_pool leaving_world = Some leaving_pool
  /\ pool_closed leaving_pool = false
  /\ _pool leaving_pool = [0%nat]
  /\ _used leaving_pool !! 2%nat = Some 1%nat
  /\ exists w1 p1,
       atexit_callback leaving_world = (Ret tt, w1)
       /\ _connection_pool w1 = Some p1 /\ pool_closed p1 = true
       /\ db w1 = db leaving_world
       /\ (forall c k,
             c ∈ _pool leaving_pool \/ (exists key, _used leaving_pool !! key = Some c) ->
             conns leaving_world !! c = Some k ->
             exists k', conns w1 !! c = Some k' /\ closed k' = true)
       /\ (exists w2, get_db_connection w1 = (Ret None, w2)
                      /\ _connection_pool w2 = Some p1)
       /\ (forall input_data prediction model_version,
             exists w2,
               log_prediction input_data prediction model_version w1 = (Ret false, w2)
               /\ db w2 = db w1)
       /\ (exists w2,
             atexit_callback w1 = (Raise (PoolError "connection pool is closed"), w2)).
Proof.
  split; [vm_compute; reflexivity|]. split; [reflexivity|].
  split; [vm_compute; reflexivity|]. split; [vm_compute; reflexivity|].
  apply (closed_pool_stays_closed leaving_world leaving_pool); vm_compute; reflexivity.
Defined.

Lemma missing_table_fails_the_run_witness :
  predictions (db bare_world) = None
  /\ faults_clear 3 bare_world = true
  /\ load_reference_data bare_world = (Ret reference_table, bare_world)
  /\ exists w',
       get_recent_predictions bare_world
       = (Raise (ProgrammingError "relation predictions does not exist"), w')
       /\ detect_drift bare_world
          = (Raise (ProgrammingError "relation predictions does not exist"), w')
       /\ db w' = db bare_world.
Proof.
  split; [reflexivity|]. split; [reflexivity|]. split; [reflexivity|].
  apply (missing_table_fails_the_run bare_world reference_table); reflexivity.
Defined.

Lemma unreachable_server_fails_the_run_witness :
  hd NoFault (faults offline_world) <> NoFault
  /\ load_reference_data offline_world = (Ret reference_table, offline_world)
  /\ exists w',
       get_recent_predictions offline_world
       = (Raise (OperationalError "could not connect to server"), w')
       /\ detect_drift offline_world
          = (Raise (OperationalError "could not connect to server"), w')
       /\ db w' = db offline_world /\ conns w' = conns offline_world
       /\ next_conn w' = next_conn offline_world
       /\ _connection_pool w' = _connection_pool offline_world.
Proof.
  assert (Hf : hd NoFault (faults offline_world) <> NoFault) by (cbn; discriminate).
  split; [exact Hf|]. split; [reflexivity|].
  apply (unreachable_server_fails_the_run offline_world reference_table);
    [exact Hf|reflexivity].
Defined.


Lemma persisted_sample_size_bounds_witness :
  pool_ok busy_world = true
  /\ detect_drift busy_world = (Ret true, (detect_drift busy_world).2)
  /\ report_rows (detect_drift busy_world).2 <> report_rows busy_world
  /\ exists row n,
       report_rows (detect_drift busy_world).2 = report_rows busy_world ++ [row]
       /\ dr_report_data row !! "sample_size" = Some (JInt n)
       /\ 10 <= n <= 50.
Proof.
  assert (Hchanged : report_rows (detect_drift busy_world).2 <> report_rows busy_world)
    by (vm_compute; discriminate).
  assert (Hrun : detect_drift busy_world = (Ret true, (detect_drift busy_world).2))
    by (apply outcome_of_fst; vm_compute; reflexivity).
  split; [reflexivity|]. split; [exact Hrun|]. split; [exact Hchanged|].
  apply (persisted_sample_size_bounds busy_world (detect_drift busy_world).2);
    [reflexivity|exact Hrun|exact Hchanged].
Defined.

Lemma detect_drift_keeps_predictions_witness :
  pool_ok busy_world = true
  /\ detect_drift busy_world = (Ret true, (detect_drift busy_world).2)
  /\ prediction_rows (detect_drift busy_world).2 = prediction_rows busy_world.
Proof.
  assert (Hrun : detect_drift busy_world = (Ret true, (detect_drift busy_world).2))
    by (apply outcome_of_fst; vm_compute; reflexivity).
  split; [reflexivity|]. split; [exact Hrun|].
  apply (detect_drift_keeps_predictions busy_world (Ret true) (detect_drift busy_world).2);
    [reflexivity|exact Hrun].
Defined.

Import Machines.

Lemma database_host_resolution_witness :
  ~ no_project cloud_machine
  /\ programs cloud_machine gcloud_list = Ret listing
  /\ returncode listing = 0
  /\ strip (stdout listing) <> EmptyString
  /\ programs cloud_machine (gcloud_describe (first_line (strip (stdout listing))))
     = Ret address
  /\ (get_database_host cloud_machine).1 = Ret "34.39.46.29".
Proof.
  assert (Hproject : ~ no_project cloud_machine).
  { intros [H|H]; vm_compute in H; discriminate. }
  assert (Hblank : strip (stdout listing) <> EmptyString) by (vm_compute; discriminate).
  split; [exact Hproject|]. split; [reflexivity|]. split; [reflexivity|].
  split; [exact Hblank|]. split; [vm_compute; reflexivity|].
  apply (database_host_resolution cloud_machine listing address);
    first [exact Hproject | exact Hblank | vm_compute; reflexivity].
Defined.

(** A [describe] that exits 0 and prints nothing gives the empty host,
    although [DATABASE_HOST] is set. *)
Example blank_address_is_the_host :
  getenv cloud_without_address "DATABASE_HOST" = Some "10.0.0.5"
  /\ (get_database_host cloud_without_address).1 = Ret EmptyString.
Proof. vm_compute. split; reflexivity. Qed.

Lemma cloud_storage_switch_witness :
  load_settings laptop = (Ret laptop_settings, laptop)
  /\ (USE_CLOUD_STORAGE (monitoring laptop_settings) = true
      <-> exists s, getenv laptop "USE_CLOUD_STORAGE" = Some s /\ s ∈ true_spellings).
Proof.
  split; [vm_compute; reflexivity|].
  apply (cloud_storage_switch laptop laptop laptop_settings). vm_compute; reflexivity.
Defined.

Lemma read_and_pool_settings_witness :
  load_settings cloud_machine = (Ret cloud_settings, (load_settings cloud_machine).2)
  /\ DATABASE_HOST cloud_settings = "34.39.46.29"
  /\ arg_port (DB_CONN cloud_settings)
     = arg_port (pool_connect_args (load_settings cloud_machine).2)
  /\ arg_database (DB_CONN cloud_settings)
     = arg_database (pool_connect_args (load_settings cloud_machine).2)
  /\ arg_user (DB_CONN cloud_settings)
     = arg_user (pool_connect_args (load_settings cloud_machine).2)
  /\ (arg_password (DB_CONN cloud_settings)
      = arg_password (pool_connect_args (load_settings cloud_machine).2)
      <-> getenv cloud_machine "DATABASE_PASSWORD" <> None)
  /\ (arg_host (DB_CONN cloud_settings)
      = arg_host (pool_connect_args (load_settings cloud_machine).2)
      <-> getenv cloud_machine "DATABASE_HOST" = Some (DATABASE_HOST cloud_settings))
  /\ (no_project cloud_machine ->
      (arg_host (DB_CONN cloud_settings)
       = arg_host (pool_connect_args (load_settings cloud_machine).2)
       <-> getenv cloud_machine "DATABASE_HOST" <> None)).
Proof.
  split; [vm_compute; reflexivity|]. split; [vm_compute; reflexivity|].
  apply (read_and_pool_settings cloud_machine (load_settings cloud_machine).2 cloud_settings).
  vm_compute; reflexivity.
Defined.
